(** * elementpath: XPath 3.1 operators, format tables and the W3C test driver

    A shallow embedding of
    - [elementpath/xpath31/_xpath31_operators.py] (map and array kind tests,
      the square array constructor, the lookup operator [?] and the arrow
      operator [=>]),
    - [elementpath/xpath30/translation_maps.py] (the tables of
      [format-integer]),
    - [tests/execute_w3c_tests.py] (the result validators of the W3C driver),
    together with the properties the specification states about them. *)

From Stdlib Require Import ZArith String Ascii List Bool Lia.
From stdpp Require Import base tactics option list strings pretty gmap.

Set Warnings "-register-all".

Local Open Scope Z_scope.
Local Open Scope string_scope.
Local Open Scope list_scope.

(** ** Errors and results *)

(** The errors the modelled code raises: [self.error(code)] with an XPath error
    code, [self.missing_context()], [self.wrong_syntax()] (also the syntax
    error of an unexpected token) and the built-in exceptions of Python
    ([IndexError], [AssertionError]). [SystemExit] is what [sys.exit(status)]
    raises: it is not an [Exception], so that [except Exception] does not
    catch it. [OutOfFuel] is not an error of the program: a loop of the model
    stopped at its bound. *)
Inductive error : Type :=
| Error (code : string)
| MissingContext
| WrongSyntax
| PyError (exception : string)
| SystemExit (status : Z)
| OutOfFuel.

Inductive result (A : Type) : Type :=
| Ok (a : A)
| Err (e : error).
Arguments Ok {A} a.
Arguments Err {A} e.

#[global] Instance result_ret : MRet result := @Ok.
#[global] Instance result_bind : MBind result :=
  fun A B f m => match m with Ok a => f a | Err e => Err e end.
#[global] Instance result_fmap : FMap result :=
  fun A B f m => match m with Ok a => Ok (f a) | Err e => Err e end.

(** ** Values *)

(** Atomic values that occur as map keys in the sources: strings (also the
    NCName of a [?name] key) and integers. *)
Inductive atomic : Type :=
| AString (s : string)
| AInteger (z : Z).

#[global] Instance atomic_eq_dec : EqDecision atomic.
Proof. solve_decision. Defined.

(** What a Python expression of the evaluator holds: [None], an atomic value,
    a node, a list (a materialised sequence), an [XPathMap] with its [_map]
    dictionary in insertion order, or an [XPathArray] with its [_array]. *)
Inductive pyobj : Type :=
| ONone
| OAtom (a : atomic)
| ONode (id : nat) (typed_value : pyobj)
| OList (l : list pyobj)
| OMap (d : list (atomic * pyobj))
| OArray (l : list pyobj).

Definition is_map (v : pyobj) : bool :=
  match v with OMap _ => true | _ => false end.
Definition is_array (v : pyobj) : bool :=
  match v with OArray _ => true | _ => false end.

(** Python dictionaries as association lists in insertion order. *)
Module Dict.

Definition t : Type := list (atomic * pyobj).

Fixpoint get (d : t) (k : atomic) : option pyobj :=
  match d with
  | [] => None
  | (k', v) :: d' => if decide (k' = k) then Some v else get d' k
  end.

(** [d[k] = v]: an existing key keeps its place, a new key goes last. *)
Fixpoint set (d : t) (k : atomic) (v : pyobj) : t :=
  match d with
  | [] => [(k, v)]
  | (k', v') :: d' =>
      if decide (k' = k) then (k, v) :: d' else (k', v') :: set d' k v
  end.

(** [d.pop(k, None)] *)
Definition del (d : t) (k : atomic) : t :=
  filter (fun kv => fst kv <> k) d.

Definition values (d : t) : list pyobj := map snd d.

(** [dict(items)] *)
Definition of_items (items : list (atomic * pyobj)) : t :=
  fold_left (fun d kv => set d (fst kv) (snd kv)) items [].

End Dict.

(** Modelled from the spec: [helpers.iter_sequence] is not among the sources.
    Section 3.1: a single item is interchangeable with the 1-sequence that
    contains it, the absent value contributes nothing, and what yields a
    sequence of sequences flattens one level; maps and arrays are items and
    are not flattened. *)
Definition iter_sequence (v : pyobj) : list pyobj :=
  match v with
  | ONone => []
  | OList l => l
  | _ => [v]
  end.

(** Modelled from the spec: [XPathToken.data_value] is not among the sources.
    Glossary, atomization: extracting the typed value from a node or returning
    an atomic value unchanged. *)
Definition data_value (v : pyobj) : pyobj :=
  match v with
  | ONode _ tv => tv
  | _ => v
  end.

(** Modelled from the spec: [XPathMap.__call__] is not among the sources.
    Section 3.4: keys are atomic values; lookup by a missing key yields the
    empty sequence, which [test_map_weekdays] observes as [None]. A key that
    is not atomic is a dynamic type error (section 7, XPTY). *)
Definition map_call (d : Dict.t) (key : pyobj) : result pyobj :=
  match key with
  | OAtom k => Ok (default ONone (Dict.get d k))
  | _ => Err (Error "XPTY0004")
  end.

(** Modelled from the spec: [XPathArray.__call__] is not among the sources.
    Section 3.4: an array is an ordered 1-based sequence of members
    ([test_array_lookup]: [[1, 2, 5, 7](4)] is [7]); an index that is not an
    integer of the range is a dynamic error. *)
Definition array_call (members : list pyobj) (key : pyobj) : result pyobj :=
  match key with
  | OAtom (AInteger z) =>
      if decide (1 <= z)
      then match members !! Z.to_nat (z - 1) with
           | Some m => Ok m
           | None => Err (Error "FOAY0001")
           end
      else Err (Error "FOAY0001")
  | _ => Err (Error "XPTY0004")
  end.

(** ** Generators *)

(** A Python generator run to its end: the items it yielded, and the error it
    raised after them, if any. *)
Definition gen : Type := list pyobj * option error.

Definition gen_done : gen := ([], None).
Definition gen_yield (v : pyobj) : gen := ([v], None).
Definition gen_yield_from (l : list pyobj) : gen := (l, None).
Definition gen_raise (e : error) : gen := ([], Some e).

(** Sequential composition: what follows a raise does not run. *)
Definition gen_then (g1 g2 : gen) : gen :=
  match g1 with
  | (l1, Some e) => (l1, Some e)
  | (l1, None) => (l1 ++ fst g2, snd g2)
  end.

(** [for x in items: body(x)] over a list. *)
Fixpoint gen_for (items : list pyobj) (body : pyobj -> gen) : gen :=
  match items with
  | [] => gen_done
  | x :: xs => gen_then (body x) (gen_for xs body)
  end.

(** [for x in g: body(x)] over another generator: the error of [g] surfaces
    when the loop asks for the item after the last one [g] yielded. *)
Definition gen_for_gen (g : gen) (body : pyobj -> gen) : gen :=
  gen_then (gen_for (fst g) body)
           (match snd g with Some e => gen_raise e | None => gen_done end).

(** [yield from iter_sequence(r)] and [yield r] for a call that may raise. *)
Definition gen_yield_seq (r : result pyobj) : gen :=
  match r with
  | Ok v => gen_yield_from (iter_sequence v)
  | Err e => gen_raise e
  end.
Definition gen_yield_result (r : result pyobj) : gen :=
  match r with
  | Ok v => gen_yield v
  | Err e => gen_raise e
  end.

(** [[x for x in g]] *)
Definition gen_to_list (g : gen) : result (list pyobj) :=
  match g with
  | (l, None) => Ok l
  | (_, Some e) => Err e
  end.

(** ** Tokens *)

(** A token of the expression tree: its symbol, labels (a token class may
    carry several), binding powers, value and operands (a token is a
    [MutableSequence] of its operands; [self[:] = ...] replaces them). *)
Inductive XPathToken : Type := Token {
  symbol : string;
  label : list string;
  lbp : Z;
  rbp : Z;
  value : pyobj;
  operands : list XPathToken
}.

(** [bool(token)]: a sequence is true when it is not empty. *)
Definition truthy (t : XPathToken) : bool :=
  match operands t with [] => false | _ => true end.

Definition in_symbols (s : string) (symbols : list string) : bool :=
  existsb (String.eqb s) symbols.

(** [label in (...)]: a multi-label equals each of its members. *)
Definition label_in (l : list string) (labels : list string) : bool :=
  existsb (fun x => in_symbols x labels) l.

(** The dynamic context, as far as the modelled code reads it. *)
Record XPathContext : Type := Context {
  item : pyobj;
  variables : list (string * pyobj)
}.

(** ** The lookup operator: [class LookupOperatorToken] *)

Module LookupOperatorToken.

(** The [select] of the operand tokens is a parameter: they are tokens of any
    other class of the library. *)
Section Select.
Variable select_token : XPathToken -> option XPathContext -> gen.

(** The body of [for item in items] in [select]; [key] is [self[-1]]. *)
Definition lookup_item (key : XPathToken) (context : option XPathContext)
    (item : pyobj) : gen :=
  let symbol := symbol key in
  match item with
  | OMap d =>
      if symbol =? "*" then
        gen_for (Dict.values d) (fun value => gen_yield_from (iter_sequence value))
      else if in_symbols symbol ["(name)"; "(integer)"] then
        gen_yield_seq (map_call d (value key))
      else if symbol =? "(" then
        gen_for_gen (select_token key context)
          (fun value => gen_yield_seq (map_call d (data_value value)))
      else gen_done
  | OArray l =>
      if symbol =? "*" then gen_yield_from l
      else if symbol =? "(name)" then gen_raise (Error "XPTY0004")
      else if symbol =? "(integer)" then
        gen_yield_result (array_call l (value key))
      else if symbol =? "(" then
        gen_for_gen (select_token key context)
          (fun value => gen_yield_result (array_call l (data_value value)))
      else gen_done
  | _ => gen_raise (Error "XPTY0004")
  end.

Definition select (self : XPathToken) (context : option XPathContext) : gen :=
  match operands self with
  | [] => gen_yield_from (iter_sequence (value self))
  | [key] =>
      (* unary lookup operator (used in predicates) *)
      match context with
      | None => gen_raise MissingContext
      | Some c => gen_for [item c] (lookup_item key context)
      end
  | first :: rest =>
      gen_for_gen (select_token first context)
        (lookup_item (List.last rest first) context)
  end.

Definition evaluate (self : XPathToken) (context : option XPathContext)
    : result pyobj :=
  if negb (truthy self) then Ok (value self)  (* a placeholder token *)
  else OList <$> gen_to_list (select self context).

End Select.

(** The class attributes [lbp = 85], [rbp = 85] and what [__init__] makes of
    them from [self.parser.token.symbol], the symbol of the token before. *)
Definition class_bp : Z := 85.

Definition init_bp (previous_symbol : string) : Z :=
  if previous_symbol =? "(name)" then class_bp
  else if in_symbols previous_symbol ["("; ","] then 0  (* a placeholder symbol *)
  else class_bp.

End LookupOperatorToken.

(** ** The arrow operator: [evaluate_arrow_operator] *)

(** What [get_function] returns: a callable [func(context, *arguments)]. *)
Definition callable : Type :=
  option XPathContext -> list pyobj -> result pyobj.

Module Arrow.

Section Evaluate.
(** [evaluate] of the operand tokens and [get_function] of the function
    operand belong to other classes of the library: parameters. *)
Variable evaluate_token : XPathToken -> option XPathContext -> result pyobj.
Variable get_function :
  XPathToken -> option XPathContext -> nat -> result callable.

(** [arguments.extend(other_args)] for a list, [arguments.append(other_args)]
    for anything else. *)
Definition add_arguments (arguments : list pyobj) (other_args : pyobj)
    : list pyobj :=
  match other_args with
  | OList l => arguments ++ l
  | _ => arguments ++ [other_args]
  end.

Definition evaluate_arrow_operator (self : XPathToken)
    (context : option XPathContext) : result pyobj :=
  match operands self with
  | self0 :: self1 :: self2 :: _ =>
      v ← evaluate_token self0 context;
      arguments ←
        (if truthy self2
         then other_args ← evaluate_token self2 context;
              mret (add_arguments [v] other_args)
         else mret [v]);
      func ← get_function self1 context (length arguments);
      func context arguments
  | _ => Err (PyError "IndexError")
  end.

(** Modelled from the spec: the evaluation of a function call [F(a1, ..., an)]
    is not among the sources. Section 4.4: functions are registered against
    expanded name and arity; the call resolves [F] at the number of its
    argument expressions and applies it to their values, each argument
    expression giving one argument. *)
Fixpoint evaluate_arguments (args : list XPathToken)
    (context : option XPathContext) : result (list pyobj) :=
  match args with
  | [] => mret []
  | a :: rest =>
      v ← evaluate_token a context;
      vs ← evaluate_arguments rest context;
      mret (v :: vs)
  end.

Definition evaluate_call (f : XPathToken) (args : list XPathToken)
    (context : option XPathContext) : result pyobj :=
  arguments ← evaluate_arguments args context;
  func ← get_function f context (length args);
  func context arguments.

End Evaluate.

(** Modelled from the spec: the comma operator and the parenthesized
    expression are not among the sources. Section 4.2: [,] builds a sequence;
    section 3.1: sequences are flat, [()] is the empty sequence. The right
    operand of [=>] is the parenthesized expression that follows the function:
    [()], [(a)] or [(a1, ..., an)] with the comma operator nested to the
    left. *)
Definition comma_token (left right : XPathToken) : XPathToken :=
  Token "," ["operator"] 5 5 (OAtom (AString ",")) [left; right].

Definition paren_token (content : list XPathToken) : XPathToken :=
  Token "(" ["expression"] 80 80 (OAtom (AString "(")) content.

Definition arguments_token (args : list XPathToken) : XPathToken :=
  match args with
  | [] => paren_token []
  | a :: rest => paren_token [fold_left comma_token rest a]
  end.

Definition arrow_token (e f : XPathToken) (args : list XPathToken)
    : XPathToken :=
  Token "=>" ["operator"] 67 67 (OAtom (AString "=>")) [e; f; arguments_token args].

(** [evaluate] of the tokens of an expression: the comma operator and the
    parentheses as above, every other token by [evaluate_operand]. *)
Fixpoint evaluate_sequence
    (evaluate_operand : XPathToken -> option XPathContext -> result pyobj)
    (t : XPathToken) (context : option XPathContext) : result pyobj :=
  match t with
  | Token sym _ _ _ _ ops =>
      if sym =? "," then
        OList <$>
        (fix items (l : list XPathToken) : result (list pyobj) :=
           match l with
           | [] => mret []
           | op :: l' =>
               r ← evaluate_sequence evaluate_operand op context;
               rs ← items l';
               mret (iter_sequence r ++ rs)
           end) ops
      else if sym =? "(" then
        match ops with
        | [] => mret (OList [])
        | op :: _ => evaluate_sequence evaluate_operand op context
        end
      else evaluate_operand t context
  end.

End Arrow.

(** ** Map and array functions *)

(** Modelled from the spec: [map:put], [map:remove] and [array:append] are not
    among the sources (only their tests are). Section 5: maps and arrays are
    persistent, [put], [remove] and [append] return new values and the
    originals are unchanged. The objects live in a store indexed by their
    identity; a function reads its argument there and allocates its result
    at an identity not in use. *)
Module MapArray.

Definition map_put (d : Dict.t) (k : atomic) (v : pyobj) : Dict.t :=
  Dict.set d k v.

(** [map:remove($map, $keys)] takes a sequence of keys
    ([test_map_remove_function]). *)
Definition map_remove (d : Dict.t) (keys : list atomic) : Dict.t :=
  fold_left Dict.del keys d.

Definition array_append (members : list pyobj) (appendage : pyobj)
    : list pyobj :=
  members ++ [appendage].

Definition store : Type := gmap nat pyobj.

Definition alloc (h : store) (o : pyobj) : nat * store :=
  let r := fresh (dom h) in (r, <[r := o]> h).

Definition put (h : store) (m : nat) (k : atomic) (v : pyobj)
    : result (nat * store) :=
  match h !! m with
  | Some (OMap d) => Ok (alloc h (OMap (map_put d k v)))
  | _ => Err (Error "XPTY0004")
  end.

Definition remove (h : store) (m : nat) (keys : list atomic)
    : result (nat * store) :=
  match h !! m with
  | Some (OMap d) => Ok (alloc h (OMap (map_remove d keys)))
  | _ => Err (Error "XPTY0004")
  end.

Definition append (h : store) (a : nat) (appendage : pyobj)
    : result (nat * store) :=
  match h !! a with
  | Some (OArray l) => Ok (alloc h (OArray (array_append l appendage)))
  | _ => Err (Error "XPTY0004")
  end.

End MapArray.

(** ** The parser *)

Module Parser.

(** The parser object, as far as the modelled handlers read and write it:
    its XPath version, the current and the next token, the tokens not yet
    read and the flag [parse_arguments]. *)
Record t : Type := Make {
  version : string;
  token : XPathToken;
  next_token : XPathToken;
  source : list XPathToken;
  parse_arguments : bool
}.

End Parser.

(** A parsing step reads and writes the parser and may raise. *)
Definition P (A : Type) : Type := Parser.t -> result (A * Parser.t).

#[global] Instance P_ret : MRet P := fun A a p => Ok (a, p).
#[global] Instance P_bind : MBind P :=
  fun A B f m p => match m p with Ok (a, p') => f a p' | Err e => Err e end.

Definition raise {A : Type} (e : error) : P A := fun _ => Err e.
Definition parser : P Parser.t := fun p => Ok (p, p).

Definition set_token (tok : XPathToken) : P unit := fun p =>
  Ok (tt, Parser.Make (Parser.version p) tok (Parser.next_token p)
            (Parser.source p) (Parser.parse_arguments p)).

Definition set_parse_arguments (b : bool) : P unit := fun p =>
  Ok (tt, Parser.Make (Parser.version p) (Parser.token p)
            (Parser.next_token p) (Parser.source p) b).

(** [self[:] = ...], [self.append(...)], [self.label = ...],
    [self.value = ...] on a token. *)
Definition set_operands (self : XPathToken) (ops : list XPathToken) : XPathToken :=
  Token (symbol self) (label self) (lbp self) (rbp self) (value self) ops.
Definition append (self : XPathToken) (op : XPathToken) : XPathToken :=
  set_operands self (operands self ++ [op]).
Definition set_label (self : XPathToken) (l : list string) : XPathToken :=
  Token (symbol self) l (lbp self) (rbp self) (value self) (operands self).
Definition set_value (self : XPathToken) (v : pyobj) : XPathToken :=
  Token (symbol self) (label self) (lbp self) (rbp self) v (operands self).
Definition set_bp (self : XPathToken) (bp : Z) : XPathToken :=
  Token (symbol self) (label self) bp bp (value self) (operands self).

Definition end_token : XPathToken := Token "(end)" ["symbol"] 0 0 ONone [].

(** Modelled from the spec: the tokenizer and [Parser.advance],
    [Parser.expected_next] and [Token.expected] are not among the sources.
    Section 4.1: the tokenizer yields a stream of token instances, each a
    freshly constructed node of its symbol's class; section 4.2: an unexpected
    token is a static error. A token is constructed when it becomes the next
    token, so the constructor of [?] sees the token before it as
    [parser.token]. *)
Definition construct (previous raw : XPathToken) : XPathToken :=
  if symbol raw =? "?"
  then set_bp raw (LookupOperatorToken.init_bp (symbol previous))
  else raw.

Definition advance (symbols : list string) : P XPathToken := fun p =>
  let tok := Parser.next_token p in
  if (symbol tok =? "(end)")
     || (negb (bool_decide (symbols = [])) && negb (in_symbols (symbol tok) symbols))
  then Err WrongSyntax
  else
    let next := match Parser.source p with
                | [] => end_token
                | raw :: _ => construct tok raw
                end in
    Ok (next, Parser.Make (Parser.version p) tok next
                (List.tl (Parser.source p)) (Parser.parse_arguments p)).

Definition expected_next (symbols : list string) : P unit := fun p =>
  if in_symbols (symbol (Parser.next_token p)) symbols
  then Ok (tt, p) else Err WrongSyntax.

Definition expected (tok : XPathToken) (symbols : list string) : P unit :=
  if in_symbols (symbol tok) symbols then mret tt else raise WrongSyntax.

(** Modelled from the spec: [XPathArray(parser)] is not among the sources; the
    token of an array, as the registration the source keeps in a comment
    gives it: [register('array', bp=90, label='array', bases=(XPathArray,))]. *)
Definition XPathArray (sym : string) : XPathToken :=
  Token sym ["array"] 90 90 ONone [].

(** *** Handlers of [_xpath31_operators.py]

    The handlers call back into the parser: [expression] is the Pratt loop,
    and the handlers of the other classes ([XPathMap.nud], [XPathArray.nud],
    [as_name], [parse_occurrence], the [nud] of a proxy token) are
    parameters. *)
Section Handlers.
Variable expression : Z -> P XPathToken.
Variable XPathMap_nud : P XPathToken.
Variable XPathArray_nud : P XPathToken.
Variable as_name : XPathToken -> P XPathToken.
Variable parse_occurrence : XPathToken -> P unit.
Variable proxy_nud : XPathToken -> P XPathToken.
Variable is_proxy : XPathToken -> bool.
Variable is_function : XPathToken -> bool.

(** [if next_token.label not in (...): expected_next('(name)', ':', '*')] *)
Definition expect_sequence_type (labels : list string) : P unit :=
  p ← parser;
  if negb (label_in (label (Parser.next_token p)) labels)
  then expected_next ["(name)"; ":"; "*"]
  else mret tt.

Definition nud_map_sequence_type_or_constructor (self : XPathToken)
    : P XPathToken :=
  p ← parser;
  if symbol (Parser.next_token p) =? "{" then
    tok ← XPathMap_nud;
    set_token tok;;
    mret tok
  else if negb (symbol (Parser.next_token p) =? "(") then
    as_name self
  else
    let self := set_label self ["kind test"] in
    advance ["("];;
    expect_sequence_type ["kind test"; "sequence type"; "function test"];;
    k ← expression 45;
    let self := set_operands self [k] in
    parse_occurrence k;;
    self ←
      (if negb (symbol k =? "*") then
         advance [","];;
         expect_sequence_type ["kind test"; "sequence type"; "function test"];;
         v ← expression 45;
         parse_occurrence v;;
         mret (append self v)
       else mret self);
    advance [")"];;
    mret (set_value self ONone).

Definition nud_sequence_type_or_curly_array_constructor (self : XPathToken)
    : P XPathToken :=
  p ← parser;
  if symbol (Parser.next_token p) =? "{" then
    tok ← XPathArray_nud;
    set_token tok;;
    mret tok
  else if negb (symbol (Parser.next_token p) =? "(") then
    as_name self
  else
    let self := set_label self ["kind test"] in
    advance ["("];;
    expect_sequence_type ["kind test"];;
    k ← expression 45;
    let self := set_operands self [k] in
    (if negb (symbol k =? "*") then parse_occurrence k else mret tt);;
    advance [")"];;
    parse_occurrence self;;
    mret (set_value self ONone).

(** The loop of the square array constructor: [while True] reads a member,
    and goes on after a comma. [fuel] bounds the number of members read. *)
Fixpoint square_array_members (fuel : nat) (token : XPathToken)
    : P XPathToken :=
  match fuel with
  | O => raise OutOfFuel
  | S fuel' =>
      e ← expression 5;
      let token := append token e in
      p ← parser;
      if negb (symbol (Parser.next_token p) =? ",") then mret token
      else advance [];; square_array_members fuel' token
  end.

Definition nud_square_array_constructor (fuel : nat) (self : XPathToken)
    : P XPathToken :=
  p ← parser;
  if String.ltb (Parser.version p) "3.1" then raise WrongSyntax
  else
    (* Constructs an XPathArray token and returns it instead of the predicate *)
    let token := XPathArray "[" in
    token ←
      (if negb (in_symbols (symbol (Parser.next_token p)) ["]"; "(end)"])
       then square_array_members fuel token
       else mret token);
    advance ["]"];;
    mret token.

(** [LookupOperatorToken.nud] and [LookupOperatorToken.led] *)
Definition LookupOperatorToken_nud (self : XPathToken) : P XPathToken :=
  fun p =>
    match expected_next ["(name)"; "(integer)"; "("; "*"] p with
    | Err WrongSyntax => Ok (self, p)  (* a placeholder token *)
    | Err e => Err e
    | Ok (_, p') =>
        (e ← expression 85; mret (set_operands self [e])) p'
    end.

Definition LookupOperatorToken_led (self left : XPathToken) : P XPathToken :=
  expected_next ["(name)"; "(integer)"; "("; "*"];;
  e ← expression 85;
  mret (set_operands self [left; e]).

Definition led_arrow_operator (self left : XPathToken) : P XPathToken :=
  p ← parser;
  let next_token := Parser.next_token p in
  ops ←
    (if symbol next_token =? "$" then
       e ← expression 80; mret [left; e]
     else if is_proxy next_token then
       set_parse_arguments false;;
       f ← proxy_nud next_token;
       set_parse_arguments true;;
       advance [];;
       mret [left; f]
     else if is_function next_token then
       advance [];;  (* Skip static evaluation of function arguments *)
       mret [left; next_token]
     else
       expected next_token ["(name)"; ":"; "Q{"; "("];;
       set_parse_arguments false;;
       e ← expression 80;
       set_parse_arguments true;;
       mret [left; e]);
  right ← expression 67;
  expected right ["("];;
  mret (set_operands self (ops ++ [right])).

End Handlers.

(** *** The Pratt loop *)

(** Modelled from the spec: [Parser.expression] is not among the sources.
    Section 4.2: [expression(rbp)] calls the current token's [nud], then while
    [rbp < cur.lbp] advances and calls the new token's [led(left)]. The [nud]
    and [led] of a token are looked up by its symbol in the tables [nud] and
    [led]; [fuel] bounds the depth of the calls and the turns of the loop. *)
Section Pratt.
Variable nud : (Z -> P XPathToken) -> XPathToken -> P XPathToken.
Variable led : (Z -> P XPathToken) -> XPathToken -> XPathToken -> P XPathToken.

Fixpoint led_loop (fuel : nat) (expression : Z -> P XPathToken) (rbp : Z)
    (left : XPathToken) : P XPathToken :=
  match fuel with
  | O => raise OutOfFuel
  | S fuel' =>
      p ← parser;
      let token := Parser.next_token p in
      if (rbp <? lbp token)%Z then
        advance [];;
        left' ← led expression token left;
        led_loop fuel' expression rbp left'
      else mret left
  end.

Fixpoint expression (fuel : nat) (rbp : Z) : P XPathToken :=
  match fuel with
  | O => raise OutOfFuel
  | S fuel' =>
      p ← parser;
      let token := Parser.next_token p in
      advance [];;
      left ← nud (expression fuel') token;
      led_loop fuel' (expression fuel') rbp left
  end.

End Pratt.

(** Modelled from the spec: the handlers of the literals, of the parentheses,
    of the comma and of the curly array constructor are not among the sources.
    Section 4.2: literals and names start an expression and are its value;
    [( ... )] groups an expression; [,] builds a sequence; [array { ... }] is
    the curly array constructor; a map or an array is a function of one
    argument, called as [E(arg)]. The handlers of [[], [array], [?] and [=>]
    are the ones of [_xpath31_operators.py]. *)
Definition curly_array_nud (expression : Z -> P XPathToken) : P XPathToken :=
  advance ["{"];;
  p ← parser;
  tok ←
    (if symbol (Parser.next_token p) =? "}" then mret (XPathArray "array")
     else e ← expression 0; mret (set_operands (XPathArray "array") [e]));
  advance ["}"];;
  mret tok.

Definition xpath31_nud (fuel : nat) (expression : Z -> P XPathToken)
    (self : XPathToken) : P XPathToken :=
  let sym := symbol self in
  if in_symbols sym ["(integer)"; "(string)"; "(name)"; "*"] then mret self
  else if sym =? "(" then
    p ← parser;
    if symbol (Parser.next_token p) =? ")" then
      advance [")"];; mret (set_operands self [])
    else
      e ← expression 0; advance [")"];; mret (set_operands self [e])
  else if sym =? "[" then
    nud_square_array_constructor expression fuel self
  else if sym =? "array" then
    nud_sequence_type_or_curly_array_constructor expression
      (curly_array_nud expression) (fun _ => raise WrongSyntax)
      (fun _ => mret tt) self
  else if sym =? "?" then LookupOperatorToken_nud expression self
  else raise WrongSyntax.

Definition xpath31_led (expression : Z -> P XPathToken)
    (self left : XPathToken) : P XPathToken :=
  let sym := symbol self in
  if sym =? "," then
    e ← expression 5; mret (set_operands self [left; e])
  else if sym =? "(" then
    e ← expression 5; advance [")"];; mret (set_operands self [left; e])
  else if sym =? "?" then LookupOperatorToken_led expression self left
  else if sym =? "=>" then
    led_arrow_operator expression (fun _ => raise WrongSyntax)
      (fun _ => false) (fun _ => false) self left
  else raise WrongSyntax.

(** [parser.parse(source)]: the first token becomes the next token, one
    expression is read and the source must be at its end. *)
Definition parse (version : string) (source : list XPathToken) (fuel : nat)
    : result XPathToken :=
  let start := Token "(start)" ["symbol"] 0 0 ONone [] in
  let p0 := Parser.Make version start
              (match source with [] => end_token | raw :: _ => construct start raw end)
              (List.tl source) true in
  match expression (xpath31_nud fuel) xpath31_led fuel 0 p0 with
  | Ok (root, p) =>
      if symbol (Parser.next_token p) =? "(end)" then Ok root
      else Err WrongSyntax
  | Err e => Err e
  end.

(** Modelled from the spec: [evaluate] of the literals, of the comma, of the
    parentheses, of the array constructors and of the call of a map or an
    array is not among the sources. Sections 3.1 and 3.4: a literal is its
    value; [,] concatenates; each member expression of [[ ... ]] gives one
    member, each item of the content of [array { ... }] gives one member; a
    map called with a key gives the bound value, an array called with an
    integer gives that member. [?] is evaluated by [LookupOperatorToken]. *)
Definition call_item (f arg : pyobj) : result pyobj :=
  match f with
  | OMap d => map_call d arg
  | OArray l => array_call l arg
  | _ => Err (Error "XPTY0004")
  end.

Definition select_of (r : result pyobj) : gen :=
  match r with
  | Ok v => gen_yield_from (iter_sequence v)
  | Err e => gen_raise e
  end.

Fixpoint evaluate_all (evaluate : XPathToken -> result pyobj)
    (l : list XPathToken) : result (list pyobj) :=
  match l with
  | [] => mret []
  | t :: l' => v ← evaluate t; vs ← evaluate_all evaluate l'; mret (v :: vs)
  end.

Fixpoint evaluate_token (fuel : nat) (t : XPathToken)
    (context : option XPathContext) : result pyobj :=
  match fuel with
  | O => Err OutOfFuel
  | S fuel' =>
      let evaluate t' := evaluate_token fuel' t' context in
      let sym := symbol t in
      if in_symbols sym ["(integer)"; "(string)"] then Ok (value t)
      else if sym =? "," then
        vs ← evaluate_all evaluate (operands t);
        mret (OList (concat (map iter_sequence vs)))
      else if sym =? "(" then
        match operands t with
        | [] => Ok (OList [])
        | [e] => evaluate e
        | f :: arg :: _ => fv ← evaluate f; av ← evaluate arg; call_item fv av
        end
      else if sym =? "[" then
        OArray <$> evaluate_all evaluate (operands t)
      else if sym =? "array" then
        match operands t with
        | [] => Ok (OArray [])
        | e :: _ => v ← evaluate e; mret (OArray (iter_sequence v))
        end
      else if sym =? "?" then
        LookupOperatorToken.evaluate
          (fun t' c => select_of (evaluate_token fuel' t' c)) t context
      else Err (Error "XPST0017")
  end.

(** ** The recognizer patterns of [map] and [array] *)

(** The pattern registered for [map] is
    [(?<!\$)\bmap(?=\s*(?:\(\:.*\:\))?\s*(?=\(|\{)(?!\:))]
    and the one for [array] has [array] in the place of [map]. It is a
    pattern on [str]: the source text is a sequence of Unicode code points,
    and [\s], [\w] and [\b] go by the white space and the word characters of
    Unicode, as Python's [re] has them. These two classes are not part of
    the program: [is_space] and [is_word] are parameters. [before] is what
    precedes the position tried and [after] what starts there. *)
Module Pattern.

Definition text : Type := list Z.

(** The code points of the characters of the pattern, which are ASCII. *)
Definition code (c : ascii) : Z := Z.of_nat (nat_of_ascii c).
Definition codes (s : string) : text := map code (list_ascii_of_string s).

Section Classes.
Variable is_space : Z -> bool.
Variable is_word : Z -> bool.

(** [\s*] followed by [f]: every split is tried. *)
Fixpoint spaces_then (f : text -> bool) (s : text) : bool :=
  f s || match s with
         | c :: s' => is_space c && spaces_then f s'
         | [] => false
         end.

(** [.*] followed by [f]; the dot does not match a newline. *)
Fixpoint dots_then (f : text -> bool) (s : text) : bool :=
  f s || match s with
         | c :: s' => negb (c =? code "010")%Z && dots_then f s'
         | [] => false
         end.

(** [(?=\(|\{)(?!\:)] *)
Definition opens (s : text) : bool :=
  match s with
  | c :: _ =>
      ((c =? code "(")%Z || (c =? code "{")%Z) && negb (c =? code ":")%Z
  | [] => false
  end.

(** [\(\:.*\:\)] followed by [f] *)
Definition comment_then (f : text -> bool) (s : text) : bool :=
  match s with
  | c1 :: c2 :: s' =>
      (c1 =? code "(")%Z && (c2 =? code ":")%Z
      && dots_then (fun r => match r with
                             | d1 :: d2 :: r' =>
                                 (d1 =? code ":")%Z && (d2 =? code ")")%Z
                                 && f r'
                             | _ => false
                             end) s'
  | _ => false
  end.

(** [(?=\s*(?:\(\:.*\:\))?\s*(?=\(|\{)(?!\:))] *)
Definition lookahead (s : text) : bool :=
  spaces_then (fun r => comment_then (spaces_then opens) r
                        || spaces_then opens r) s.

(** [\b]: exactly one of the characters on the two sides of the position is
    a word character, the ends of the text counting as none. *)
Definition word_at (c : option Z) : bool :=
  match c with
  | Some c => is_word c
  | None => false
  end.

Definition boundary (before after : text) : bool :=
  xorb (word_at (last before)) (word_at (head after)).

(** [(?<!\$)\b] *)
Definition lookbehind (before after : text) : bool :=
  negb (match last before with
        | Some c => (c =? code "$")%Z
        | None => false
        end)
  && boundary before after.

(** The literal keyword: what is left of [after] when it starts with it. *)
Fixpoint strip_prefix (keyword s : text) : option text :=
  match keyword, s with
  | [], _ => Some s
  | a :: keyword', b :: s' =>
      if (a =? b)%Z then strip_prefix keyword' s' else None
  | _, _ => None
  end.

Definition keyword_matches (keyword : string) (before after : text) : bool :=
  lookbehind before after
  && match strip_prefix (codes keyword) after with
     | Some rest => lookahead rest
     | None => false
     end.

Definition map_matches : text -> text -> bool := keyword_matches "map".
Definition array_matches : text -> text -> bool := keyword_matches "array".

End Classes.

End Pattern.

(** ** The tables of [translation_maps.py] and [format-integer] *)

Module TranslationMaps.

(** The dictionaries in the order of the source. *)
Definition ROMAN_NUMERALS_MAP : list (Z * string) :=
  [ (1000, "M"); (900, "CM"); (500, "D"); (400, "CD"); (100, "C");
    (90, "XC"); (50, "L"); (40, "XL"); (10, "X"); (9, "IX"); (5, "V");
    (4, "IV"); (1, "I") ].

Definition NUM_TO_WORD_MAP_en : list (Z * string) :=
  [ (10 ^ 9, "billion"); (10 ^ 6, "million"); (1000, "thousand");
    (100, "hundred"); (90, "ninety"); (80, "eighty"); (70, "seventy");
    (60, "sixty"); (50, "fifty"); (40, "forty"); (30, "thirty");
    (20, "twenty"); (19, "nineteen"); (18, "eighteen"); (17, "seventeen");
    (16, "sixteen"); (15, "fifteen"); (14, "fourteen"); (13, "thirteen");
    (12, "twelve"); (11, "eleven"); (10, "ten"); (9, "nine"); (8, "eight");
    (7, "seven"); (6, "six"); (5, "five"); (4, "four"); (3, "three");
    (2, "two"); (1, "one"); (0, "zero") ].

Definition NUM_TO_WORD_MAP_it : list (Z * string) :=
  [ (10 ^ 9, "miliardo"); (10 ^ 6, "milione"); (1000, "mille");
    (100, "cento"); (90, "novanta"); (80, "ottanta"); (70, "settanta");
    (60, "sessanta"); (50, "cinquanta"); (40, "quaranta"); (30, "trenta");
    (20, "venti"); (19, "diciannove"); (18, "diciotto"); (17, "diciassette");
    (16, "sedici"); (15, "quindici"); (14, "quattordici"); (13, "tredici");
    (12, "dodici"); (11, "undici"); (10, "dieci"); (9, "nove"); (8, "otto");
    (7, "sette"); (6, "sei"); (5, "cinque"); (4, "quattro"); (3, "tre");
    (2, "due"); (1, "uno"); (0, "zero") ].

Definition NUM_TO_WORD_MAPS : list (string * list (Z * string)) :=
  [ ("en", NUM_TO_WORD_MAP_en); ("it", NUM_TO_WORD_MAP_it) ].

End TranslationMaps.

(** Modelled from the spec: [format-integer] and the helpers that read the
    tables are not among the sources. Section 6.3: roman numerals use the
    fixed map, by greedy decomposition; the word picture uses the cardinal
    table of the language, unknown languages fall back to the English table;
    a picture that cannot be satisfied gives the arabic representation.
    Section 8, scenario 7 fixes the layout of the words: the multiples of a
    base of at least one hundred are counted in words before it, the parts
    are separated by spaces, tens and units are joined by a hyphen. *)
Module FormatInteger.
Import TranslationMaps.

Fixpoint repeat_string (s : string) (n : nat) : string :=
  match n with
  | O => ""
  | S n' => (s ++ repeat_string s n')%string
  end.

(** Greedy decomposition: the numeral of each value of the map is written as
    many times as the value fits in what is left. *)
Fixpoint roman_digits (table : list (Z * string)) (num : Z) : string :=
  match table with
  | [] => ""
  | (i, r) :: rest =>
      (repeat_string r (Z.to_nat (num / i)) ++ roman_digits rest (num mod i))%string
  end.

Definition int_to_roman (num : Z) : string :=
  roman_digits ROMAN_NUMERALS_MAP num.

(** The first entry of a table that fits in [num]. *)
Fixpoint first_fit (table : list (Z * string)) (num : Z)
    : option (Z * string) :=
  match table with
  | [] => None
  | (i, r) :: rest => if (i <=? num)%Z then Some (i, r) else first_fit rest num
  end.

Fixpoint int_to_words (fuel : nat) (table : list (Z * string)) (num : Z)
    : string :=
  match fuel with
  | O => ""
  | S fuel' =>
      (fix scan (entries : list (Z * string)) : string :=
         match entries with
         | [] => ""
         | (base, word) :: rest =>
             if (num =? 0)%Z then
               (if (base =? 0)%Z then word else scan rest)
             else if (base <=? 0)%Z || (num <? base)%Z then scan rest
             else if (100 <=? base)%Z then
               (int_to_words fuel' table (num / base) ++ " " ++ word
                ++ (if (num mod base =? 0)%Z then ""
                    else " " ++ int_to_words fuel' table (num mod base)))%string
             else
               (word ++ (if (num - base =? 0)%Z then ""
                         else "-" ++ int_to_words fuel' table (num - base)))%string
         end) table
  end.

Definition word_table (lang : option string) : list (Z * string) :=
  match lang with
  | None => NUM_TO_WORD_MAP_en
  | Some l =>
      match List.find (fun e => fst e =? l) NUM_TO_WORD_MAPS with
      | Some e => snd e
      | None => NUM_TO_WORD_MAP_en
      end
  end.

Definition format_integer (value : Z) (picture : string)
    (lang : option string) : string :=
  if picture =? "I" then
    (if (0 <? value)%Z then int_to_roman value else pretty value)
  else if picture =? "w" then
    (if (0 <=? value)%Z
     then int_to_words (S (Z.to_nat value)) (word_table lang) value
     else pretty value)
  else pretty value.

End FormatInteger.

(** ** The W3C test driver: [class Result] of [execute_w3c_tests.py] *)

Module W3C.

(** What a validator returns: [True], [False], [None], or another object
    (the match object of [serialization_matches_validator]), which is true. *)
Inductive pyret : Type := RTrue | RFalse | RNone | RObject.

Definition truth (r : pyret) : bool :=
  match r with RTrue | RObject => true | RFalse | RNone => false end.

Definition of_bool (b : bool) : pyret := if b then RTrue else RFalse.

(** A result element of a test case: its type (the local name of the tag),
    text, attributes and child result elements. *)
Inductive Result : Type := MkResult {
  type : string;
  value : option string;
  attrib : list (string * string);
  children : list Result
}.

(** [self.type.replace("-", "_")] *)
Fixpoint replace_dash (s : string) : string :=
  match s with
  | EmptyString => EmptyString
  | String c s' =>
      String (if Ascii.eqb c "-" then "_"%char else c) (replace_dash s')
  end.

Section Validate.
(** The validators that parse and evaluate the test expression
    ([assert_eq_validator], [error_validator], ...) are a parameter. *)
Variable run_validator : Result -> Z -> result pyret.

(** [self.validate], bound in [__init__] to the method
    [<type>_validator]; [validate()] without argument has [verbose=1]. *)
Fixpoint validate (self : Result) (verbose : Z) : result pyret :=
  match self with
  | MkResult type _ _ children =>
      let name := replace_dash type in
      if name =? "all_of" then
        (* Valid if all child result validators are valid. *)
        match children with
        | [] => Err (PyError "AssertionError")
        | _ =>
            (fix loop (cs : list Result) (valid : bool) : result pyret :=
               match cs with
               | [] => Ok (of_bool valid)
               | child :: cs' =>
                   r ← validate child verbose;
                   loop cs' (if negb (truth r) then false else valid)
               end) children true
        end
      else if name =? "any_of" then
        (* Valid if any child result validator is valid. *)
        match children with
        | [] => Err (PyError "AssertionError")
        | _ =>
            valid ←
              (fix loop (cs : list Result) (valid : bool) : result bool :=
                 match cs with
                 | [] => Ok valid
                 | child :: cs' =>
                     r ← validate child 1;
                     loop cs' (if truth r then true else valid)
                 end) children false;
            (if negb valid && (1 <? verbose)%Z then
               (fix again (cs : list Result) : result unit :=
                  match cs with
                  | [] => Ok tt
                  | child :: cs' => validate child verbose;; again cs'
                  end) children
             else Ok tt);;
            Ok (of_bool valid)
        end
      else if name =? "not" then
        (* Valid if the child result validator is not valid. *)
        match children with
        | [child] =>
            r ← validate child 1;
            let valid := negb (truth r) in
            (if negb valid && (1 <? verbose)%Z
             then validate child verbose;; Ok tt
             else Ok tt);;
            Ok (of_bool valid)
        | _ => Err (PyError "AssertionError")
        end
      else if name =? "assert_permutation" then
        (* TODO *)
        Ok RNone
      else run_validator self verbose
  end.

End Validate.

(** [TestCase.run] returns [self.result.validate(verbose)], and [main] counts
    the test case by [case_result is True], [case_result is False], anything
    else, or an exception caught by [except Exception]. The [sys.exit(1)] of
    [assert_type_validator] is not caught: the test case is not counted and
    [main] ends there. *)
Inductive verdict : Type := Success | Failed | Unknown | OtherFailure | Exits.

Definition count (case_result : result pyret) : verdict :=
  match case_result with
  | Ok RTrue => Success
  | Ok RFalse => Failed
  | Ok _ => Unknown
  | Err (SystemExit _) => Exits
  | Err _ => OtherFailure
  end.

Definition run (run_validator : Result -> Z -> result pyret)
    (expectation : Result) (verbose : Z) : verdict :=
  count (validate run_validator expectation verbose).

(** The result element occurs in the expectation of a test case: it is the
    result element or below it. *)
Fixpoint expects (ty : string) (r : Result) : bool :=
  match r with
  | MkResult type _ _ children =>
      (type =? ty)
      || (fix any (cs : list Result) : bool :=
            match cs with
            | [] => false
            | c :: cs' => expects ty c || any cs'
            end) children
  end.

End W3C.

(** ** Tokens and values of the tests *)

(** Literal tokens, whose [select] and [evaluate] give their value, the key
    specifiers of the lookup operator and the other symbols, as the tokenizer
    constructs them. *)
Definition integer_literal (z : Z) : XPathToken :=
  Token "(integer)" ["literal"] 0 0 (OAtom (AInteger z)) [].
Definition string_literal (s : string) : XPathToken :=
  Token "(string)" ["literal"] 0 0 (OAtom (AString s)) [].
Definition name_token (s : string) : XPathToken :=
  Token "(name)" ["literal"] 0 0 (OAtom (AString s)) [].
Definition star_token : XPathToken :=
  Token "*" ["operator"; "wildcard"] 45 45 (OAtom (AString "*")) [].
Definition symbol_token (s : string) (bp : Z) : XPathToken :=
  Token s ["symbol"] bp bp (OAtom (AString s)) [].
(** A token that evaluates to a value given beforehand, as a variable
    reference does. *)
Definition constant (v : pyobj) : XPathToken :=
  Token "$" ["variable"] 90 90 v [].
Definition lookup_token (ops : list XPathToken) : XPathToken :=
  Token "?" ["operator"] 85 85 (OAtom (AString "?")) ops.

Definition literal_select (t : XPathToken) (context : option XPathContext)
    : gen :=
  gen_yield_from (iter_sequence (value t)).
Definition literal_evaluate (t : XPathToken) (context : option XPathContext)
    : result pyobj :=
  Ok (value t).

(** [MAP_WEEKDAYS_DE] of [test_xpath31.py]. *)
Definition MAP_WEEKDAYS_DE : Dict.t :=
  Dict.of_items
    [ (AInteger 0, OAtom (AString "Sonntag"));
      (AInteger 1, OAtom (AString "Montag"));
      (AInteger 2, OAtom (AString "Dienstag"));
      (AInteger 3, OAtom (AString "Mittwoch"));
      (AInteger 4, OAtom (AString "Donnerstag"));
      (AInteger 5, OAtom (AString "Freitag"));
      (AInteger 6, OAtom (AString "Samstag")) ].

Definition no_variables : list (string * pyobj) := [].

(** The key specifier [key] of a lookup denotes the atomic key [k]: it is the
    name or the integer [k], or a parenthesized expression that selects [k]. *)
Definition key_denotes (select_token : XPathToken -> option XPathContext -> gen)
    (key : XPathToken) (context : option XPathContext) (k : atomic) : Prop :=
  (in_symbols (symbol key) ["(name)"; "(integer)"] = true
   /\ value key = OAtom k)
  \/ (symbol key = "(" /\ select_token key context = ([OAtom k], None)).

(** A value that is exactly one item: neither the absent value nor a list. *)
Definition single_item (v : pyobj) : bool :=
  match v with
  | ONone | OList _ => false
  | _ => true
  end.

(** Modelled from the spec: the function library is not among the sources.
    Section 4.4: [concat] is registered at every arity from two on; by the
    function conversion rules each of its arguments is at most one atomic
    value, anything else is XPTY0004. Here the arguments are strings. *)
Fixpoint concat_strings (arguments : list pyobj) : result pyobj :=
  match arguments with
  | [] => Ok (OAtom (AString ""))
  | OAtom (AString s) :: rest =>
      r ← concat_strings rest;
      match r with
      | OAtom (AString s') => Ok (OAtom (AString (s ++ s')%string))
      | _ => Err (Error "XPTY0004")
      end
  | ONone :: rest => concat_strings rest
  | _ => Err (Error "XPTY0004")
  end.

Definition concat_function (f : XPathToken) (context : option XPathContext)
    (arity : nat) : result callable :=
  if (symbol f =? "(name)")
     && match value f with OAtom (AString n) => n =? "concat" | _ => false end
     && Nat.leb 2 arity
  then Ok (fun _ arguments => concat_strings arguments)
  else Err (Error "XPST0017").

(** The parser, at [p], reads the member expressions [es] separated by
    commas and stops at [p'], before a token that is not a comma: each member
    is one call of [expression(5)]. *)
Inductive members_parse (expression : Z -> P XPathToken)
    : Parser.t -> list XPathToken -> Parser.t -> Prop :=
| members_last p e p' :
    expression 5 p = Ok (e, p') ->
    symbol (Parser.next_token p') <> "," ->
    members_parse expression p [e] p'
| members_more p e p1 comma p2 es p' :
    expression 5 p = Ok (e, p1) ->
    symbol (Parser.next_token p1) = "," ->
    advance [] p1 = Ok (comma, p2) ->
    members_parse expression p2 es p' ->
    members_parse expression p (e :: es) p'.

(** The XPath versions of section 6.1. *)
Definition xpath_versions : list string := ["1.0"; "2.0"; "3.0"; "3.1"].

(** The tokens of [[ 1, 2, 5, 7 ](4)] and of [array { 1, 2, 5, 7 }(4)]
    ([test_array_lookup]). *)
Definition array_token : XPathToken :=
  Token "array" ["kind test"; "array"] 90 90 (OAtom (AString "array")) [].

Definition square_array_source : list XPathToken :=
  [ symbol_token "[" 80; integer_literal 1; symbol_token "," 5;
    integer_literal 2; symbol_token "," 5; integer_literal 5;
    symbol_token "," 5; integer_literal 7; symbol_token "]" 0;
    symbol_token "(" 80; integer_literal 4; symbol_token ")" 0 ].

Definition curly_array_source : list XPathToken :=
  [ array_token; symbol_token "{" 0; integer_literal 1; symbol_token "," 5;
    integer_literal 2; symbol_token "," 5; integer_literal 5;
    symbol_token "," 5; integer_literal 7; symbol_token "}" 0;
    symbol_token "(" 80; integer_literal 4; symbol_token ")" 0 ].

(** A parser that has just read the first token of [source]. *)
Definition parser_at (version : string) (source : list XPathToken)
    : Parser.t :=
  match source with
  | [] => Parser.Make version end_token end_token [] true
  | first :: rest =>
      Parser.Make version first
        (match rest with [] => end_token | raw :: _ => construct first raw end)
        (List.tl rest) true
  end.

(** [expression] for sources of literals: the next token is the expression. *)
Definition literal_expression (rbp : Z) : P XPathToken :=
  p ← parser;
  advance [];;
  mret (Parser.next_token p).

(** The parser a step leaves behind (the parser itself when the step
    raises). *)
Definition state_after {A : Type} (step : P A) (p : Parser.t) : Parser.t :=
  match step p with
  | Ok (_, p') => p'
  | Err _ => p
  end.

(** The white space of ASCII text, the ASCII characters [str.isspace] is
    true of: what [str.strip] removes from a text of ASCII characters. *)
Definition ascii_space (c : ascii) : bool :=
  let n := nat_of_ascii c in
  (Nat.leb 9 n && Nat.leb n 13) || (Nat.leb 28 n && Nat.leb n 32).

(** Strings of white space, and the tokens of the kind tests [map( * )],
    [map(xs:string, xs:integer)] and of what the kind test does not accept. *)
Fixpoint all_space (s : string) : bool :=
  match s with
  | EmptyString => true
  | String c s' => ascii_space c && all_space s'
  end.

(** The white space of Unicode, the characters [str.isspace] is true of, and
    for the examples the word characters among the first 256 code points:
    the digits, the letters and the underscore. *)
Definition unicode_space (c : Z) : bool :=
  ((9 <=? c) && (c <=? 13))%Z || ((28 <=? c) && (c <=? 32))%Z
  || (c =? 133)%Z || (c =? 160)%Z || (c =? 5760)%Z
  || ((8192 <=? c) && (c <=? 8202))%Z || (c =? 8232)%Z || (c =? 8233)%Z
  || (c =? 8239)%Z || (c =? 8287)%Z || (c =? 12288)%Z.

Definition latin_word (c : Z) : bool :=
  ((48 <=? c) && (c <=? 57))%Z || ((65 <=? c) && (c <=? 90))%Z
  || ((97 <=? c) && (c <=? 122))%Z || (c =? 95)%Z
  || (c =? 170)%Z || (c =? 181)%Z || (c =? 186)%Z
  || ((192 <=? c) && (c <=? 255) && negb (c =? 215) && negb (c =? 247))%Z.

Definition map_token : XPathToken :=
  Token "map" ["kind test"; "map"] 90 90 (OAtom (AString "map")) [].

Definition map_test_source (operands : list XPathToken) : list XPathToken :=
  [map_token; symbol_token "(" 80] ++ operands ++ [symbol_token ")" 0].

(** The kind test read with [literal_expression]; the handlers of the other
    classes do nothing. *)
Definition map_kind_test (operands : list XPathToken)
    : result (XPathToken * Parser.t) :=
  nud_map_sequence_type_or_constructor literal_expression
    (raise WrongSyntax) (fun t => mret t) (fun _ => mret tt) map_token
    (parser_at "3.1" (map_test_source operands)).

(** Handlers of the other classes for the sources of the examples: the
    constructor [map { }] of an empty map, and the keyword taken as a name. *)
Definition empty_map_nud : P XPathToken :=
  advance ["{"];;
  advance ["}"];;
  mret (Token "map" ["map"] 90 90 (OMap []) []).

Definition keyword_as_name (self : XPathToken) : P XPathToken :=
  mret (Token "(name)" ["literal"] 0 0 (value self) []).

Definition map_nud_example (source : list XPathToken)
    : result (XPathToken * Parser.t) :=
  nud_map_sequence_type_or_constructor literal_expression empty_map_nud
    keyword_as_name (fun _ => mret tt) map_token (parser_at "3.1" source).

(** Result elements of test cases, and a run in which the test expression
    evaluates to true: [assert_true_validator] returns [True], the other
    validators that run the test return [False]. *)
Definition assert_permutation : W3C.Result :=
  W3C.MkResult "assert-permutation" (Some "1, 2, 3") [] [].
Definition assert_true : W3C.Result :=
  W3C.MkResult "assert-true" None [] [].
Definition any_of (children : list W3C.Result) : W3C.Result :=
  W3C.MkResult "any-of" None [] children.
Definition not_of (child : W3C.Result) : W3C.Result :=
  W3C.MkResult "not" None [] [child].

Definition test_is_true (r : W3C.Result) (verbose : Z) : result W3C.pyret :=
  if W3C.type r =? "assert-true" then Ok W3C.RTrue else Ok W3C.RFalse.

(** Modelled from the spec: the base constructor [Token.__init__], to which
    [LookupOperatorToken.__init__] hands its [value], is not among the
    sources. Section 4.1: a token instance carries its raw value; so the
    value given is stored, and a token constructed without one
    ([value=None]) holds its symbol, as the symbol tokens above do. *)
Definition init_value (symbol : string) (value : option pyobj) : pyobj :=
  default (OAtom (AString symbol)) value.

(** The [?] token as the tokenizer constructs it, [LookupOperatorToken(parser)]
    with the default [value=None], and the tokens of [( ? )]. *)
Definition question_mark : XPathToken :=
  Token "?" ["operator"] LookupOperatorToken.class_bp
    LookupOperatorToken.class_bp (init_value "?" None) [].

Definition placeholder_source : list XPathToken :=
  [symbol_token "(" 80; question_mark; symbol_token ")" 0].

(** ** The W3C test driver: running a test and counting the results *)

Module Driver.

(** [IGNORE_DEPENDENCIES] and [SKIP_TESTS] of [execute_w3c_tests.py]. *)
Definition IGNORE_DEPENDENCIES : list string :=
  [ "XQ10"; "XQ10+"; "XP30"; "XP30+"; "XQ30"; "XQ30+"; "XP31"; "XP31+";
    "XQ31"; "XQ31+" ].

Definition SKIP_TESTS : list string :=
  [ "fn-subsequence__cbcl-subsequence-010";
    "fn-subsequence__cbcl-subsequence-011";
    "fn-subsequence__cbcl-subsequence-012";
    "fn-subsequence__cbcl-subsequence-013";
    "fn-subsequence__cbcl-subsequence-014";
    "prod-NameTest__NodeTest004";
    "fn-string__fn-string-30" ].

(** [needle in haystack] on strings. *)
Fixpoint contains (needle haystack : string) : bool :=
  String.prefix needle haystack
  || match haystack with
     | EmptyString => false
     | String _ rest => contains needle rest
     end.

(** [value.split(' ')]: the string is cut at every space. *)
Fixpoint split_space (s : string) : list string :=
  match s with
  | EmptyString => [EmptyString]
  | String c s' =>
      if Ascii.eqb c " " then EmptyString :: split_space s'
      else match split_space s' with
           | w :: ws => String c w :: ws
           | [] => [String c EmptyString]
           end
  end.

(** [str.strip()], on ASCII text. *)
Fixpoint lstrip (s : string) : string :=
  match s with
  | String c s' => if ascii_space c then lstrip s' else s
  | EmptyString => EmptyString
  end.

Fixpoint rstrip (s : string) : string :=
  match s with
  | EmptyString => EmptyString
  | String c s' =>
      match rstrip s' with
      | EmptyString => if ascii_space c then EmptyString
                       else String c EmptyString
      | r => String c r
      end
  end.

Definition strip (s : string) : string := rstrip (lstrip s).

(** *** The dependencies of a test case: the loop of [TestCase.__init__] *)

(** What the loop over the [dependency] children fills in: the lists of spec
    and feature dependencies and the single value dependencies, set as
    attributes of the test case. *)
Record Dependencies : Type := MkDependencies {
  spec_dependencies : list string;
  feature_dependencies : list string;
  attributes : list (string * string)
}.

Definition single_value_dependencies : list string :=
  [ "calendar"; "default-language"; "format-integer-sequence"; "language";
    "limits"; "xml-version"; "xsd-version"; "unicode-version";
    "unicode-normalization-form" ].

(** [setattr(self, name, value)] *)
Fixpoint setattr (attrs : list (string * string)) (name value : string)
    : list (string * string) :=
  match attrs with
  | [] => [(name, value)]
  | (n, v) :: rest =>
      if n =? name then (name, value) :: rest
      else (n, v) :: setattr rest name value
  end.

Definition add_dependency (self : Dependencies) (child : string * string)
    : Dependencies :=
  let dep_type := fst child in
  let value := snd child in
  if dep_type =? "spec" then
    MkDependencies (spec_dependencies self ++ split_space value)
      (feature_dependencies self) (attributes self)
  else if dep_type =? "feature" then
    MkDependencies (spec_dependencies self)
      (feature_dependencies self ++ [value]) (attributes self)
  else if in_symbols dep_type single_value_dependencies then
    MkDependencies (spec_dependencies self) (feature_dependencies self)
      (setattr (attributes self) (W3C.replace_dash dep_type) value)
  else self.  (* print("unexpected dependency type ...") *)

(** The children are [(type, value)] pairs, in document order. *)
Definition read_dependencies (children : list (string * string))
    : Dependencies :=
  fold_left add_dependency children (MkDependencies [] [] []).

(** *** The loop of [main] *)

(** A test case as [main] reads it: its name, its dependencies and the
    outcome of [test_case.run(verbose)]: a value, an exception, or the
    [SystemExit] of a [sys.exit]. *)
Record TestCase : Type := MkTestCase {
  name : string;
  dependencies : Dependencies;
  run : result W3C.pyret
}.

Record TestSet : Type := MkTestSet {
  set_spec_dependencies : list string;
  test_cases : list TestCase
}.

(** The counters of [main] and the lists of the report. *)
Record Counters : Type := MkCounters {
  count_read : nat;
  count_skip : nat;
  count_run : nat;
  count_success : nat;
  count_failed : nat;
  count_unknown : nat;
  count_other_failures : nat;
  report_success : list string;
  report_failed : list string;
  report_unknown : list string;
  report_other_failures : list string
}.

Definition zero : Counters := MkCounters 0 0 0 0 0 0 0 [] [] [] [].

(** [any(dep in IGNORE_DEPENDENCIES for dep in deps)] *)
Definition ignored (deps : list string) : bool :=
  existsb (fun dep => in_symbols dep IGNORE_DEPENDENCIES) deps.

Definition skipped (c : Counters) : Counters :=
  MkCounters (count_read c) (S (count_skip c)) (count_run c)
    (count_success c) (count_failed c) (count_unknown c)
    (count_other_failures c) (report_success c) (report_failed c)
    (report_unknown c) (report_other_failures c).

(** A [for] loop whose body may raise: the loop ends at the first error. *)
Fixpoint for_each {A S : Type} (body : S -> A -> result S) (l : list A)
    (s : S) : result S :=
  match l with
  | [] => Ok s
  | x :: l' => s' ← body s x; for_each body l' s'
  end.

(** The body of [for test_case in test_set.test_cases]. [report] is
    [args.report]: the lists are filled only when a report is asked for.
    [except Exception] counts an exception of the run as another failure;
    a [SystemExit] is not caught and leaves [main]. *)
Definition count_case (pattern : string) (report : bool)
    (ignore_all_in_test_set : bool) (c : Counters) (test_case : TestCase)
    : result Counters :=
  if negb (contains pattern (name test_case)) then Ok c
  else
    let c := MkCounters (S (count_read c)) (count_skip c) (count_run c)
               (count_success c) (count_failed c) (count_unknown c)
               (count_other_failures c) (report_success c) (report_failed c)
               (report_unknown c) (report_other_failures c) in
    if ignore_all_in_test_set then Ok (skipped c)
    else if ignored (spec_dependencies (dependencies test_case))
    then Ok (skipped c)
    else if in_symbols "higherOrderFunctions"
              (feature_dependencies (dependencies test_case))
    then Ok (skipped c)
    else if in_symbols (name test_case) SKIP_TESTS then Ok (skipped c)
    else
      let c := MkCounters (count_read c) (count_skip c) (S (count_run c))
                 (count_success c) (count_failed c) (count_unknown c)
                 (count_other_failures c) (report_success c) (report_failed c)
                 (report_unknown c) (report_other_failures c) in
      let add (l : list string) :=
        if report then l ++ [name test_case] else l in
      match run test_case with
      | Ok W3C.RTrue =>
          Ok (MkCounters (count_read c) (count_skip c) (count_run c)
                (S (count_success c)) (count_failed c) (count_unknown c)
                (count_other_failures c) (add (report_success c))
                (report_failed c) (report_unknown c)
                (report_other_failures c))
      | Ok W3C.RFalse =>
          Ok (MkCounters (count_read c) (count_skip c) (count_run c)
                (count_success c) (S (count_failed c)) (count_unknown c)
                (count_other_failures c) (report_success c)
                (add (report_failed c)) (report_unknown c)
                (report_other_failures c))
      | Ok _ =>
          Ok (MkCounters (count_read c) (count_skip c) (count_run c)
                (count_success c) (count_failed c) (S (count_unknown c))
                (count_other_failures c) (report_success c)
                (report_failed c) (add (report_unknown c))
                (report_other_failures c))
      | Err (SystemExit status) => Err (SystemExit status)
      | Err _ =>
          Ok (MkCounters (count_read c) (count_skip c) (count_run c)
                (count_success c) (count_failed c) (count_unknown c)
                (S (count_other_failures c)) (report_success c)
                (report_failed c) (report_unknown c)
                (add (report_other_failures c)))
      end.

Definition count_test_set (pattern : string) (report : bool) (c : Counters)
    (test_set : TestSet) : result Counters :=
  let ignore_all_in_test_set := ignored (set_spec_dependencies test_set) in
  for_each (count_case pattern report ignore_all_in_test_set)
    (test_cases test_set) c.

(** [for test_set in test_sets.values()], from counters at zero: the
    counters [main] prints, when it gets there. *)
Definition main (pattern : string) (report : bool) (test_sets : list TestSet)
    : result Counters :=
  for_each (count_test_set pattern report) test_sets zero.

End Driver.

(** Vocabulary for the counters of [main]: the test cases in the order
    [main] visits them, each with the flag of its test set; whether a test
    case is read, and whether it is run. *)
Module DriverSpec.
Import Driver.

Definition cases (test_sets : list TestSet) : list (bool * TestCase) :=
  flat_map (fun ts => map (pair (ignored (set_spec_dependencies ts)))
                        (test_cases ts))
    test_sets.

Definition is_read (pattern : string) (x : bool * TestCase) : bool :=
  contains pattern (name (snd x)).

Definition is_skipped (x : bool * TestCase) : bool :=
  fst x
  || ignored (spec_dependencies (dependencies (snd x)))
  || in_symbols "higherOrderFunctions"
       (feature_dependencies (dependencies (snd x)))
  || in_symbols (name (snd x)) SKIP_TESTS.

Definition is_run (pattern : string) (x : bool * TestCase) : bool :=
  is_read pattern x && negb (is_skipped x).

Definition counted (pattern : string) (v : W3C.verdict)
    (x : bool * TestCase) : bool :=
  is_run pattern x
  && match W3C.count (run (snd x)), v with
     | W3C.Success, W3C.Success | W3C.Failed, W3C.Failed
     | W3C.Unknown, W3C.Unknown | W3C.OtherFailure, W3C.OtherFailure => true
     | _, _ => false
     end.

(** The run of the test case leaves [main] by [sys.exit]. *)
Definition exits (pattern : string) (x : bool * TestCase) : bool :=
  is_run pattern x
  && match run (snd x) with
     | Err (SystemExit _) => true
     | _ => false
     end.

(** One turn of the loops of [main], on a test case with the flag of its
    test set. *)
Definition count_pair (pattern : string) (report : bool) (c : Counters)
    (x : bool * TestCase) : result Counters :=
  count_case pattern report (fst x) c (snd x).

(** The names of the test cases counted with a verdict, for the report. *)
Definition reported (pattern : string) (report : bool) (v : W3C.verdict)
    (l : list (bool * TestCase)) : list string :=
  if report then map (fun x => name (snd x)) (List.filter (counted pattern v) l)
  else [].

(** The counters [c] are the counters [c0] advanced over the test cases
    [l]: each counter by the number of the test cases it counts, each list of
    the report by their names. *)
Definition counts_as (pattern : string) (report : bool) (c0 c : Counters)
    (l : list (bool * TestCase)) : Prop :=
  let n (p : bool * TestCase -> bool) := length (List.filter p l) in
  count_read c = (count_read c0 + n (is_read pattern))%nat
  /\ count_skip c
     = (count_skip c0 + n (fun x => is_read pattern x && is_skipped x))%nat
  /\ count_run c = (count_run c0 + n (is_run pattern))%nat
  /\ count_success c
     = (count_success c0 + n (counted pattern W3C.Success))%nat
  /\ count_failed c = (count_failed c0 + n (counted pattern W3C.Failed))%nat
  /\ count_unknown c
     = (count_unknown c0 + n (counted pattern W3C.Unknown))%nat
  /\ count_other_failures c
     = (count_other_failures c0 + n (counted pattern W3C.OtherFailure))%nat
  /\ report_success c
     = report_success c0 ++ reported pattern report W3C.Success l
  /\ report_failed c
     = report_failed c0 ++ reported pattern report W3C.Failed l
  /\ report_unknown c
     = report_unknown c0 ++ reported pattern report W3C.Unknown l
  /\ report_other_failures c
     = report_other_failures c0 ++ reported pattern report W3C.OtherFailure l.

End DriverSpec.

(** Test sets for the examples: a test case that passes, one that fails and
    one whose run ends in the [sys.exit(1)] of [assert_type_validator]. *)
Definition passing_case : Driver.TestCase :=
  Driver.MkTestCase "fn-abs__fn-abs-1" (Driver.MkDependencies [] [] [])
    (Ok W3C.RTrue).
Definition failing_case : Driver.TestCase :=
  Driver.MkTestCase "fn-abs__fn-abs-2" (Driver.MkDependencies [] [] [])
    (Ok W3C.RFalse).
Definition exiting_case : Driver.TestCase :=
  Driver.MkTestCase "fn-abs__fn-abs-3" (Driver.MkDependencies [] [] [])
    (Err (SystemExit 1)).

Definition completed_test_sets : list Driver.TestSet :=
  [Driver.MkTestSet [] [passing_case; failing_case]].
Definition exiting_test_sets : list Driver.TestSet :=
  [Driver.MkTestSet [] [passing_case; exiting_case; failing_case]].

Definition completed_counters : Driver.Counters :=
  Driver.MkCounters 2 0 2 1 1 0 0 ["fn-abs__fn-abs-1"] ["fn-abs__fn-abs-2"]
    [] [].

(** ** The W3C test driver: the context and the run of a test *)

Module TestRun.

(** A source of an environment: its file and the tree
    [ElementTree.parse(self.file)] gave, [None] when the file does not
    parse. The trees are named by numbers. *)
Record Source : Type := MkSource {
  file : string;
  xml : option nat
}.

(** [Environment.sources], a dictionary from the role of a source. *)
Record Environment : Type := MkEnvironment {
  sources : gmap string Source
}.

(** The arguments [get_xpath_context] gives to [XPathContext]: the root,
    [ElementTree.XML("<empty/>")] or the tree of a source, and the variable
    values when they are given. *)
Inductive Root : Type :=
| EmptyElement
| SourceTree (tree : option nat).

Record ContextArguments : Type := MkArguments {
  root : Root;
  variable_values : option (gmap string (option nat))
}.

Definition starts_with_dollar (k : string) : bool :=
  match k with
  | String c _ => Ascii.eqb c "$"
  | EmptyString => false
  end.

(** [k[1:]] *)
Definition drop_first (k : string) : string :=
  match k with
  | String _ rest => rest
  | EmptyString => EmptyString
  end.

(** [{k[1:]: v.xml for k, v in items if k.startswith('$')}]: the entries are
    set one after the other. *)
Definition dollar_variables (items : list (string * Source))
    : gmap string (option nat) :=
  fold_left
    (fun m kv =>
       if starts_with_dollar (fst kv)
       then <[drop_first (fst kv) := xml (snd kv)]> m
       else m)
    items ∅.

(** [TestCase.get_xpath_context]: [environments] is
    [self.test_set.environments]; an unknown reference is an
    [ExecutionError]. *)
Definition get_xpath_context (environments : gmap string Environment)
    (environment_ref : option string) (environment : option Environment)
    : result ContextArguments :=
  environment ←
    match environment_ref with
    | Some env_ref =>
        if negb (env_ref =? "") then
          match environments !! env_ref with
          | Some e => Ok (Some e)
          | None => Err (PyError "ExecutionError")
          end
        else Ok environment
    | None => Ok environment
    end;
  match environment with
  | None => Ok (MkArguments EmptyElement None)
  | Some environment =>
      let root :=
        match sources environment !! "." with
        | Some source => SourceTree (xml source)
        | None => EmptyElement
        end in
      if existsb (fun kv => starts_with_dollar (fst kv))
           (map_to_list (sources environment))
      then Ok (MkArguments root
                 (Some (dollar_variables (map_to_list (sources environment)))))
      else Ok (MkArguments root None)
  end.

(** An exception of the parser or of the evaluation: whether it is an
    [ElementPathError], and [str(err)]. *)
Record Raised : Type := MkRaised {
  is_elementpath_error : bool;
  text : string
}.

(** What a run of the test raises: the [ElementPathError] of the library,
    the [ParseError] and [EvaluateError] of the driver, or the
    [ExecutionError] of an unknown environment. *)
Inductive RunError : Type :=
| ElementPathError (text : string)
| ParseError (text : string)
| EvaluateError (text : string)
| ExecutionError.

(** What the test expression evaluates to, as far as the validators tell
    values apart. *)
Inductive Value : Type :=
| VTrue
| VFalse
| VNone
| VString (s : string)
| VList (items : list Value)
| VOther.

(** [TestCase.run_xpath_test]: [parse] is the outcome of
    [parser.parse(self.test)], [context] the one of [get_xpath_context] and
    [evaluate] gives the outcome of [root_node.evaluate(context)]. *)
Definition run_xpath_test {Tree : Type} (parse : Raised + Tree)
    (context : result ContextArguments)
    (evaluate : Tree -> ContextArguments -> Raised + Value)
    : RunError + Value :=
  match parse with
  | inl err =>
      if is_elementpath_error err then inl (ElementPathError (text err))
      else inl (ParseError (text err))
  | inr root_node =>
      match context with
      | Err _ => inl ExecutionError
      | Ok context =>
          match evaluate root_node context with
          | inl err =>
              if is_elementpath_error err
              then inl (ElementPathError (text err))
              else inl (EvaluateError (text err))
          | inr result => inr result
          end
      end
  end.

(** [except (ElementPathError, ParseError, EvaluateError)] *)
Definition caught (e : RunError) : bool :=
  match e with
  | ExecutionError => false
  | _ => true
  end.

Definition propagate (e : RunError) : result W3C.pyret :=
  Err (PyError "ExecutionError").

Definition assert_true_validator (run : RunError + Value)
    : result W3C.pyret :=
  match run with
  | inr result => Ok (W3C.of_bool match result with VTrue => true | _ => false end)
  | inl e => if caught e then Ok W3C.RFalse else propagate e
  end.

Definition assert_false_validator (run : RunError + Value)
    : result W3C.pyret :=
  match run with
  | inr result => Ok (W3C.of_bool match result with VFalse => true | _ => false end)
  | inl e => if caught e then Ok W3C.RFalse else propagate e
  end.

Definition assert_empty_validator (run : RunError + Value)
    : result W3C.pyret :=
  match run with
  | inr result =>
      Ok (W3C.of_bool match result with
                      | VNone | VList [] => true
                      | _ => false
                      end)
  | inl e => if caught e then Ok W3C.RFalse else propagate e
  end.

Definition assert_serialization_error_validator (run : RunError + Value)
    : result W3C.pyret :=
  match run with
  | inr _ => Ok W3C.RFalse
  | inl e => if caught e then Ok W3C.RTrue else propagate e
  end.

(** [attrib.get(key)] *)
Fixpoint attrib_get (attrib : list (string * string)) (key : string)
    : option string :=
  match attrib with
  | [] => None
  | (k, v) :: rest => if k =? key then Some v else attrib_get rest key
  end.

Definition error_validator (attrib : list (string * string))
    (run : RunError + Value) : result W3C.pyret :=
  match run with
  | inl (ElementPathError err) =>
      match attrib_get attrib "code" with
      | None => Ok W3C.RTrue
      | Some code =>
          let code := Driver.strip code in
          if (code =? "*") || Driver.contains code err then Ok W3C.RTrue
          else Ok W3C.RFalse
      end
  | inl (ParseError _) | inl (EvaluateError _) =>
      Ok (W3C.of_bool (default "*" (attrib_get attrib "code") =? "*"))
  | inl ExecutionError => propagate ExecutionError
  | inr _ => Ok W3C.RFalse
  end.

(** The validators above by the type of the result element, for
    [W3C.validate]; [other] stands for the validators not modelled. *)
Definition run_validator (run : RunError + Value)
    (other : W3C.Result -> Z -> result W3C.pyret)
    (self : W3C.Result) (verbose : Z) : result W3C.pyret :=
  let name := W3C.replace_dash (W3C.type self) in
  if name =? "assert_true" then assert_true_validator run
  else if name =? "assert_false" then assert_false_validator run
  else if name =? "assert_empty" then assert_empty_validator run
  else if name =? "assert_serialization_error"
  then assert_serialization_error_validator run
  else if name =? "error" then error_validator (W3C.attrib self) run
  else other self verbose.

End TestRun.

(** An environment of the catalog for the examples: a context document and
    a source bound to the variable [works]. *)
Definition works_environment : TestRun.Environment :=
  TestRun.MkEnvironment
    (<["." := TestRun.MkSource "docs/works.xml" (Some 1%nat)]>
       (<["$works" := TestRun.MkSource "docs/works-mod.xml" (Some 2%nat)]> ∅)).

Definition catalog_environments : gmap string TestRun.Environment :=
  <["works" := works_environment]> ∅.

(** ** The other tables of [translation_maps.py] *)

Module Calendar.

Definition NUM_TO_MONTH_MAPS : list (string * list (Z * string)) :=
  [ ("en",
     [ (1, "january"); (2, "february"); (3, "march"); (4, "april");
       (5, "may"); (6, "june"); (7, "july"); (8, "august");
       (9, "september"); (10, "october"); (11, "november");
       (12, "december") ]);
    ("it",
     [ (1, "gennaio"); (2, "febbraio"); (3, "marzo"); (4, "aprile");
       (5, "maggio"); (6, "giugno"); (7, "luglio"); (8, "agosto");
       (9, "settembre"); (10, "ottobre"); (11, "novembre");
       (12, "dicembre") ]) ].

Definition NUM_TO_WEEKDAY_MAPS : list (string * list (Z * string)) :=
  [ ("en",
     [ (1, "monday"); (2, "tuesday"); (3, "wednesday"); (4, "thursday");
       (5, "friday"); (6, "saturday"); (7, "sunday") ]);
    ("it",
     [ (1, "lunedì"); (2, "martedì"); (3, "mercoledì"); (4, "giovedì");
       (5, "venerdì"); (6, "sabato"); (7, "domenica") ]) ].

(** [table[key]] of a dictionary, [None] for a [KeyError]. *)
Fixpoint getitem {K V : Type} (eqb : K -> K -> bool) (table : list (K * V))
    (key : K) : option V :=
  match table with
  | [] => None
  | (k, v) :: rest => if eqb k key then Some v else getitem eqb rest key
  end.

(** The keys of a dictionary, in the order of the source. *)
Definition keys {K V : Type} (table : list (K * V)) : list K := map fst table.

End Calendar.

(** ** Outcomes of a list of validators *)

(** The first exception among the outcomes, and whether an outcome is a true
    value. *)
Fixpoint first_error {A : Type} (outcomes : list (result A)) : option error :=
  match outcomes with
  | [] => None
  | Err e :: _ => Some e
  | Ok _ :: rest => first_error rest
  end.

Definition is_valid (outcome : result W3C.pyret) : bool :=
  match outcome with
  | Ok r => W3C.truth r
  | Err _ => false
  end.

(** Result elements for the examples: an [all-of], and validators that raise
    for every element. *)
Definition all_of (children : list W3C.Result) : W3C.Result :=
  W3C.MkResult "all-of" None [] children.

Definition test_raises (r : W3C.Result) (verbose : Z) : result W3C.pyret :=
  Err (PyError "ExecutionError").

(** The tokens of the kind tests [array( * )] and [array(1)], read with
    [literal_expression], and the constructor [array { }] of an empty
    array. *)
Definition array_test_source (operands : list XPathToken)
    : list XPathToken :=
  [array_token; symbol_token "(" 80] ++ operands ++ [symbol_token ")" 0].

Definition empty_array_nud : P XPathToken :=
  advance ["{"];;
  advance ["}"];;
  mret (XPathArray "array").

Definition array_nud_example (source : list XPathToken)
    : result (XPathToken * Parser.t) :=
  nud_sequence_type_or_curly_array_constructor literal_expression
    empty_array_nud keyword_as_name (fun _ => mret tt) array_token
    (parser_at "3.1" source).

(** The tokens of [E ? 2] after [E], those of [E ? + 1], where no key
    specifier follows, and the ones of [E => concat ( )] after [E]; a token
    of a function class carries the label [function]. *)
Definition lookup_source : list XPathToken :=
  [question_mark; integer_literal 2].

Definition lookup_no_key_source : list XPathToken :=
  [question_mark; symbol_token "+" 40; integer_literal 1].

Definition function_token (name : string) : XPathToken :=
  Token name ["function"] 90 90 ONone [].

Definition has_function_label (t : XPathToken) : bool :=
  label_in (label t) ["function"].

Definition fat_arrow : XPathToken :=
  Token "=>" ["operator"] 67 67 (OAtom (AString "=>")) [].

Definition arrow_source : list XPathToken :=
  [fat_arrow; function_token "concat"; symbol_token "(" 80;
   symbol_token ")" 0].

(** A parenthesized key expression that selects the items [ks]. *)
Definition parenthesized_keys (ks : list pyobj) : XPathToken :=
  Token "(" ["expression"] 80 80 (OList ks) [].

(** * Properties *)

(** ** Generators and dictionaries *)

Lemma gen_then_done_r (g : gen) : gen_then g gen_done = g.
Proof.
  destruct g as [l [e|]]; cbn; [reflexivity|].
  by rewrite app_nil_r.
Qed.

Lemma gen_for_yield_from (f : pyobj -> list pyobj) (l : list pyobj) :
  gen_for l (fun v => gen_yield_from (f v)) = (concat (map f l), None).
Proof.
  induction l as [|x l IH]; cbn; [reflexivity|].
  by rewrite IH.
Qed.

Lemma gen_for_ext (f g : pyobj -> gen) (l : list pyobj) :
  (forall x, f x = g x) -> gen_for l f = gen_for l g.
Proof.
  intros Hfg. induction l as [|x l IH]; cbn; [reflexivity|].
  by rewrite Hfg, IH.
Qed.

Lemma gen_for_gen_ext (f g : pyobj -> gen) (src : gen) :
  (forall x, f x = g x) -> gen_for_gen src f = gen_for_gen src g.
Proof. intros Hfg. unfold gen_for_gen. by rewrite (gen_for_ext f g). Qed.

Lemma gen_for_singleton (x : pyobj) (body : pyobj -> gen) :
  gen_for [x] body = body x.
Proof. cbn. apply gen_then_done_r. Qed.

Lemma gen_for_prefix (body : pyobj -> gen) (before rest : list pyobj) :
  Forall (fun it => snd (body it) = None) before ->
  gen_for (before ++ rest) body
  = gen_then (concat (map (fun it => fst (body it)) before), None)
      (gen_for rest body).
Proof.
  induction 1 as [|it before Hit _ IH].
  - cbn. by destruct (gen_for rest body) as [l [e|]].
  - cbn [app gen_for map concat]. rewrite IH.
    destruct (body it) as [l1 [e1|]]; [discriminate|]. cbn.
    destruct (gen_for rest body) as [l2 [e2|]]; cbn;
      by rewrite ?app_assoc.
Qed.

(** A loop over the items of a generator, when no turn raises: the results of
    the turns in order, and then the error of the generator, if any. *)
Lemma gen_for_gen_all (body : pyobj -> gen) (its : list pyobj)
    (err : option error) :
  Forall (fun it => snd (body it) = None) its ->
  gen_for_gen (its, err) body
  = (concat (map (fun it => fst (body it)) its), err).
Proof.
  intros Hall. unfold gen_for_gen. cbn [fst snd].
  rewrite <- (app_nil_r its) at 1. rewrite (gen_for_prefix _ _ _ Hall).
  destruct err; cbn; by rewrite !app_nil_r.
Qed.

(** When a turn raises, the loop ends there: the items after it are not
    visited and the error of the generator is not reached. *)
Lemma gen_for_gen_raise (body : pyobj -> gen) (before after : list pyobj)
    (it : pyobj) (err : option error) (raised : error) :
  Forall (fun it => snd (body it) = None) before ->
  snd (body it) = Some raised ->
  gen_for_gen (before ++ it :: after, err) body
  = (concat (map (fun it => fst (body it)) before) ++ fst (body it),
     Some raised).
Proof.
  intros Hall Hit. unfold gen_for_gen. cbn [fst snd].
  rewrite (gen_for_prefix _ _ _ Hall). cbn [gen_for].
  destruct (body it) as [l [e|]]; [|discriminate]. cbn in Hit.
  injection Hit as ->. reflexivity.
Qed.

Lemma dict_get_set_eq (d : Dict.t) (k : atomic) (v : pyobj) :
  Dict.get (Dict.set d k v) k = Some v.
Proof.
  induction d as [|[k' v'] d IH]; cbn.
  - by rewrite decide_True.
  - destruct (decide (k' = k)) as [->|Hne]; cbn.
    + by rewrite decide_True.
    + by rewrite decide_False.
Qed.

Lemma dict_get_set_ne (d : Dict.t) (k k0 : atomic) (v : pyobj) :
  k <> k0 -> Dict.get (Dict.set d k v) k0 = Dict.get d k0.
Proof.
  intros Hne. induction d as [|[k' v'] d IH]; cbn.
  - by rewrite decide_False.
  - destruct (decide (k' = k)) as [->|Hne']; cbn.
    + by rewrite !decide_False.
    + destruct (decide (k' = k0)); [reflexivity | exact IH].
Qed.

Lemma dict_get_del_eq (d : Dict.t) (k : atomic) :
  Dict.get (Dict.del d k) k = None.
Proof.
  induction d as [|[k' v'] d IH]; [reflexivity|].
  unfold Dict.del in *. cbn.
  destruct (decide (k' = k)) as [->|Hne].
  - rewrite decide_False; [exact IH | intros H; by apply H].
  - rewrite decide_True by exact Hne. cbn. by rewrite decide_False.
Qed.

Lemma dict_get_del_None (d : Dict.t) (k k0 : atomic) :
  Dict.get d k0 = None -> Dict.get (Dict.del d k) k0 = None.
Proof.
  induction d as [|[k' v'] d IH]; [reflexivity|].
  unfold Dict.del in *. cbn.
  destruct (decide (k' = k0)) as [->|Hne]; [discriminate|].
  intros H. destruct (decide (k' <> k)); cbn.
  - rewrite decide_False by exact Hne. by apply IH.
  - by apply IH.
Qed.

(** ** The lookup operator *)

Section LookupFacts.
Variable select_token : XPathToken -> option XPathContext -> gen.

#[local] Abbreviation select := (LookupOperatorToken.select select_token).
#[local] Abbreviation evaluate := (LookupOperatorToken.evaluate select_token).
#[local] Abbreviation lookup_item := (LookupOperatorToken.lookup_item select_token).

Lemma lookup_item_map_key (key : XPathToken) (context : option XPathContext)
    (d : Dict.t) (k : atomic) :
  in_symbols (symbol key) ["(name)"; "(integer)"] = true ->
  value key = OAtom k ->
  lookup_item key context (OMap d)
  = (iter_sequence (default ONone (Dict.get d k)), None).
Proof.
  intros Hsym Hval. unfold LookupOperatorToken.lookup_item.
  cbn in Hsym. rewrite orb_false_r in Hsym.
  apply orb_true_iff in Hsym as [H|H]; apply String.eqb_eq in H;
    rewrite H, Hval; reflexivity.
Qed.

Lemma lookup_item_map_star (key : XPathToken) (context : option XPathContext)
    (d : Dict.t) :
  symbol key = "*" ->
  lookup_item key context (OMap d)
  = (concat (map iter_sequence (Dict.values d)), None).
Proof.
  intros Hsym. unfold LookupOperatorToken.lookup_item. rewrite Hsym. cbn.
  apply gen_for_yield_from.
Qed.

Lemma lookup_item_array_integer (key : XPathToken)
    (context : option XPathContext) (l : list pyobj) (z : Z) (m : pyobj) :
  symbol key = "(integer)" ->
  value key = OAtom (AInteger z) ->
  1 <= z ->
  l !! Z.to_nat (z - 1) = Some m ->
  lookup_item key context (OArray l) = ([m], None).
Proof.
  intros Hsym Hval Hz Hm. unfold LookupOperatorToken.lookup_item.
  rewrite Hsym, Hval. cbn. rewrite decide_True by exact Hz.
  by rewrite Hm.
Qed.

Lemma lookup_item_array_star (key : XPathToken)
    (context : option XPathContext) (l : list pyobj) :
  symbol key = "*" -> lookup_item key context (OArray l) = (l, None).
Proof.
  intros Hsym. unfold LookupOperatorToken.lookup_item. by rewrite Hsym.
Qed.

Lemma lookup_item_other (key : XPathToken) (context : option XPathContext)
    (it : pyobj) :
  is_map it = false -> is_array it = false ->
  lookup_item key context it = ([], Some (Error "XPTY0004")).
Proof. destruct it; cbn; intros; solve [reflexivity | discriminate]. Qed.

(** The rule of a key that is a name, an integer or [*] does not read the
    context. *)
Lemma lookup_item_context_free (key : XPathToken)
    (context context' : option XPathContext) (it : pyobj) :
  in_symbols (symbol key) ["(name)"; "(integer)"; "*"] = true ->
  lookup_item key context it = lookup_item key context' it.
Proof.
  intros Hsym. cbn in Hsym. rewrite orb_false_r in Hsym.
  apply orb_true_iff in Hsym as [H|H];
    [|apply orb_true_iff in H as [H|H]];
    apply String.eqb_eq in H;
    unfold LookupOperatorToken.lookup_item; rewrite H;
    destruct it; reflexivity.
Qed.

(** C1. The unary form [?K] applies the lookup to the context item; the
    binary form [E?K] iterates [E] and applies the same lookup to each item
    in order (for a key that is a name, an integer or [*] this is the unary
    form with the item as context item): what it yields is what the items
    of [E] give, one after the other, up to the first lookup that raises,
    and then the error of [E] itself, if it has one. On a map, a name or integer key
    yields the bound value as a flattened sequence, and the empty sequence
    when the key has no binding; [*] yields all the values. On an array, an
    integer key yields that member and [*] all the members. An item that is
    neither a map nor an array raises XPTY0004. *)
Theorem lookup_operator_select :
  (forall self key c,
     operands self = [key] ->
     select self (Some c) = lookup_item key (Some c) (item c))
  /\ (forall self e key context,
        operands self = [e; key] ->
        select self context
        = gen_for_gen (select_token e context) (lookup_item key context))
  /\ (forall self e key c,
        operands self = [e; key] ->
        in_symbols (symbol key) ["(name)"; "(integer)"; "*"] = true ->
        select self (Some c)
        = gen_for_gen (select_token e (Some c))
            (fun it => select (set_operands self [key])
                         (Some (Context it (variables c)))))
  /\ (forall key context d k v,
        in_symbols (symbol key) ["(name)"; "(integer)"] = true ->
        value key = OAtom k ->
        Dict.get d k = Some v ->
        lookup_item key context (OMap d) = (iter_sequence v, None))
  /\ (forall key context d k,
        in_symbols (symbol key) ["(name)"; "(integer)"] = true ->
        value key = OAtom k ->
        Dict.get d k = None ->
        lookup_item key context (OMap d) = ([], None))
  /\ (forall key context d,
        symbol key = "*" ->
        lookup_item key context (OMap d)
        = (concat (map iter_sequence (Dict.values d)), None))
  /\ (forall key context l z m,
        symbol key = "(integer)" ->
        value key = OAtom (AInteger z) ->
        1 <= z ->
        l !! Z.to_nat (z - 1) = Some m ->
        lookup_item key context (OArray l) = ([m], None))
  /\ (forall key context l,
        symbol key = "*" ->
        lookup_item key context (OArray l) = (l, None))
  /\ (forall key context it,
        is_map it = false -> is_array it = false ->
        lookup_item key context it = ([], Some (Error "XPTY0004")))
  /\ (forall self key c,
        operands self = [key] ->
        is_map (item c) = false -> is_array (item c) = false ->
        evaluate self (Some c) = Err (Error "XPTY0004"))
  /\ (forall self e key context its err,
        operands self = [e; key] ->
        select_token e context = (its, err) ->
        Forall (fun it => snd (lookup_item key context it) = None) its ->
        select self context
        = (concat (map (fun it => fst (lookup_item key context it)) its),
           err))
  /\ (forall self e key context before it after err raised,
        operands self = [e; key] ->
        select_token e context = (before ++ it :: after, err) ->
        Forall (fun it => snd (lookup_item key context it) = None) before ->
        snd (lookup_item key context it) = Some raised ->
        select self context
        = (concat (map (fun it => fst (lookup_item key context it)) before)
           ++ fst (lookup_item key context it),
           Some raised))
  /\ (forall self e key c its err,
        operands self = [e; key] ->
        in_symbols (symbol key) ["(name)"; "(integer)"; "*"] = true ->
        select_token e (Some c) = (its, err) ->
        Forall (fun it =>
                  snd (select (set_operands self [key])
                         (Some (Context it (variables c)))) = None) its ->
        select self (Some c)
        = (concat
             (map (fun it =>
                     fst (select (set_operands self [key])
                            (Some (Context it (variables c))))) its),
           err)).
Proof.
  assert (Hunary : forall self key c, operands self = [key] ->
            select self (Some c) = lookup_item key (Some c) (item c)).
  { intros self key c Hops. unfold LookupOperatorToken.select.
    rewrite Hops. apply gen_for_singleton. }
  assert (Hall : forall self e key context its err,
            operands self = [e; key] ->
            select_token e context = (its, err) ->
            Forall (fun it => snd (lookup_item key context it) = None) its ->
            select self context
            = (concat (map (fun it => fst (lookup_item key context it)) its),
               err)).
  { intros self e key context its err Hops He Hits.
    unfold LookupOperatorToken.select. rewrite Hops, He. cbn [List.last].
    by apply gen_for_gen_all. }
  split; [|split; [|split; [|split; [|split; [|split; [|split; [|split;
    [|split; [|split; [|split; [|split]]]]]]]]]]].
  - exact Hunary.
  - intros self e key context Hops. unfold LookupOperatorToken.select.
    by rewrite Hops.
  - intros self e key c Hops Hsym. unfold LookupOperatorToken.select at 1.
    rewrite Hops. cbn [List.last]. apply gen_for_gen_ext.
    intros it. rewrite (Hunary _ key) by reflexivity. cbn [item].
    by apply lookup_item_context_free.
  - intros key context d k v Hsym Hval Hget.
    rewrite (lookup_item_map_key _ _ _ k) by assumption. by rewrite Hget.
  - intros key context d k Hsym Hval Hget.
    rewrite (lookup_item_map_key _ _ _ k) by assumption. by rewrite Hget.
  - intros. by apply lookup_item_map_star.
  - intros. by eapply lookup_item_array_integer.
  - intros. by apply lookup_item_array_star.
  - intros. by apply lookup_item_other.
  - intros self key c Hops Hm Ha. unfold LookupOperatorToken.evaluate, truthy.
    rewrite Hops. cbn [negb]. rewrite (Hunary _ key) by exact Hops.
    by rewrite lookup_item_other.
  - exact Hall.
  - intros self e key context before it after err raised Hops He Hbefore Hit.
    unfold LookupOperatorToken.select. rewrite Hops, He. cbn [List.last].
    by apply gen_for_gen_raise.
  - intros self e key c its err Hops Hsym He Hits.
    assert (Hitem : forall it,
              select (set_operands self [key])
                (Some (Context it (variables c)))
              = lookup_item key (Some c) it).
    { intros it. rewrite (Hunary _ key) by reflexivity. cbn [item].
      by apply lookup_item_context_free. }
    rewrite (Hall self e key (Some c) its err Hops He).
    + f_equal. f_equal. apply map_ext. intros it. by rewrite Hitem.
    + eapply Forall_impl; [exact Hits|]. intros it Hit. cbn beta in Hit.
      by rewrite Hitem in Hit.
Qed.

End LookupFacts.

Lemma lookup_operator_select_witness :
  let week := OMap MAP_WEEKDAYS_DE in
  let days := OArray [OAtom (AString "Mo"); OAtom (AString "Tu")] in
  let c := Context week no_variables in
  LookupOperatorToken.select literal_select
    (lookup_token [integer_literal 6]) (Some c)
  = LookupOperatorToken.lookup_item literal_select (integer_literal 6)
      (Some c) week
  /\ LookupOperatorToken.select literal_select
       (lookup_token [constant week; integer_literal 6]) None
     = gen_for_gen ([week], None)
         (LookupOperatorToken.lookup_item literal_select (integer_literal 6) None)
  /\ LookupOperatorToken.select literal_select
       (lookup_token [constant (OList [week; week]); star_token]) (Some c)
     = gen_for_gen ([week; week], None)
         (fun it => LookupOperatorToken.select literal_select
                      (lookup_token [star_token])
                      (Some (Context it no_variables)))
  /\ LookupOperatorToken.lookup_item literal_select (integer_literal 6) None week
     = ([OAtom (AString "Samstag")], None)
  /\ LookupOperatorToken.lookup_item literal_select (name_token "Mon") None week
     = ([], None)
  /\ LookupOperatorToken.lookup_item literal_select star_token None
       (OMap [(AString "a", OList [OAtom (AInteger 1); OAtom (AInteger 2)]);
              (AString "b", ONone); (AString "c", OAtom (AInteger 3))])
     = ([OAtom (AInteger 1); OAtom (AInteger 2); OAtom (AInteger 3)], None)
  /\ LookupOperatorToken.lookup_item literal_select (integer_literal 2) None days
     = ([OAtom (AString "Tu")], None)
  /\ LookupOperatorToken.lookup_item literal_select star_token None days
     = ([OAtom (AString "Mo"); OAtom (AString "Tu")], None)
  /\ LookupOperatorToken.lookup_item literal_select (integer_literal 1) None
       (OAtom (AString "Mo"))
     = ([], Some (Error "XPTY0004"))
  /\ LookupOperatorToken.evaluate literal_select
       (lookup_token [name_token "a"])
       (Some (Context (OAtom (AInteger 7)) no_variables))
     = Err (Error "XPTY0004")
  /\ LookupOperatorToken.select literal_select
       (lookup_token [constant (OList [days; week]); integer_literal 1]) None
     = ([OAtom (AString "Mo"); OAtom (AString "Montag")], None)
  /\ LookupOperatorToken.select literal_select
       (lookup_token
          [constant (OList [days; OAtom (AInteger 3); week]);
           integer_literal 1]) None
     = ([OAtom (AString "Mo")], Some (Error "XPTY0004"))
  /\ LookupOperatorToken.select literal_select
       (lookup_token [constant (OList [days; week]); integer_literal 1])
       (Some c)
     = ([OAtom (AString "Mo"); OAtom (AString "Montag")], None).
Proof.
  intros week days c.
  destruct (lookup_operator_select literal_select)
    as (H1 & H2 & H3 & H4 & H5 & H6 & H7 & H8 & H9 & H10 & H11 & H12 & H13).
  split; [exact (H1 (lookup_token [integer_literal 6]) _ c eq_refl)|].
  split; [exact (H2 (lookup_token [constant week; integer_literal 6]) _ _ None eq_refl)|].
  split; [exact (H3 (lookup_token [constant (OList [week; week]); star_token])
                   _ _ c eq_refl eq_refl)|].
  split; [exact (H4 (integer_literal 6) None MAP_WEEKDAYS_DE (AInteger 6)
                   (OAtom (AString "Samstag")) eq_refl eq_refl eq_refl)|].
  split; [exact (H5 (name_token "Mon") None MAP_WEEKDAYS_DE (AString "Mon")
                   eq_refl eq_refl eq_refl)|].
  split; [exact (H6 star_token None _ eq_refl)|].
  split; [apply (H7 (integer_literal 2) None _ 2 (OAtom (AString "Tu")));
          [reflexivity | reflexivity | lia | reflexivity]|].
  split; [exact (H8 star_token None _ eq_refl)|].
  split; [exact (H9 (integer_literal 1) None (OAtom (AString "Mo")) eq_refl eq_refl)|].
  split; [exact (H10 (lookup_token [name_token "a"]) _
                    (Context (OAtom (AInteger 7)) no_variables)
                    eq_refl eq_refl eq_refl)|].
  split; [apply (H11 (lookup_token [constant (OList [days; week]);
                                    integer_literal 1])
                   (constant (OList [days; week])) (integer_literal 1) None
                   [days; week] None);
          [reflexivity | reflexivity | repeat constructor]|].
  split; [apply (H12 (lookup_token
                        [constant (OList [days; OAtom (AInteger 3); week]);
                         integer_literal 1])
                   (constant (OList [days; OAtom (AInteger 3); week]))
                   (integer_literal 1) None [days] (OAtom (AInteger 3))
                   [week] None (Error "XPTY0004"));
          [reflexivity | reflexivity | repeat constructor | reflexivity]|].
  apply (H13 (lookup_token [constant (OList [days; week]); integer_literal 1])
           (constant (OList [days; week])) (integer_literal 1) c
           [days; week] None);
    [reflexivity | reflexivity | reflexivity | repeat constructor].
Defined.

(** ** The lookup laws *)

Lemma lookup_item_map_denoted
    (select_token : XPathToken -> option XPathContext -> gen)
    (key : XPathToken) (context : option XPathContext) (d : Dict.t)
    (k : atomic) :
  key_denotes select_token key context k ->
  LookupOperatorToken.lookup_item select_token key context (OMap d)
  = (iter_sequence (default ONone (Dict.get d k)), None).
Proof.
  intros [[Hsym Hval] | [Hsym Hsel]].
  - by apply lookup_item_map_key.
  - unfold LookupOperatorToken.lookup_item. rewrite Hsym, Hsel. cbn.
    by rewrite !app_nil_r.
Qed.

Lemma lookup_evaluate_map
    (select_token : XPathToken -> option XPathContext -> gen)
    (self m key : XPathToken) (context : option XPathContext) (d : Dict.t)
    (k : atomic) :
  operands self = [m; key] ->
  key_denotes select_token key context k ->
  select_token m context = ([OMap d], None) ->
  LookupOperatorToken.evaluate select_token self context
  = Ok (OList (iter_sequence (default ONone (Dict.get d k)))).
Proof.
  intros Hops Hkey Hm.
  unfold LookupOperatorToken.evaluate, truthy, LookupOperatorToken.select.
  rewrite Hops. cbn [negb List.last]. rewrite Hm.
  unfold gen_for_gen. cbn [fst snd gen_for].
  rewrite (lookup_item_map_denoted _ _ _ _ k) by exact Hkey.
  cbn. by rewrite !app_nil_r.
Qed.

Lemma map_remove_put_unbound (d : Dict.t) (k : atomic) (v : pyobj) :
  Dict.get (MapArray.map_remove (MapArray.map_put d k v) [k]) k = None.
Proof. cbn. apply dict_get_del_eq. Qed.

(** C3. For a map [M], an atomic key [k] and a value [v]: if [M] binds [k] to
    [v] then [M?k] yields [v] (as a sequence); [map:put(M, k, v)?k] yields
    [v]; and [map:remove(map:put(M, k, v), k)] has no binding for [k], so
    that the lookup of [k] in it is empty. *)
Theorem lookup_laws
    (select_token : XPathToken -> option XPathContext -> gen)
    (self m key : XPathToken) (context : option XPathContext) (d : Dict.t)
    (k : atomic) (v : pyobj) :
  operands self = [m; key] ->
  key_denotes select_token key context k ->
  (Dict.get d k = Some v ->
   select_token m context = ([OMap d], None) ->
   LookupOperatorToken.evaluate select_token self context
   = Ok (OList (iter_sequence v)))
  /\ (select_token m context = ([OMap (MapArray.map_put d k v)], None) ->
      LookupOperatorToken.evaluate select_token self context
      = Ok (OList (iter_sequence v)))
  /\ Dict.get (MapArray.map_remove (MapArray.map_put d k v) [k]) k = None
  /\ (select_token m context
      = ([OMap (MapArray.map_remove (MapArray.map_put d k v) [k])], None) ->
      LookupOperatorToken.evaluate select_token self context = Ok (OList [])).
Proof.
  intros Hops Hkey. repeat split.
  - intros Hget Hm.
    rewrite (lookup_evaluate_map _ _ m key _ d k) by assumption.
    by rewrite Hget.
  - intros Hm.
    rewrite (lookup_evaluate_map _ _ m key _ _ k Hops Hkey Hm).
    unfold MapArray.map_put. by rewrite dict_get_set_eq.
  - apply map_remove_put_unbound.
  - intros Hm.
    rewrite (lookup_evaluate_map _ _ m key _ _ k Hops Hkey Hm).
    by rewrite map_remove_put_unbound.
Qed.

Lemma lookup_laws_witness :
  let samstag := OAtom (AString "Samstag") in
  let sonnabend := OAtom (AString "Sonnabend") in
  let key := integer_literal 6 in
  let lookup_in d := lookup_token [constant (OMap d); key] in
  let put := MapArray.map_put MAP_WEEKDAYS_DE (AInteger 6) sonnabend in
  LookupOperatorToken.evaluate literal_select (lookup_in MAP_WEEKDAYS_DE) None
  = Ok (OList [samstag])
  /\ LookupOperatorToken.evaluate literal_select (lookup_in put) None
     = Ok (OList [sonnabend])
  /\ Dict.get (MapArray.map_remove put [AInteger 6]) (AInteger 6) = None
  /\ LookupOperatorToken.evaluate literal_select
       (lookup_in (MapArray.map_remove put [AInteger 6])) None
     = Ok (OList []).
Proof.
  intros samstag sonnabend key lookup_in put.
  assert (Hkey : key_denotes literal_select key None (AInteger 6))
    by (left; split; reflexivity).
  split; [|split; [|split]].
  - exact (proj1 (lookup_laws literal_select (lookup_in MAP_WEEKDAYS_DE)
      _ key None MAP_WEEKDAYS_DE (AInteger 6) samstag eq_refl Hkey)
      eq_refl eq_refl).
  - exact (proj1 (proj2 (lookup_laws literal_select (lookup_in put)
      _ key None MAP_WEEKDAYS_DE (AInteger 6) sonnabend eq_refl Hkey))
      eq_refl).
  - exact (proj1 (proj2 (proj2 (lookup_laws literal_select
      (lookup_in MAP_WEEKDAYS_DE)
      _ key None MAP_WEEKDAYS_DE (AInteger 6) sonnabend eq_refl Hkey)))).
  - exact (proj2 (proj2 (proj2 (lookup_laws literal_select
      (lookup_in (MapArray.map_remove put [AInteger 6]))
      _ key None MAP_WEEKDAYS_DE (AInteger 6) sonnabend eq_refl Hkey)))
      eq_refl).
Defined.

(** ** Persistence of maps and arrays *)

Lemma alloc_fresh (h : MapArray.store) (o : pyobj) :
  h !! (MapArray.alloc h o).1 = None.
Proof.
  cbn. apply (not_elem_of_dom (D := gset nat)). apply is_fresh.
Qed.

Lemma alloc_frame (h : MapArray.store) (o : pyobj) (r : nat) (x : pyobj) :
  h !! r = Some x ->
  (MapArray.alloc h o).2 !! r = Some x /\ r <> (MapArray.alloc h o).1.
Proof.
  intros Hr.
  assert (Hne : fresh (dom h) <> r).
  { intros Heq. pose proof (alloc_fresh h o) as Hf. cbn in Hf.
    rewrite Heq, Hr in Hf. discriminate. }
  unfold MapArray.alloc, MapArray.store in *. cbn [fst snd].
  split; [by rewrite lookup_insert_ne | congruence].
Qed.

Lemma alloc_result (h : MapArray.store) (o : pyobj) :
  (MapArray.alloc h o).2 !! (MapArray.alloc h o).1 = Some o.
Proof. cbn. apply lookup_insert_eq. Qed.

Lemma alloc_spec (h : MapArray.store) (o : pyobj) :
  exists r h',
    MapArray.alloc h o = (r, h')
    /\ h !! r = None
    /\ h' !! r = Some o
    /\ forall x o', h !! x = Some o' -> h' !! x = Some o' /\ x <> r.
Proof.
  exists (MapArray.alloc h o).1, (MapArray.alloc h o).2.
  split; [reflexivity|].
  split; [apply alloc_fresh|]. split; [apply alloc_result|].
  intros x o' Hx. by apply alloc_frame.
Qed.

(** C4. [map:put], [map:remove] and [array:append] return a new map or array
    and leave the original unchanged: the result is an object that did not
    exist before the call, and every object that existed (the argument among
    them) is what it was. *)
Theorem map_array_persistent (h : MapArray.store) :
  (forall m d k v,
     h !! m = Some (OMap d) ->
     exists r h',
       MapArray.put h m k v = Ok (r, h')
       /\ h !! r = None
       /\ h' !! r = Some (OMap (MapArray.map_put d k v))
       /\ forall x o, h !! x = Some o -> h' !! x = Some o /\ x <> r)
  /\ (forall m d keys,
        h !! m = Some (OMap d) ->
        exists r h',
          MapArray.remove h m keys = Ok (r, h')
          /\ h !! r = None
          /\ h' !! r = Some (OMap (MapArray.map_remove d keys))
          /\ forall x o, h !! x = Some o -> h' !! x = Some o /\ x <> r)
  /\ (forall a l appendage,
        h !! a = Some (OArray l) ->
        exists r h',
          MapArray.append h a appendage = Ok (r, h')
          /\ h !! r = None
          /\ h' !! r = Some (OArray (MapArray.array_append l appendage))
          /\ forall x o, h !! x = Some o -> h' !! x = Some o /\ x <> r).
Proof.
  split; [|split].
  - intros m d k v Hm. unfold MapArray.put. rewrite Hm.
    destruct (alloc_spec h (OMap (MapArray.map_put d k v)))
      as (r & h' & -> & Hspec).
    by exists r, h'.
  - intros m d keys Hm. unfold MapArray.remove. rewrite Hm.
    destruct (alloc_spec h (OMap (MapArray.map_remove d keys)))
      as (r & h' & -> & Hspec).
    by exists r, h'.
  - intros a l appendage Ha. unfold MapArray.append. rewrite Ha.
    destruct (alloc_spec h (OArray (MapArray.array_append l appendage)))
      as (r & h' & -> & Hspec).
    by exists r, h'.
Qed.

Lemma map_array_persistent_witness :
  let abc := [OAtom (AString "a"); OAtom (AString "b"); OAtom (AString "c")] in
  let h : MapArray.store :=
    <[1%nat := OMap MAP_WEEKDAYS_DE]> (<[2%nat := OArray abc]> ∅) in
  let unchanged (r : nat) (h' : MapArray.store) :=
    h' !! 1%nat = Some (OMap MAP_WEEKDAYS_DE) /\ 1%nat <> r
    /\ h' !! 2%nat = Some (OArray abc) /\ 2%nat <> r in
  (exists r h',
     MapArray.put h 1 (AInteger 6) (OAtom (AString "Sonnabend")) = Ok (r, h')
     /\ unchanged r h')
  /\ (exists r h',
        MapArray.remove h 1 [AInteger 4] = Ok (r, h') /\ unchanged r h')
  /\ (exists r h',
        MapArray.append h 2 (OAtom (AString "d")) = Ok (r, h')
        /\ h' !! r = Some (OArray (abc ++ [OAtom (AString "d")]))
        /\ unchanged r h').
Proof.
  intros abc h unchanged.
  assert (H1 : h !! 1%nat = Some (OMap MAP_WEEKDAYS_DE)) by reflexivity.
  assert (H2 : h !! 2%nat = Some (OArray abc)) by reflexivity.
  destruct (map_array_persistent h) as (Hput & Hremove & Happend).
  split; [|split].
  - destruct (Hput 1%nat MAP_WEEKDAYS_DE (AInteger 6)
                (OAtom (AString "Sonnabend")) H1)
      as (r & h' & Hcall & _ & _ & Hframe).
    exists r, h'. split; [exact Hcall|].
    destruct (Hframe _ _ H1), (Hframe _ _ H2). by repeat split.
  - destruct (Hremove 1%nat MAP_WEEKDAYS_DE [AInteger 4] H1)
      as (r & h' & Hcall & _ & _ & Hframe).
    exists r, h'. split; [exact Hcall|].
    destruct (Hframe _ _ H1), (Hframe _ _ H2). by repeat split.
  - destruct (Happend 2%nat abc (OAtom (AString "d")) H2)
      as (r & h' & Hcall & _ & Hnew & Hframe).
    exists r, h'. split; [exact Hcall|]. split; [exact Hnew|].
    destruct (Hframe _ _ H1), (Hframe _ _ H2). by repeat split.
Defined.

(** ** The arrow operator *)

Section ArrowFacts.
Variable evaluate_token : XPathToken -> option XPathContext -> result pyobj.
Variable get_function :
  XPathToken -> option XPathContext -> nat -> result callable.

#[local] Abbreviation evaluate_arrow_operator :=
  (Arrow.evaluate_arrow_operator evaluate_token get_function).

(** C9. In [E => F(A)] the arguments passed to [F] are the value of [E]
    followed by the items of the value of [A]: a list of [n] items is spread
    into [n] positional arguments, anything else is one argument; [F] is
    resolved at the number of arguments so assembled, so an argument
    expression that yields [n] items selects the overload of arity [n + 1]. *)
Theorem arrow_operator_spreads_arguments
    (self e f a : XPathToken) (context : option XPathContext) (v : pyobj) :
  operands self = [e; f; a] ->
  truthy a = true ->
  evaluate_token e context = Ok v ->
  (forall l,
     evaluate_token a context = Ok (OList l) ->
     evaluate_arrow_operator self context
     = (func ← get_function f context (S (length l)); func context (v :: l)))
  /\ (forall x,
        (forall l, x <> OList l) ->
        evaluate_token a context = Ok x ->
        evaluate_arrow_operator self context
        = (func ← get_function f context 2%nat; func context [v; x])).
Proof.
  intros Hops Ha He. unfold Arrow.evaluate_arrow_operator.
  rewrite Hops, He, Ha. split.
  - intros l Hl. rewrite Hl. reflexivity.
  - intros x Hx Hl. rewrite Hl. destruct x; try reflexivity.
    by destruct (Hx l).
Qed.

End ArrowFacts.

Lemma arrow_operator_spreads_arguments_witness :
  let evaluate := Arrow.evaluate_sequence literal_evaluate in
  let e := string_literal "a" in
  let f := name_token "concat" in
  let b := OAtom (AString "b") in
  let bc := OList [OAtom (AString "b"); OAtom (AString "c")] in
  Arrow.evaluate_arrow_operator evaluate concat_function
    (Arrow.arrow_token e f [constant bc]) None
  = (func ← concat_function f None 3%nat;
     func None [OAtom (AString "a"); OAtom (AString "b"); OAtom (AString "c")])
  /\ Arrow.evaluate_arrow_operator evaluate concat_function
       (Arrow.arrow_token e f [constant b]) None
     = (func ← concat_function f None 2%nat;
        func None [OAtom (AString "a"); OAtom (AString "b")]).
Proof.
  intros evaluate e f b bc. split.
  - apply (proj1 (arrow_operator_spreads_arguments evaluate
      concat_function (Arrow.arrow_token e f [constant bc]) e f
      (Arrow.arguments_token [constant bc]) None (OAtom (AString "a"))
      eq_refl eq_refl eq_refl)).
    reflexivity.
  - apply (proj2 (arrow_operator_spreads_arguments evaluate
      concat_function (Arrow.arrow_token e f [constant b]) e f
      (Arrow.arguments_token [constant b]) None (OAtom (AString "a"))
      eq_refl eq_refl eq_refl)).
    + intros l. discriminate.
    + reflexivity.
Defined.

Section ArrowEquivalence.
Variable evaluate_operand : XPathToken -> option XPathContext -> result pyobj.
Variable get_function :
  XPathToken -> option XPathContext -> nat -> result callable.

#[local] Abbreviation evaluate := (Arrow.evaluate_sequence evaluate_operand).

Lemma iter_sequence_single (x : pyobj) :
  single_item x = true -> iter_sequence x = [x].
Proof. destruct x; cbn; intros; solve [reflexivity | discriminate]. Qed.

Lemma add_arguments_single (arguments : list pyobj) (x : pyobj) :
  single_item x = true -> Arrow.add_arguments arguments x = arguments ++ [x].
Proof. destruct x; cbn; intros; solve [reflexivity | discriminate]. Qed.

Lemma evaluate_comma (a b : XPathToken) (context : option XPathContext)
    (va vb : pyobj) :
  evaluate a context = Ok va ->
  evaluate b context = Ok vb ->
  evaluate (Arrow.comma_token a b) context
  = Ok (OList (iter_sequence va ++ iter_sequence vb)).
Proof.
  intros Ha Hb. cbn. rewrite Ha, Hb. cbn. by rewrite app_nil_r.
Qed.

(** The arguments [a, b1, ..., bn] as the comma operator reads them. *)
Lemma evaluate_comma_fold (rest : list XPathToken) :
  forall (a : XPathToken) (context : option XPathContext) (va : pyobj)
         (xs : list pyobj),
    evaluate a context = Ok va ->
    Forall2 (fun t x => evaluate t context = Ok x /\ single_item x = true)
      rest xs ->
    evaluate (fold_left Arrow.comma_token rest a) context
    = Ok (match rest with
          | [] => va
          | _ => OList (iter_sequence va ++ xs)
          end).
Proof.
  induction rest as [|b rest IH]; intros a context va xs Ha Hall.
  - exact Ha.
  - inversion Hall as [|? x ? xs' [Hb Hx] Hrest]; subst. cbn [fold_left].
    rewrite (IH _ context (OList (iter_sequence va ++ iter_sequence x)) xs').
    + rewrite (iter_sequence_single x Hx). cbn [iter_sequence].
      destruct rest.
      * inversion Hrest; subst. reflexivity.
      * by rewrite <- app_assoc.
    + by apply evaluate_comma.
    + exact Hrest.
Qed.

Lemma evaluate_arguments_single (args : list XPathToken)
    (context : option XPathContext) (xs : list pyobj) :
  Forall2 (fun t x => evaluate t context = Ok x /\ single_item x = true)
    args xs ->
  Arrow.evaluate_arguments evaluate args context = Ok xs.
Proof.
  induction 1 as [|a x args xs [Ha _] _ IH]; cbn; [reflexivity|].
  by rewrite Ha, IH.
Qed.

(** Where the arrow equivalence holds: when every argument expression
    evaluates to exactly one item (and when there is no argument),
    [E => F(args)] returns what the call [F(E, args)] returns in the same
    context. *)
Theorem arrow_equivalence_single_items
    (e f : XPathToken) (args : list XPathToken)
    (context : option XPathContext) (xs : list pyobj) :
  Forall2 (fun t x => evaluate t context = Ok x /\ single_item x = true)
    args xs ->
  Arrow.evaluate_arrow_operator evaluate get_function
    (Arrow.arrow_token e f args) context
  = Arrow.evaluate_call evaluate get_function f (e :: args) context.
Proof.
  intros Hall.
  unfold Arrow.evaluate_arrow_operator, Arrow.evaluate_call.
  cbn [operands Arrow.arrow_token Arrow.evaluate_arguments].
  destruct (evaluate e context) as [v|err] eqn:He; [|reflexivity].
  cbn [mbind result_bind].
  rewrite (evaluate_arguments_single args context xs Hall).
  pose proof (Forall2_length _ _ _ Hall) as Hlen.
  destruct args as [|a rest].
  - inversion Hall; subst. reflexivity.
  - inversion Hall as [|? x ? xs' [Ha Hx] Hrest]; subst.
    change (truthy (Arrow.arguments_token (a :: rest))) with true.
    cbn [Arrow.arguments_token].
    change (evaluate (Arrow.paren_token [fold_left Arrow.comma_token rest a])
              context)
      with (evaluate (fold_left Arrow.comma_token rest a) context).
    rewrite (evaluate_comma_fold rest a context x xs' Ha Hrest).
    cbn [mbind result_bind mret result_ret].
    cbn [length] in Hlen.
    destruct rest.
    + inversion Hrest; subst.
      rewrite (add_arguments_single _ x Hx). reflexivity.
    + rewrite (iter_sequence_single x Hx). cbn [Arrow.add_arguments app].
      cbn [length]. cbn [length] in Hlen. by rewrite Hlen.
Qed.

End ArrowEquivalence.

(** C2. [E => F(args)] is to return what the call [F(E, args)] returns.
    The code does not at an argument that evaluates to a sequence:
    ["a" => concat(("b", "c"))] is ["abc"], while [concat("a", ("b", "c"))]
    is a type error, the sequence given as one argument being spread by the
    arrow operator into two. *)
Lemma arrow_equivalence_counterexample :
  let evaluate := Arrow.evaluate_sequence literal_evaluate in
  let e := string_literal "a" in
  let f := name_token "concat" in
  let args := [constant (OList [OAtom (AString "b"); OAtom (AString "c")])] in
  Arrow.evaluate_arrow_operator evaluate concat_function
    (Arrow.arrow_token e f args) None
  = Ok (OAtom (AString "abc"))
  /\ Arrow.evaluate_call evaluate concat_function f (e :: args) None
     = Err (Error "XPTY0004")
  /\ Arrow.evaluate_arrow_operator evaluate concat_function
       (Arrow.arrow_token e f args) None
     <> Arrow.evaluate_call evaluate concat_function f (e :: args) None.
Proof. cbv zeta. repeat split. vm_compute. discriminate. Qed.

Lemma arrow_equivalence_single_items_witness :
  let evaluate := Arrow.evaluate_sequence literal_evaluate in
  let e := string_literal "a" in
  let f := name_token "concat" in
  let args := [string_literal "b"; string_literal "c"] in
  Arrow.evaluate_arrow_operator evaluate concat_function
    (Arrow.arrow_token e f args) None
  = Arrow.evaluate_call evaluate concat_function f (e :: args) None.
Proof.
  intros evaluate e f args.
  apply (arrow_equivalence_single_items literal_evaluate concat_function
           e f args None [OAtom (AString "b"); OAtom (AString "c")]).
  repeat constructor.
Defined.

Example arrow_concat_example :
  Arrow.evaluate_arrow_operator (Arrow.evaluate_sequence literal_evaluate)
    concat_function
    (Arrow.arrow_token (string_literal "a") (name_token "concat")
       [string_literal "b"; string_literal "c"]) None
  = Ok (OAtom (AString "abc")).
Proof. reflexivity. Qed.

(** ** The square array constructor *)

Lemma version_below_31 (v : string) :
  v ∈ xpath_versions -> (String.ltb v "3.1" = true <-> v <> "3.1").
Proof.
  unfold xpath_versions. rewrite !elem_of_cons, elem_of_nil.
  intros [->|[->|[->|[->|[]]]]]; cbn; split; intros H;
    solve [reflexivity | discriminate | congruence].
Qed.

Section SquareArray.
Variable expression : Z -> P XPathToken.

Lemma square_array_members_spec (p : Parser.t) (es : list XPathToken)
    (p' : Parser.t) :
  members_parse expression p es p' ->
  forall (fuel : nat) (token : XPathToken),
    (length es <= fuel)%nat ->
    square_array_members expression fuel token p
    = Ok (set_operands token (operands token ++ es), p').
Proof.
  induction 1 as [p e p' He Hnext | p e p1 comma p2 es p' He Hnext Hadv _ IH];
    intros fuel token Hfuel.
  - destruct fuel as [|fuel]; [cbn in Hfuel; lia|].
    cbn. unfold mbind, P_bind. rewrite He. cbn.
    apply String.eqb_neq in Hnext. rewrite Hnext. reflexivity.
  - destruct fuel as [|fuel]; [cbn in Hfuel; lia|].
    cbn [square_array_members]. unfold mbind at 1, P_bind at 1. rewrite He.
    unfold mbind at 1, P_bind at 1, parser at 1.
    rewrite Hnext. cbn [String.eqb Ascii.eqb Bool.eqb negb].
    unfold mbind at 1, P_bind at 1. rewrite Hadv.
    rewrite IH by (cbn in Hfuel; lia).
    unfold append, set_operands. cbn. by rewrite <- app_assoc.
Qed.

(** C5. The square array constructor in expression-start position is a
    syntax error when the version of the parser is below 3.1 (for a parser of
    a supported version: unless it is 3.1); a 3.1 parser that reads the
    members [e1, ..., en] and the closing bracket returns an array token with
    the members in order, and [[]] gives an array without members. So
    [[ 1, 2, 5, 7 ](4)] and [array { 1, 2, 5, 7 }(4)] both evaluate to [7],
    and the former is a syntax error in a 3.0 parser. *)
Theorem square_array_constructor
    (fuel : nat) (self : XPathToken) (p p' p'' : Parser.t)
    (es : list XPathToken) (next : XPathToken) :
  (String.ltb (Parser.version p) "3.1" = true ->
   nud_square_array_constructor expression fuel self p = Err WrongSyntax)
  /\ (String.ltb (Parser.version p) "3.1" = false ->
      in_symbols (symbol (Parser.next_token p)) ["]"; "(end)"] = false ->
      members_parse expression p es p' ->
      (length es <= fuel)%nat ->
      advance ["]"] p' = Ok (next, p'') ->
      nud_square_array_constructor expression fuel self p
      = Ok (set_operands (XPathArray "[") es, p''))
  /\ (String.ltb (Parser.version p) "3.1" = false ->
      symbol (Parser.next_token p) = "]" ->
      advance ["]"] p = Ok (next, p'') ->
      nud_square_array_constructor expression fuel self p
      = Ok (XPathArray "[", p''))
  /\ (Parser.version p ∈ xpath_versions ->
      in_symbols (symbol (Parser.next_token p)) ["]"; "(end)"] = false ->
      members_parse expression p es p' ->
      (length es <= fuel)%nat ->
      advance ["]"] p' = Ok (next, p'') ->
      (nud_square_array_constructor expression fuel self p = Err WrongSyntax
       <-> Parser.version p <> "3.1"))
  /\ (t ← parse "3.1" square_array_source 20; evaluate_token 20 t None)
     = Ok (OAtom (AInteger 7))
  /\ (t ← parse "3.1" curly_array_source 20; evaluate_token 20 t None)
     = Ok (OAtom (AInteger 7))
  /\ parse "3.0" square_array_source 20 = Err WrongSyntax.
Proof.
  assert (Hok : String.ltb (Parser.version p) "3.1" = false ->
      in_symbols (symbol (Parser.next_token p)) ["]"; "(end)"] = false ->
      members_parse expression p es p' ->
      (length es <= fuel)%nat ->
      advance ["]"] p' = Ok (next, p'') ->
      nud_square_array_constructor expression fuel self p
      = Ok (set_operands (XPathArray "[") es, p'')).
  { intros Hv Hnext Hes Hfuel Hclose.
    unfold nud_square_array_constructor, mbind, P_bind, parser.
    rewrite Hv, Hnext. cbn [negb].
    rewrite (square_array_members_spec p es p' Hes fuel _ Hfuel).
    by rewrite Hclose. }
  split; [|split; [exact Hok|split; [|split; [|repeat split]]]].
  - intros Hv. unfold nud_square_array_constructor, mbind, P_bind, parser.
    by rewrite Hv.
  - intros Hv Hnext Hclose.
    unfold nud_square_array_constructor, mbind, P_bind, parser.
    rewrite Hv, Hnext. cbn. by rewrite Hclose.
  - intros Hsup Hnext Hes Hfuel Hclose.
    rewrite <- (version_below_31 _ Hsup).
    destruct (String.ltb (Parser.version p) "3.1") eqn:Hv.
    + split; [reflexivity|]. intros _.
      unfold nud_square_array_constructor, mbind, P_bind, parser.
      by rewrite Hv.
    + rewrite (Hok eq_refl Hnext Hes Hfuel Hclose).
      split; discriminate.
Qed.

End SquareArray.

Lemma literal_members_parse (version : string) :
  let p := parser_at version (take 9 square_array_source) in
  let read := state_after (literal_expression 5) in
  let skip := state_after (advance []) in
  members_parse literal_expression p
    [integer_literal 1; integer_literal 2; integer_literal 5;
     integer_literal 7]
    (read (skip (read (skip (read (skip (read p))))))).
Proof.
  intros p read skip.
  apply (members_more _ p _ (read p) (integer_literal 2) (skip (read p)));
    [vm_compute; reflexivity ..|].
  apply (members_more _ _ _ (read (skip (read p))) (integer_literal 5)
           (skip (read (skip (read p)))));
    [vm_compute; reflexivity ..|].
  apply (members_more _ _ _ (read (skip (read (skip (read p)))))
           (integer_literal 7) (skip (read (skip (read (skip (read p)))))));
    [vm_compute; reflexivity ..|].
  apply members_last; [vm_compute; reflexivity | vm_compute; discriminate].
Qed.

Lemma square_array_constructor_witness :
  let self := symbol_token "[" 80 in
  let source := take 9 square_array_source in
  let members := [integer_literal 1; integer_literal 2; integer_literal 5;
                  integer_literal 7] in
  nud_square_array_constructor literal_expression 4 self
    (parser_at "3.0" source) = Err WrongSyntax
  /\ (exists p'',
        nud_square_array_constructor literal_expression 4 self
          (parser_at "3.1" source)
        = Ok (set_operands (XPathArray "[") members, p''))
  /\ (exists p'',
        nud_square_array_constructor literal_expression 4 self
          (parser_at "3.1" [symbol_token "[" 80; symbol_token "]" 0])
        = Ok (XPathArray "[", p''))
  /\ (nud_square_array_constructor literal_expression 4 self
        (parser_at "2.0" source) = Err WrongSyntax
      <-> "2.0" <> "3.1").
Proof.
  intros self source members.
  pose (final v :=
    let read := state_after (literal_expression 5) in
    let skip := state_after (advance []) in
    read (skip (read (skip (read (skip (read (parser_at v source)))))))).
  split; [|split; [|split]].
  - apply (proj1 (square_array_constructor literal_expression 4 self
             (parser_at "3.0" source) (parser_at "3.0" source)
             (parser_at "3.0" source) [] self)).
    vm_compute; reflexivity.
  - exists (state_after (advance ["]"]) (final "3.1")).
    apply (proj1 (proj2 (square_array_constructor literal_expression 4 self
             (parser_at "3.1" source) (final "3.1") _ members end_token)));
      [vm_compute; reflexivity | vm_compute; reflexivity
      | apply literal_members_parse | cbn; lia | vm_compute; reflexivity].
  - exists (state_after (advance ["]"])
              (parser_at "3.1" [symbol_token "[" 80; symbol_token "]" 0])).
    apply (proj1 (proj2 (proj2 (square_array_constructor literal_expression 4
             self (parser_at "3.1" [symbol_token "[" 80; symbol_token "]" 0])
             (parser_at "3.1" []) _ [] end_token))));
      vm_compute; reflexivity.
  - apply (proj1 (proj2 (proj2 (proj2 (square_array_constructor
             literal_expression 4 self (parser_at "2.0" source) (final "2.0")
             (state_after (advance ["]"]) (final "2.0")) members end_token)))));
      [| vm_compute; reflexivity | apply literal_members_parse | cbn; lia
       | vm_compute; reflexivity].
    unfold xpath_versions. apply elem_of_cons. right.
    apply elem_of_cons. by left.
Defined.

(** ** The keyword [map] *)

Lemma string_app_assoc (a b c : string) :
  ((a ++ b) ++ c)%string = (a ++ (b ++ c))%string.
Proof.
  induction a as [|x a IH]; [reflexivity|].
  change (String x (((a ++ b) ++ c)%string) = String x (a ++ (b ++ c))%string).
  by rewrite IH.
Qed.

Section PatternFacts.
Variable is_space : Z -> bool.
Variable is_word : Z -> bool.

#[local] Abbreviation spaces_then := (Pattern.spaces_then is_space).
#[local] Abbreviation lookahead := (Pattern.lookahead is_space).
#[local] Abbreviation lookbehind := (Pattern.lookbehind is_word).
#[local] Abbreviation keyword_matches :=
  (Pattern.keyword_matches is_space is_word).

Lemma strip_prefix_spec (keyword s rest : Pattern.text) :
  Pattern.strip_prefix keyword s = Some rest <-> s = keyword ++ rest.
Proof.
  revert s. induction keyword as [|a keyword IH]; intros s; cbn.
  - split; [by intros [= ->] | by intros ->].
  - destruct s as [|b s]; [split; discriminate|].
    destruct (Z.eqb_spec a b) as [->|Hne].
    + rewrite IH. split; [by intros -> | by intros [= ->]].
    + split; [discriminate | intros [= ? ?]; by destruct Hne].
Qed.

Lemma spaces_then_here (f : Pattern.text -> bool) (s : Pattern.text) :
  f s = true -> spaces_then f s = true.
Proof. destruct s; cbn; intros ->; reflexivity. Qed.

Lemma spaces_then_spec (f : Pattern.text -> bool) (s : Pattern.text) :
  spaces_then f s = true
  <-> exists ws r, s = ws ++ r /\ forallb is_space ws = true /\ f r = true.
Proof.
  split.
  - induction s as [|c s IH]; cbn [Pattern.spaces_then].
    + rewrite orb_false_r. intros Hf. by exists [], [].
    + intros H. apply orb_true_iff in H as [Hf | H].
      * by exists [], (c :: s).
      * apply andb_true_iff in H as [Hc H].
        destruct (IH H) as (ws & r & -> & Hws & Hf).
        exists (c :: ws), r. cbn [forallb]. by rewrite Hc, Hws.
  - intros (ws & r & -> & Hws & Hf). induction ws as [|c ws IH].
    + by apply spaces_then_here.
    + cbn [forallb] in Hws. apply andb_true_iff in Hws as [Hc Hws].
      cbn [app Pattern.spaces_then].
      rewrite Hc, (IH Hws). apply orb_true_r.
Qed.

Lemma opens_spec (s : Pattern.text) :
  Pattern.opens s = true
  <-> exists c rest,
        s = c :: rest /\ (c = Pattern.code "(" \/ c = Pattern.code "{").
Proof.
  split.
  - destruct s as [|c rest]; [discriminate|]. cbn [Pattern.opens]. intros H.
    apply andb_true_iff in H as [H _]. exists c, rest. split; [reflexivity|].
    apply orb_true_iff in H as [H|H]; apply Z.eqb_eq in H; auto.
  - intros (c & rest & -> & [-> | ->]); reflexivity.
Qed.

Lemma comment_then_starts (f : Pattern.text -> bool) (r : Pattern.text) :
  Pattern.comment_then f r = true -> exists rest, r = Pattern.code "(" :: rest.
Proof.
  destruct r as [|c1 [|c2 r]]; try discriminate. cbn [Pattern.comment_then].
  intros H. apply andb_true_iff in H as [H _].
  apply andb_true_iff in H as [H _]. apply Z.eqb_eq in H as ->.
  by eexists.
Qed.

(** The lookahead of the pattern holds exactly when the first character
    after the white space is an opening parenthesis or brace: the comment the
    pattern allows for starts with a parenthesis itself. *)
Lemma lookahead_spec (s : Pattern.text) :
  lookahead s = true
  <-> exists ws c rest,
        s = ws ++ c :: rest /\ forallb is_space ws = true
        /\ (c = Pattern.code "(" \/ c = Pattern.code "{").
Proof.
  unfold Pattern.lookahead. rewrite spaces_then_spec. split.
  - intros (ws & r & -> & Hws & H). apply orb_true_iff in H as [H|H].
    + apply comment_then_starts in H as [rest ->].
      exists ws, (Pattern.code "("), rest. auto.
    + apply spaces_then_spec in H as (ws2 & r2 & -> & Hws2 & H).
      apply opens_spec in H as (c & rest & -> & Hc).
      exists (ws ++ ws2), c, rest.
      rewrite <- app_assoc. split; [reflexivity|].
      split; [|exact Hc]. rewrite forallb_app. by rewrite Hws, Hws2.
  - intros (ws & c & rest & -> & Hws & Hc).
    exists ws, (c :: rest). split; [reflexivity|]. split; [exact Hws|].
    apply orb_true_iff. right. apply spaces_then_spec.
    exists [], (c :: rest). split; [reflexivity|]. split; [reflexivity|].
    apply opens_spec. by exists c, rest.
Qed.

(** Before a keyword that starts with a word character, [(?<!\$)\b] holds
    exactly when the position is the start of the text or the character
    before it is neither a dollar nor a word character. *)
Lemma lookbehind_spec (before after : Pattern.text) (m : Z) :
  head after = Some m -> is_word m = true ->
  lookbehind before after = true
  <-> match last before with
      | None => True
      | Some c => c <> Pattern.code "$" /\ is_word c = false
      end.
Proof.
  intros Hhead Hm. unfold Pattern.lookbehind, Pattern.boundary.
  rewrite Hhead. cbn [Pattern.word_at]. rewrite Hm.
  destruct (last before) as [c|]; cbn [Pattern.word_at negb andb xorb].
  - destruct (Z.eqb_spec c (Pattern.code "$")) as [->|Hne]; cbn [negb andb].
    + split; [discriminate | by intros [[] _]].
    + destruct (is_word c); cbn; split; try done; by intros [_ ?].
  - by split.
Qed.

Lemma lookbehind_no_dollar (before after : Pattern.text) :
  lookbehind before after = true ->
  last before <> Some (Pattern.code "$").
Proof.
  unfold Pattern.lookbehind. intros H [= Hlast]. rewrite Hlast in H.
  discriminate H.
Qed.

(** Where the pattern of a keyword matches. *)
Lemma keyword_matches_spec (keyword : string) (before after : Pattern.text) :
  keyword_matches keyword before after = true
  <-> lookbehind before after = true
      /\ exists ws c rest,
           after = Pattern.codes keyword ++ ws ++ c :: rest
           /\ forallb is_space ws = true
           /\ (c = Pattern.code "(" \/ c = Pattern.code "{").
Proof.
  unfold Pattern.keyword_matches. rewrite andb_true_iff. split.
  - intros [Hb H]. split; [exact Hb|].
    destruct (Pattern.strip_prefix (Pattern.codes keyword) after)
      as [r|] eqn:Hr; [|discriminate].
    apply strip_prefix_spec in Hr as ->.
    apply lookahead_spec in H as (ws & c & rest & -> & Hws & Hc).
    by exists ws, c, rest.
  - intros [Hb (ws & c & rest & -> & Hws & Hc)]. split; [exact Hb|].
    rewrite (proj2 (strip_prefix_spec (Pattern.codes keyword) _
                      (ws ++ c :: rest)) eq_refl).
    apply lookahead_spec. by exists ws, c, rest.
Qed.

(** For a keyword that starts with a word character: the pattern matches
    exactly where the keyword is at the start of the text or after a character
    that is neither a dollar nor a word character, and the first character
    after the keyword and optional white space is an opening parenthesis or
    brace. *)
Lemma keyword_matches_where (keyword : string) (m : Z) (tail : Pattern.text)
    (before after : Pattern.text) :
  Pattern.codes keyword = m :: tail ->
  is_word m = true ->
  keyword_matches keyword before after = true
  <-> match last before with
      | None => True
      | Some c => c <> Pattern.code "$" /\ is_word c = false
      end
      /\ exists ws c rest,
           after = Pattern.codes keyword ++ ws ++ c :: rest
           /\ forallb is_space ws = true
           /\ (c = Pattern.code "(" \/ c = Pattern.code "{").
Proof.
  intros Hkeyword Hm. rewrite keyword_matches_spec. split.
  - intros [Hb (ws & c & rest & -> & Hws & Hc)]. split; [|by exists ws, c, rest].
    rewrite Hkeyword in Hb. by apply (lookbehind_spec _ _ m) in Hb.
  - intros [Hb (ws & c & rest & -> & Hws & Hc)]. split; [|by exists ws, c, rest].
    rewrite Hkeyword. by apply (lookbehind_spec _ _ m).
Qed.

End PatternFacts.

Section MapKeyword.
Variable expression : Z -> P XPathToken.
Variable XPathMap_nud : P XPathToken.
Variable as_name : XPathToken -> P XPathToken.
Variable parse_occurrence : XPathToken -> P unit.
(** The white space and the word characters of Unicode. *)
Variable is_space : Z -> bool.
Variable is_word : Z -> bool.

#[local] Abbreviation nud_map :=
  (nud_map_sequence_type_or_constructor expression XPathMap_nud as_name
     parse_occurrence).

Lemma nud_map_constructor (self : XPathToken) (p : Parser.t) :
  symbol (Parser.next_token p) = "{" ->
  nud_map self p = (tok ← XPathMap_nud; set_token tok;; mret tok) p.
Proof.
  intros Hnext. unfold nud_map_sequence_type_or_constructor.
  unfold mbind at 1, P_bind at 1, parser at 1. by rewrite Hnext.
Qed.

Lemma nud_map_name (self : XPathToken) (p : Parser.t) :
  symbol (Parser.next_token p) <> "{" ->
  symbol (Parser.next_token p) <> "(" ->
  nud_map self p = as_name self p.
Proof.
  intros Hbrace Hparen. unfold nud_map_sequence_type_or_constructor.
  unfold mbind at 1, P_bind at 1, parser at 1.
  apply String.eqb_neq in Hbrace, Hparen. by rewrite Hbrace, Hparen.
Qed.

Lemma nud_map_kind_test (self t : XPathToken) (p p' : Parser.t) :
  symbol (Parser.next_token p) = "(" ->
  nud_map self p = Ok (t, p') ->
  symbol t = symbol self /\ label t = ["kind test"] /\ value t = ONone
  /\ ((exists k, operands t = [k] /\ symbol k = "*")
      \/ (exists k v, operands t = [k; v] /\ symbol k <> "*")).
Proof.
  intros Hnext. unfold nud_map_sequence_type_or_constructor.
  unfold mbind at 1, P_bind at 1, parser at 1. rewrite Hnext.
  cbn [String.eqb Ascii.eqb Bool.eqb negb].
  unfold mbind, P_bind, mret, P_ret.
  destruct (advance ["("] p) as [[? p1]|?]; [|discriminate].
  destruct (expect_sequence_type _ p1) as [[? p2]|?]; [|discriminate].
  destruct (expression 45 p2) as [[k p3]|?]; [|discriminate].
  destruct (parse_occurrence k p3) as [[? p4]|?]; [|discriminate].
  destruct (symbol k =? "*") eqn:Hstar; cbn [negb].
  - destruct (advance [")"] p4) as [[? p5]|?]; [|discriminate].
    intros [= <- <-]. apply String.eqb_eq in Hstar.
    repeat split. left. by exists k.
  - destruct (advance [","] p4) as [[? p5]|?]; [|discriminate].
    destruct (expect_sequence_type _ p5) as [[? p6]|?]; [|discriminate].
    destruct (expression 45 p6) as [[v p7]|?]; [|discriminate].
    destruct (parse_occurrence v p7) as [[? p8]|?]; [|discriminate].
    destruct (advance [")"] p8) as [[? p9]|?]; [|discriminate].
    intros [= <- <-]. apply String.eqb_neq in Hstar.
    repeat split. right. by exists k, v.
Qed.


End MapKeyword.


(** ** The tables of [format-integer] *)

Lemma first_fit_fits (table : list (Z * string)) (num i : Z) (r : string) :
  FormatInteger.first_fit table num = Some (i, r) -> i <= num.
Proof.
  induction table as [|[i0 r0] table IH]; cbn; [discriminate|].
  destruct (Z.leb_spec i0 num); [|exact IH].
  intros [= <- <-]. assumption.
Qed.

Lemma first_fit_positive (table : list (Z * string)) (num i : Z)
    (r : string) :
  Forall (fun e => 0 < fst e) table ->
  FormatInteger.first_fit table num = Some (i, r) -> 0 < i.
Proof.
  induction 1 as [|[i0 r0] table Hpos _ IH]; cbn; [discriminate|].
  destruct (Z.leb_spec i0 num); [|exact IH].
  intros [= <- <-]. exact Hpos.
Qed.

Lemma repeat_string_succ (s : string) (n : Z) :
  1 <= n ->
  FormatInteger.repeat_string s (Z.to_nat n)
  = (s ++ FormatInteger.repeat_string s (Z.to_nat (n - 1)))%string.
Proof.
  intros Hn. replace (Z.to_nat n) with (S (Z.to_nat (n - 1))) by lia.
  reflexivity.
Qed.

(** One step of the greedy decomposition: the numeral of the first value that
    fits comes first, and the rest is the numeral of what is left. *)
Lemma roman_digits_greedy (table : list (Z * string)) :
  Forall (fun e => 0 < fst e) table ->
  forall (num i : Z) (r : string),
    0 <= num ->
    FormatInteger.first_fit table num = Some (i, r) ->
    FormatInteger.roman_digits table num
    = (r ++ FormatInteger.roman_digits table (num - i))%string.
Proof.
  induction 1 as [|[i0 r0] table Hpos Hrest IH]; intros num i r Hnum;
    cbn [FormatInteger.first_fit FormatInteger.roman_digits];
    [discriminate|].
  cbn [fst] in Hpos. destruct (Z.leb_spec i0 num) as [Hle|Hlt].
  - intros [= <- <-].
    replace ((num - i0) / i0) with (num / i0 - 1)
      by (replace (num - i0) with (num + (-1) * i0) by lia;
          rewrite Z.div_add by lia; lia).
    replace ((num - i0) mod i0) with (num mod i0)
      by (replace (num - i0) with (num + (-1) * i0) by lia;
          by rewrite Z.mod_add by lia).
    rewrite repeat_string_succ.
    + apply string_app_assoc.
    + apply Z.div_le_lower_bound; lia.
  - intros Hfit. pose proof (first_fit_fits _ _ _ _ Hfit) as Hi.
    pose proof (first_fit_positive _ _ _ _ Hrest Hfit).
    rewrite !Z.div_small, !Z.mod_small by lia. cbn.
    by apply IH.
Qed.

Lemma roman_first_fit (num : Z) :
  0 < num ->
  exists i r,
    FormatInteger.first_fit TranslationMaps.ROMAN_NUMERALS_MAP num
    = Some (i, r).
Proof.
  intros Hnum. unfold TranslationMaps.ROMAN_NUMERALS_MAP.
  cbn [FormatInteger.first_fit].
  repeat match goal with
         | |- context [(?a <=? num)%Z] =>
             destruct (Z.leb_spec a num); [by eauto|]
         end.
  lia.
Qed.

Lemma roman_map_positive :
  Forall (fun e : Z * string => 0 < fst e) TranslationMaps.ROMAN_NUMERALS_MAP.
Proof. repeat constructor. Qed.

(** C7. With the picture ["I"], [format-integer] writes a positive integer by
    greedy decomposition over the roman numeral map: the numeral of the first
    (largest) value of the map that fits, followed by the numeral of what is
    left, down to zero; so [format-integer(7, "I")] is ["VII"]. With the
    picture ["w"] and the language ["en"] it uses the English cardinal table:
    [format-integer(1234, "w", "en")] is
    ["one thousand two hundred thirty-four"]. *)
Theorem format_integer_roman_and_words :
  TranslationMaps.ROMAN_NUMERALS_MAP
  = [ (1000, "M"); (900, "CM"); (500, "D"); (400, "CD"); (100, "C");
      (90, "XC"); (50, "L"); (40, "XL"); (10, "X"); (9, "IX"); (5, "V");
      (4, "IV"); (1, "I") ]
  /\ (forall num lang,
        0 < num ->
        exists i r,
          FormatInteger.first_fit TranslationMaps.ROMAN_NUMERALS_MAP num
          = Some (i, r)
          /\ i <= num
          /\ FormatInteger.format_integer num "I" lang
             = (r ++ FormatInteger.int_to_roman (num - i))%string)
  /\ FormatInteger.int_to_roman 0 = ""
  /\ (forall lang, FormatInteger.format_integer 7 "I" lang = "VII")
  /\ FormatInteger.word_table (Some "en") = TranslationMaps.NUM_TO_WORD_MAP_en
  /\ FormatInteger.format_integer 1234 "w" (Some "en")
     = "one thousand two hundred thirty-four".
Proof.
  split; [reflexivity|]. split; [|repeat split].
  intros num lang Hnum.
  destruct (roman_first_fit num Hnum) as (i & r & Hfit).
  exists i, r. split; [exact Hfit|].
  split; [by eapply first_fit_fits|].
  unfold FormatInteger.format_integer.
  change ("I" =? "I") with true. cbv iota.
  destruct (Z.ltb_spec 0 num); [|lia].
  apply roman_digits_greedy;
    [apply roman_map_positive | lia | exact Hfit].
Qed.

Lemma format_integer_roman_and_words_witness :
  exists i r,
    FormatInteger.first_fit TranslationMaps.ROMAN_NUMERALS_MAP 1994
    = Some (i, r)
    /\ i <= 1994
    /\ FormatInteger.format_integer 1994 "I" None
       = (r ++ FormatInteger.int_to_roman (1994 - i))%string.
Proof.
  apply (proj1 (proj2 format_integer_roman_and_words) 1994 None). lia.
Defined.

Example format_integer_examples :
  FormatInteger.format_integer 1994 "I" None = "MCMXCIV"
  /\ FormatInteger.format_integer 21 "w" (Some "en") = "twenty-one"
  /\ FormatInteger.format_integer 2000115 "w" (Some "fr")
     = "two million one hundred fifteen"
  /\ FormatInteger.format_integer 0 "I" None = "0"
  /\ FormatInteger.format_integer 7 "d" None = "7".
Proof. repeat split; vm_compute; reflexivity. Qed.

(** ** The W3C test driver *)

(** C8, as the code has it. The validator of an [assert-permutation] result
    element performs no check and returns [None], never [True]; a test case
    whose result element is an [assert-permutation] is therefore never
    counted as a success: it is counted as unknown. *)
Theorem assert_permutation_unimplemented
    (run_validator : W3C.Result -> Z -> result W3C.pyret)
    (r : W3C.Result) (verbose : Z) :
  W3C.type r = "assert-permutation" ->
  W3C.validate run_validator r verbose = Ok W3C.RNone
  /\ W3C.validate run_validator r verbose <> Ok W3C.RTrue
  /\ W3C.run run_validator r verbose = W3C.Unknown
  /\ W3C.run run_validator r verbose <> W3C.Success.
Proof.
  intros Htype.
  assert (H : W3C.validate run_validator r verbose = Ok W3C.RNone).
  { destruct r as [type value attrib children]. cbn in Htype. subst type.
    reflexivity. }
  unfold W3C.run. rewrite H. by repeat split.
Qed.

Lemma assert_permutation_unimplemented_witness :
  W3C.validate test_is_true assert_permutation 1 = Ok W3C.RNone
  /\ W3C.validate test_is_true assert_permutation 1 <> Ok W3C.RTrue
  /\ W3C.run test_is_true assert_permutation 1 = W3C.Unknown
  /\ W3C.run test_is_true assert_permutation 1 <> W3C.Success.
Proof.
  apply (assert_permutation_unimplemented test_is_true assert_permutation 1).
  reflexivity.
Defined.

(** A test case that expects a permutation or, as an alternative, a true
    value, passes when the test expression is true. *)
Lemma assert_permutation_counterexample :
  let expectation := any_of [assert_permutation; assert_true] in
  W3C.expects "assert-permutation" expectation = true
  /\ W3C.validate test_is_true expectation 1 = Ok W3C.RTrue
  /\ W3C.run test_is_true expectation 1 = W3C.Success.
Proof. repeat split. Qed.

(** Negated, the [None] of the validator counts as not valid, and the test
    case passes whatever the test expression gives. *)
Example not_assert_permutation_passes
    (run_validator : W3C.Result -> Z -> result W3C.pyret) (verbose : Z) :
  W3C.run run_validator (not_of assert_permutation) verbose = W3C.Success.
Proof. unfold W3C.run. cbn. by destruct (1 <? verbose)%Z. Qed.

(** ** The placeholder [?] *)

Section Placeholder.
Variable expression : Z -> P XPathToken.
Variable led : (Z -> P XPathToken) -> XPathToken -> XPathToken -> P XPathToken.
Variable select_token : XPathToken -> option XPathContext -> gen.

Lemma construct_placeholder (previous raw : XPathToken) :
  symbol raw = "?" ->
  in_symbols (symbol previous) ["("; ","] = true ->
  lbp (construct previous raw) = 0 /\ rbp (construct previous raw) = 0.
Proof.
  intros Hraw Hprev. unfold construct. rewrite Hraw.
  cbn [String.eqb Ascii.eqb Bool.eqb].
  unfold LookupOperatorToken.init_bp. rewrite Hprev.
  cbn in Hprev. rewrite orb_false_r in Hprev.
  apply orb_true_iff in Hprev as [H|H]; apply String.eqb_eq in H;
    rewrite H; by split.
Qed.


End Placeholder.



(** ** The composite validators of the W3C driver *)

Section CompositeValidators.
Variable run_validator : W3C.Result -> Z -> result W3C.pyret.

#[local] Abbreviation validate := (W3C.validate run_validator).

Lemma validate_all_of (self : W3C.Result) (verbose : Z) :
  W3C.replace_dash (W3C.type self) = "all_of" ->
  W3C.children self <> [] ->
  let outcomes := map (fun c => validate c verbose) (W3C.children self) in
  validate self verbose
  = match first_error outcomes with
    | Some e => Err e
    | None => Ok (W3C.of_bool (forallb is_valid outcomes))
    end.
Proof.
  destruct self as [type value attrib children]. cbn [W3C.type W3C.children].
  intros Htype Hne. cbv zeta. cbn [W3C.validate]. rewrite Htype.
  cbn [String.eqb Ascii.eqb Bool.eqb].
  destruct children as [|c cs]; [done|]. clear Hne.
  match goal with
  | |- mbind (fun r => ?f cs (@?acc r)) _ = _ =>
      assert (Hloop : forall l valid,
        f l valid
        = match first_error (map (fun c0 => validate c0 verbose) l) with
          | Some e => Err e
          | None =>
              Ok (W3C.of_bool
                    (valid && forallb is_valid
                                (map (fun c0 => validate c0 verbose) l)))
          end)
  end.
  { induction l as [|c' l IH]; intros valid.
    - cbn. by rewrite andb_true_r.
    - cbn [map first_error forallb].
      destruct (validate c' verbose) as [r|e] eqn:Hc.
      + cbn [mbind result_bind]. rewrite IH.
        destruct (first_error _); [reflexivity|].
        cbn [is_valid]. by destruct (W3C.truth r), valid.
      + reflexivity. }
  cbn [map first_error forallb].
  destruct (validate c verbose) as [r|e]; [|reflexivity].
  cbn [mbind result_bind]. rewrite Hloop.
  destruct (first_error _); [reflexivity|].
  cbn [is_valid]. by destruct (W3C.truth r).
Qed.

Lemma validate_any_of (self : W3C.Result) (verbose : Z) :
  W3C.replace_dash (W3C.type self) = "any_of" ->
  W3C.children self <> [] ->
  let first_pass := map (fun c => validate c 1) (W3C.children self) in
  let second_pass := map (fun c => validate c verbose) (W3C.children self) in
  validate self verbose
  = match first_error first_pass with
    | Some e => Err e
    | None =>
        if existsb is_valid first_pass then Ok W3C.RTrue
        else if (1 <? verbose)%Z then
          match first_error second_pass with
          | Some e => Err e
          | None => Ok W3C.RFalse
          end
        else Ok W3C.RFalse
    end.
Proof.
  destruct self as [type value attrib children]. cbn [W3C.type W3C.children].
  intros Htype Hne. cbv zeta. cbn [W3C.validate]. rewrite Htype.
  cbn [String.eqb Ascii.eqb Bool.eqb].
  destruct children as [|c cs]; [done|]. clear Hne.
  match goal with
  | |- mbind _ (mbind (fun r => ?f cs (@?acc r)) _) = _ =>
      assert (Hloop : forall l valid,
        f l valid
        = match first_error (map (fun c0 => validate c0 1) l) with
          | Some e => Err e
          | None =>
              Ok (valid || existsb is_valid (map (fun c0 => validate c0 1) l))
          end)
  end.
  { induction l as [|c' l IH]; intros valid.
    - cbn. by rewrite orb_false_r.
    - cbn [map first_error existsb].
      destruct (validate c' 1) as [r|e] eqn:Hc; [|reflexivity].
      cbn [mbind result_bind]. rewrite IH.
      destruct (first_error _); [reflexivity|].
      cbn [is_valid]. by destruct (W3C.truth r), valid. }
  match goal with
  | |- context [mbind (fun _ : W3C.pyret => ?g cs) _] =>
      assert (Hagain : forall l,
        g l
        = match first_error (map (fun c0 => validate c0 verbose) l) with
          | Some e => Err e
          | None => Ok tt
          end)
  end.
  { induction l as [|c' l IH]; [reflexivity|].
    cbn [map first_error].
    destruct (validate c' verbose) as [r|e]; [|reflexivity].
    cbn [mbind result_bind]. exact IH. }
  cbn [map first_error existsb].
  destruct (validate c 1) as [r|e]; [|reflexivity].
  cbn [mbind result_bind]. rewrite Hloop.
  destruct (first_error (map _ cs)); [reflexivity|].
  cbn [mbind result_bind is_valid].
  destruct (W3C.truth r); cbn [orb negb andb]; [reflexivity|].
  destruct (existsb _ _); cbn [negb andb]; [reflexivity|].
  destruct (1 <? verbose)%Z; [|reflexivity].
  destruct (validate c verbose) as [r'|e']; [|reflexivity].
  cbn [mbind result_bind]. rewrite Hagain.
  by destruct (first_error _).
Qed.

(** X1. [all-of]: every child is validated, in order and with the verbosity
    given; the first exception of a child is the exception of [all-of], also
    after a child that is not valid; without exception the result is [True]
    when every child is valid and [False] otherwise. So an [all-of] with a
    child that is not valid (one that returns [False] or [None], as an
    [assert-permutation] does, or that raises) is never counted as a success,
    whatever the other children give. *)
Theorem all_of_validator_outcome (self : W3C.Result) (verbose : Z) :
  W3C.replace_dash (W3C.type self) = "all_of" ->
  W3C.children self <> [] ->
  validate self verbose
  = match first_error (map (fun c => validate c verbose) (W3C.children self))
    with
    | Some e => Err e
    | None =>
        Ok (W3C.of_bool
              (forallb is_valid
                 (map (fun c => validate c verbose) (W3C.children self))))
    end
  /\ (forall child,
        In child (W3C.children self) ->
        is_valid (validate child verbose) = false ->
        W3C.run run_validator self verbose <> W3C.Success).
Proof.
  intros Htype Hne.
  pose proof (validate_all_of self verbose Htype Hne) as Heq.
  cbv zeta in Heq. split; [exact Heq|].
  intros child Hin Hinvalid. unfold W3C.run. rewrite Heq.
  destruct (first_error _) as [[]|]; [discriminate ..|].
  assert (forallb is_valid
            (map (fun c => validate c verbose) (W3C.children self)) = false)
    as ->; [|discriminate].
  apply not_true_is_false. intros Hall.
  rewrite forallb_forall in Hall.
  rewrite (Hall (validate child verbose)) in Hinvalid; [discriminate|].
  apply in_map_iff. by exists child.
Qed.

(** X2. [any-of]: the children are validated in order with the default
    verbosity 1, whatever verbosity is given, and the first exception is the
    exception of [any-of]; the result is [True] when some child is valid.
    When none is and the verbosity is above 1, the children are validated
    once more with that verbosity, and an exception there replaces the
    result [False]. So when no child raises, one valid child makes the
    [any-of] a success at every verbosity. *)
Theorem any_of_validator_outcome (self : W3C.Result) (verbose : Z) :
  W3C.replace_dash (W3C.type self) = "any_of" ->
  W3C.children self <> [] ->
  validate self verbose
  = match first_error (map (fun c => validate c 1) (W3C.children self)) with
    | Some e => Err e
    | None =>
        if existsb is_valid (map (fun c => validate c 1) (W3C.children self))
        then Ok W3C.RTrue
        else if (1 <? verbose)%Z then
          match first_error
                  (map (fun c => validate c verbose) (W3C.children self))
          with
          | Some e => Err e
          | None => Ok W3C.RFalse
          end
        else Ok W3C.RFalse
    end
  /\ (forall child,
        In child (W3C.children self) ->
        is_valid (validate child 1) = true ->
        first_error (map (fun c => validate c 1) (W3C.children self)) = None ->
        W3C.run run_validator self verbose = W3C.Success).
Proof.
  intros Htype Hne.
  pose proof (validate_any_of self verbose Htype Hne) as Heq.
  cbv zeta in Heq. split; [exact Heq|].
  intros child Hin Hvalid Hnone. unfold W3C.run. rewrite Heq, Hnone.
  assert (existsb is_valid
            (map (fun c => validate c 1) (W3C.children self)) = true) as ->;
    [|reflexivity].
  apply existsb_exists. exists (validate child 1).
  split; [|exact Hvalid]. apply in_map_iff. by exists child.
Qed.


(** X4. A test case whose result element is an [all-of], an [any-of] or a [not]
    is never counted as unknown: the validator returns [True] or [False] or
    raises. *)
Theorem composite_validators_never_unknown (self : W3C.Result) (verbose : Z) :
  In (W3C.replace_dash (W3C.type self)) ["all_of"; "any_of"; "not"] ->
  W3C.run run_validator self verbose <> W3C.Unknown.
Proof.
  intros [Htype | [Htype | [Htype | []]]]; symmetry in Htype; unfold W3C.run.
  - destruct (W3C.children self) as [|c cs] eqn:Hcs.
    + destruct self as [type value attrib children]. cbn in Htype, Hcs.
      subst children. cbn [W3C.validate]. rewrite Htype. discriminate.
    + rewrite (validate_all_of self verbose Htype)
        by (rewrite Hcs; discriminate).
      destruct (first_error _) as [[]|]; [discriminate ..|].
      by destruct (forallb _ _).
  - destruct (W3C.children self) as [|c cs] eqn:Hcs.
    + destruct self as [type value attrib children]. cbn in Htype, Hcs.
      subst children. cbn [W3C.validate]. rewrite Htype. discriminate.
    + rewrite (validate_any_of self verbose Htype)
        by (rewrite Hcs; discriminate).
      destruct (first_error _) as [[]|]; [discriminate ..|].
      destruct (existsb _ _); [discriminate|].
      destruct (1 <? verbose)%Z; [|discriminate].
      by destruct (first_error _) as [[]|].
  - destruct self as [type value attrib children]. cbn in Htype.
    cbn [W3C.validate]. rewrite Htype. cbn [String.eqb Ascii.eqb Bool.eqb].
    destruct children as [|c [|c' cs]]; try discriminate.
    destruct (validate c 1) as [r|e]; [|by destruct e].
    cbn [mbind result_bind].
    destruct (negb (negb (W3C.truth r)) && (1 <? verbose)%Z).
    + destruct (validate c verbose) as [?|[]]; [|discriminate ..].
      cbn [mbind result_bind]. by destruct (negb (W3C.truth r)).
    + cbn [mbind result_bind]. by destruct (negb (W3C.truth r)).
Qed.

End CompositeValidators.

Lemma all_of_validator_outcome_witness :
  W3C.validate test_is_true (all_of [assert_true; assert_permutation]) 1
  = Ok W3C.RFalse
  /\ W3C.run test_is_true (all_of [assert_true; assert_permutation]) 1
     <> W3C.Success.
Proof.
  destruct (all_of_validator_outcome test_is_true
              (all_of [assert_true; assert_permutation]) 1 eq_refl
              ltac:(discriminate)) as [Heq Hinvalid].
  split; [exact Heq|].
  apply (Hinvalid assert_permutation);
    [right; left; reflexivity | reflexivity].
Defined.

Lemma any_of_validator_outcome_witness :
  W3C.validate test_is_true (any_of [assert_permutation; assert_true]) 2
  = Ok W3C.RTrue
  /\ W3C.run test_is_true (any_of [assert_permutation; assert_true]) 2
     = W3C.Success.
Proof.
  destruct (any_of_validator_outcome test_is_true
              (any_of [assert_permutation; assert_true]) 2 eq_refl
              ltac:(discriminate)) as [Heq Hvalid].
  split; [exact Heq|].
  apply (Hvalid assert_true);
    [right; left; reflexivity | reflexivity | reflexivity].
Defined.


Lemma composite_validators_never_unknown_witness :
  W3C.run test_is_true (any_of [assert_permutation]) 1 <> W3C.Unknown.
Proof.
  apply composite_validators_never_unknown. right. left. reflexivity.
Defined.

(** ** The counters of [main] *)

Lemma for_each_app {A S : Type} (body : S -> A -> result S)
    (l1 l2 : list A) (s : S) :
  Driver.for_each body (l1 ++ l2) s
  = (s' ← Driver.for_each body l1 s; Driver.for_each body l2 s').
Proof.
  revert s. induction l1 as [|x l1 IH]; intros s; [reflexivity|].
  cbn [app Driver.for_each]. destruct (body s x) as [s'|e]; [|reflexivity].
  cbn [mbind result_bind]. apply IH.
Qed.

Section MainCounters.
Import Driver DriverSpec.
Variable pattern : string.
Variable report : bool.

Lemma main_as_fold (test_sets : list TestSet) (c : Counters) :
  for_each (count_test_set pattern report) test_sets c
  = for_each (count_pair pattern report) (cases test_sets) c.
Proof.
  revert c. induction test_sets as [|ts tss IH]; intros c; [reflexivity|].
  cbn [for_each cases flat_map]. rewrite for_each_app.
  assert (count_test_set pattern report c ts
          = for_each (count_pair pattern report)
              (map (pair (ignored (set_spec_dependencies ts)))
                 (test_cases ts)) c) as ->.
  { unfold count_test_set. generalize (ignored (set_spec_dependencies ts)).
    intros b. generalize c. induction (test_cases ts) as [|tc l IHl];
      intros c0; [reflexivity|].
    cbn [map for_each].
    change (count_pair pattern report c0 (b, tc))
      with (count_case pattern report b c0 tc).
    destruct (count_case pattern report b c0 tc); [|reflexivity].
    cbn [mbind result_bind]. apply IHl. }
  destruct (for_each (count_pair pattern report) _ c); [|reflexivity].
  cbn [mbind result_bind]. apply IH.
Qed.

(** One turn of the loop: the run of the test case leaves [main], or the
    counters are advanced over the test case. *)
Lemma count_pair_counts (c : Counters) (x : bool * TestCase) :
  match count_pair pattern report c x with
  | Ok c' => exits pattern x = false /\ counts_as pattern report c c' [x]
  | Err e =>
      exits pattern x = true /\ exists status, e = SystemExit status
      /\ run (snd x) = Err e
  end.
Proof.
  unfold counts_as, count_pair, count_case, reported, counted, exits, is_run,
    is_read, is_skipped, skipped.
  destruct x as [b tc]. cbn [fst snd List.filter].
  assert (Hnil : (if report then @nil string else []) = [])
    by (by destruct report).
  destruct (contains pattern (name tc));
    [|cbn; rewrite ?Hnil, ?app_nil_r; repeat split; lia].
  destruct b; [cbn; rewrite ?Hnil, ?app_nil_r; repeat split; lia|].
  destruct (ignored (spec_dependencies (dependencies tc)));
    [cbn; rewrite ?Hnil, ?app_nil_r; repeat split; lia|].
  destruct (in_symbols "higherOrderFunctions"
              (feature_dependencies (dependencies tc)));
    [cbn; rewrite ?Hnil, ?app_nil_r; repeat split; lia|].
  destruct (in_symbols (name tc) SKIP_TESTS);
    [cbn; rewrite ?Hnil, ?app_nil_r; repeat split; lia|].
  destruct (run tc) as [[]|[]];
    try (destruct report; cbn; rewrite ?app_nil_r; repeat split; lia).
  cbn. split; [reflexivity|]. by eexists.
Qed.

Lemma reported_app (v : W3C.verdict) (l1 l2 : list (bool * TestCase)) :
  reported pattern report v (l1 ++ l2)
  = reported pattern report v l1 ++ reported pattern report v l2.
Proof.
  unfold reported. destruct report; [|reflexivity].
  by rewrite List.filter_app, map_app.
Qed.

Lemma counts_as_app (c0 c1 c2 : Counters) (l1 l2 : list (bool * TestCase)) :
  counts_as pattern report c0 c1 l1 ->
  counts_as pattern report c1 c2 l2 ->
  counts_as pattern report c0 c2 (l1 ++ l2).
Proof.
  unfold counts_as.
  intros (H1 & H2 & H3 & H4 & H5 & H6 & H7 & H8 & H9 & H10 & H11)
         (G1 & G2 & G3 & G4 & G5 & G6 & G7 & G8 & G9 & G10 & G11).
  rewrite !List.filter_app, !length_app, !reported_app, !app_assoc.
  rewrite G1, G2, G3, G4, G5, G6, G7, G8, G9, G10, G11.
  rewrite H1, H2, H3, H4, H5, H6, H7, H8, H9, H10, H11.
  repeat split; lia.
Qed.

Lemma counts_as_nil (c : Counters) : counts_as pattern report c c [].
Proof.
  unfold counts_as, reported. cbn [List.filter length map].
  rewrite !Nat.add_0_r. destruct report; rewrite !app_nil_r; by repeat split.
Qed.

(** The loop over the test cases: it ends with counters exactly when no run
    leaves [main], and otherwise leaves at the first run that does. *)
Lemma counts_as_fold (l : list (bool * TestCase)) (c : Counters) :
  match for_each (count_pair pattern report) l c with
  | Ok c' =>
      Forall (fun x => exits pattern x = false) l
      /\ counts_as pattern report c c' l
  | Err e =>
      exists l1 x l2 status,
        l = l1 ++ x :: l2
        /\ Forall (fun x => exits pattern x = false) l1
        /\ exits pattern x = true
        /\ e = SystemExit status /\ run (snd x) = Err e
  end.
Proof.
  revert c. induction l as [|x l IH]; intros c.
  - cbn [for_each]. split; [constructor | apply counts_as_nil].
  - cbn [for_each]. pose proof (count_pair_counts c x) as Hx.
    destruct (count_pair pattern report c x) as [c1|e].
    + destruct Hx as [Hexit Hx]. cbn [mbind result_bind].
      specialize (IH c1).
      destruct (for_each (count_pair pattern report) l c1) as [c2|e].
      * destruct IH as [Hall IH]. split; [by constructor|].
        change (x :: l) with ([x] ++ l). by eapply counts_as_app.
      * destruct IH as (l1 & y & l2 & status & -> & Hall & Hy & He & Hrun).
        exists (x :: l1), y, l2, status.
        split; [reflexivity|]. split; [by constructor|]. by repeat split.
    + destruct Hx as (Hexit & status & He & Hrun). cbn [mbind result_bind].
      exists [], x, l, status.
      split; [reflexivity|]. split; [constructor|]. by repeat split.
Qed.

Lemma filter_cons_length {A : Type} (p : A -> bool) (x : A) (l : list A) :
  length (List.filter p (x :: l))
  = (Nat.b2n (p x) + length (List.filter p l))%nat.
Proof. cbn [List.filter]. by destruct (p x). Qed.

Lemma read_splits (l : list (bool * TestCase)) :
  length (List.filter (is_read pattern) l)
  = (length (List.filter (fun x => is_read pattern x && is_skipped x) l)
     + length (List.filter (is_run pattern) l))%nat.
Proof.
  induction l as [|x l IH]; [reflexivity|].
  rewrite !filter_cons_length, IH. unfold is_run.
  destruct (is_read pattern x), (is_skipped x); cbn [andb negb Nat.b2n]; lia.
Qed.

Lemma run_splits (l : list (bool * TestCase)) :
  Forall (fun x => exits pattern x = false) l ->
  length (List.filter (is_run pattern) l)
  = (length (List.filter (counted pattern W3C.Success) l)
     + length (List.filter (counted pattern W3C.Failed) l)
     + length (List.filter (counted pattern W3C.Unknown) l)
     + length (List.filter (counted pattern W3C.OtherFailure) l))%nat.
Proof.
  induction 1 as [|x l Hx _ IH]; [reflexivity|].
  rewrite !filter_cons_length, IH. unfold counted. unfold exits in Hx.
  destruct (is_run pattern x); [|cbn [andb negb Nat.b2n]; lia].
  destruct (run (snd x)) as [[]|[]]; try discriminate Hx;
    cbn [W3C.count andb negb Nat.b2n]; lia.
Qed.

Lemma for_each_exits (l1 l2 : list (bool * TestCase))
    (x : bool * TestCase) :
  Forall (fun x => exits pattern x = false) l1 ->
  exits pattern x = true ->
  forall c,
    exists status,
      run (snd x) = Err (SystemExit status)
      /\ for_each (count_pair pattern report) (l1 ++ x :: l2) c
         = Err (SystemExit status).
Proof.
  intros Hall Hx. induction Hall as [|y l1 Hy Hall IH]; intros c.
  - cbn [app for_each]. pose proof (count_pair_counts c x) as Hc.
    destruct (count_pair pattern report c x) as [c1|e].
    + destruct Hc as [Hc _]. congruence.
    + destruct Hc as (_ & status & -> & Hrun). by exists status.
  - cbn [app for_each]. pose proof (count_pair_counts c y) as Hc.
    destruct (count_pair pattern report c y) as [c1|e].
    + cbn [mbind result_bind]. apply IH.
    + destruct Hc as [Hc _]. congruence.
Qed.


(** X6. The counters of [main] add up when it gets to its totals: every test
    case read is either skipped or run, every test case run is counted once,
    as a success, a failure, an unknown or another failure, and no more test
    cases are read than there are. *)
Theorem main_counters_add_up (test_sets : list TestSet) (c : Counters) :
  main pattern report test_sets = Ok c ->
  count_read c = (count_skip c + count_run c)%nat
  /\ count_run c
     = (count_success c + count_failed c + count_unknown c
        + count_other_failures c)%nat
  /\ (count_read c <= length (cases test_sets))%nat.
Proof.
  unfold main. rewrite main_as_fold. intros Hc.
  pose proof (counts_as_fold (cases test_sets) zero) as H.
  rewrite Hc in H.
  destruct H as (Hall & H1 & H2 & H3 & H4 & H5 & H6 & H7 & _).
  rewrite H1, H2, H3, H4, H5, H6, H7. cbn [zero count_read
    count_skip count_run count_success count_failed count_unknown
    count_other_failures plus].
  split; [apply read_splits|]. split; [by apply run_splits|].
  apply List.filter_length_le.
Qed.

End MainCounters.

Lemma contains_empty (s : string) : Driver.contains "" s = true.
Proof. by destruct s. Qed.

(** X7. With the empty pattern, the default, every test case of every test set
    is read when [main] gets to its totals. *)
Theorem main_reads_all (report : bool) (test_sets : list Driver.TestSet)
    (c : Driver.Counters) :
  Driver.main "" report test_sets = Ok c ->
  Driver.count_read c = length (DriverSpec.cases test_sets).
Proof.
  unfold Driver.main. rewrite main_as_fold. intros Hc.
  pose proof (counts_as_fold "" report (DriverSpec.cases test_sets)
                Driver.zero) as H.
  rewrite Hc in H. destruct H as (_ & H1 & _). rewrite H1.
  cbn [Driver.zero Driver.count_read plus]. clear H1 Hc.
  induction (DriverSpec.cases test_sets) as [|x l IH]; [reflexivity|].
  rewrite filter_cons_length, IH. unfold DriverSpec.is_read.
  by rewrite contains_empty.
Qed.


Lemma main_counters_add_up_witness :
  Driver.count_read completed_counters
  = (Driver.count_skip completed_counters
     + Driver.count_run completed_counters)%nat
  /\ Driver.count_run completed_counters
     = (Driver.count_success completed_counters
        + Driver.count_failed completed_counters
        + Driver.count_unknown completed_counters
        + Driver.count_other_failures completed_counters)%nat
  /\ (Driver.count_read completed_counters
      <= length (DriverSpec.cases completed_test_sets))%nat.
Proof.
  apply (main_counters_add_up "" true completed_test_sets completed_counters).
  reflexivity.
Defined.

Lemma main_reads_all_witness :
  Driver.count_read completed_counters
  = length (DriverSpec.cases completed_test_sets).
Proof.
  apply (main_reads_all true completed_test_sets completed_counters).
  reflexivity.
Defined.

(** ** The dependencies of a test case *)

Lemma in_symbols_In (s : string) (l : list string) :
  in_symbols s l = true <-> In s l.
Proof.
  unfold in_symbols. rewrite existsb_exists. split.
  - intros (x & Hin & Heq). apply String.eqb_eq in Heq. by subst.
  - intros Hin. exists s. split; [exact Hin | apply String.eqb_refl].
Qed.

Lemma spec_dependencies_fold (children : list (string * string))
    (d : Driver.Dependencies) :
  Driver.spec_dependencies (fold_left Driver.add_dependency children d)
  = Driver.spec_dependencies d
    ++ concat (map (fun child => if fst child =? "spec"
                                 then Driver.split_space (snd child)
                                 else [])
                 children).
Proof.
  revert d. induction children as [|[ty v] children IH]; intros d.
  - cbn. by rewrite app_nil_r.
  - cbn [fold_left map concat fst snd]. rewrite IH.
    unfold Driver.add_dependency. cbn [fst snd].
    destruct (ty =? "spec") eqn:Hspec.
    + cbn [Driver.spec_dependencies]. by rewrite app_assoc.
    + destruct (ty =? "feature"); [by cbn|].
      by destruct (in_symbols ty Driver.single_value_dependencies).
Qed.

(** X8. The values of a spec dependency are separated by spaces, and one value in
    [IGNORE_DEPENDENCIES] is enough: a test case read by [main] with such a
    dependency is counted as skipped and is not run, whatever its other
    values and dependencies say. *)
Theorem ignored_dependency_skips (pattern : string) (report b : bool)
    (c : Driver.Counters) (test_case : Driver.TestCase)
    (children : list (string * string)) (value dep : string) :
  Driver.dependencies test_case = Driver.read_dependencies children ->
  In ("spec", value) children ->
  In dep (Driver.split_space value) ->
  In dep Driver.IGNORE_DEPENDENCIES ->
  Driver.contains pattern (Driver.name test_case) = true ->
  exists c',
    Driver.count_case pattern report b c test_case = Ok c'
    /\ Driver.count_read c' = S (Driver.count_read c)
    /\ Driver.count_skip c' = S (Driver.count_skip c)
    /\ Driver.count_run c' = Driver.count_run c
    /\ Driver.count_success c' = Driver.count_success c
    /\ Driver.count_failed c' = Driver.count_failed c
    /\ Driver.count_unknown c' = Driver.count_unknown c
    /\ Driver.count_other_failures c' = Driver.count_other_failures c.
Proof.
  intros Hdeps Hchild Hdep Hignore Hread.
  assert (Hign : Driver.ignored
            (Driver.spec_dependencies (Driver.dependencies test_case))
          = true).
  { unfold Driver.ignored. apply existsb_exists. exists dep.
    split; [|by apply in_symbols_In].
    rewrite Hdeps. unfold Driver.read_dependencies.
    rewrite spec_dependencies_fold. cbn [Driver.spec_dependencies app].
    apply in_concat. exists (Driver.split_space value).
    split; [|exact Hdep].
    apply in_map_iff. by exists ("spec", value). }
  unfold Driver.count_case. rewrite Hread, Hign. cbn [negb].
  destruct b; eexists; (split; [reflexivity|]); by repeat split.
Qed.

Lemma ignored_dependency_skips_witness :
  let test_case :=
    Driver.MkTestCase "fn-abs__fn-abs-1"
      (Driver.read_dependencies
         [("feature", "schemaImport"); ("spec", "XP20+ XQ10+")])
      (Ok W3C.RTrue) in
  exists c',
    Driver.count_case "" true false Driver.zero test_case = Ok c'
    /\ Driver.count_read c' = 1%nat
    /\ Driver.count_skip c' = 1%nat
    /\ Driver.count_run c' = 0%nat
    /\ Driver.count_success c' = 0%nat
    /\ Driver.count_failed c' = 0%nat
    /\ Driver.count_unknown c' = 0%nat
    /\ Driver.count_other_failures c' = 0%nat.
Proof.
  intros test_case.
  apply (ignored_dependency_skips "" true false Driver.zero test_case
           [("feature", "schemaImport"); ("spec", "XP20+ XQ10+")]
           "XP20+ XQ10+" "XQ10+").
  - reflexivity.
  - right. left. reflexivity.
  - right. left. reflexivity.
  - right. left. reflexivity.
  - reflexivity.
Defined.

(** ** The context of a test case *)

Lemma starts_with_dollar_spec (k : string) :
  TestRun.starts_with_dollar k = true
  <-> k = String "$" (TestRun.drop_first k).
Proof.
  destruct k as [|c k]; cbn; [split; discriminate|].
  destruct (Ascii.eqb_spec c "$") as [->|Hne]; [done|].
  split; [discriminate | intros [= ?]; by destruct Hne].
Qed.

Lemma dollar_variables_fold (items : list (string * TestRun.Source)) :
  forall (acc : gmap string (option nat)) (k : string),
    NoDup (map fst items) ->
    (exists s, In (String "$" k, s) items
               /\ fold_left
                    (fun m kv =>
                       if TestRun.starts_with_dollar (fst kv)
                       then <[TestRun.drop_first (fst kv)
                              := TestRun.xml (snd kv)]> m
                       else m) items acc !! k
                  = Some (TestRun.xml s))
    \/ ((forall s, ~ In (String "$" k, s) items)
        /\ fold_left
             (fun m kv =>
                if TestRun.starts_with_dollar (fst kv)
                then <[TestRun.drop_first (fst kv)
                       := TestRun.xml (snd kv)]> m
                else m) items acc !! k
           = acc !! k).
Proof.
  induction items as [|[k0 s0] items IH]; intros acc k Hnodup.
  - right. split; [intros s []|reflexivity].
  - cbn [map fst] in Hnodup. apply NoDup_cons in Hnodup as [Hk0 Hnodup].
    cbn [fold_left fst snd].
    destruct (decide (k0 = String "$" k)) as [->|Hne].
    + left. exists s0. split; [by left|].
      cbn [TestRun.starts_with_dollar Ascii.eqb Bool.eqb TestRun.drop_first].
      destruct (IH (<[k := TestRun.xml s0]> acc) k Hnodup)
        as [(s & Hin & _) | (_ & ->)].
      * destruct Hk0. apply list_elem_of_In. apply in_map_iff.
        by exists (String "$" k, s).
      * apply lookup_insert_eq.
    + destruct (IH (if TestRun.starts_with_dollar k0
                    then <[TestRun.drop_first k0 := TestRun.xml s0]> acc
                    else acc) k Hnodup)
        as [(s & Hin & Hs) | (Hnone & Hs)].
      * left. exists s. split; [by right | exact Hs].
      * right. split.
        -- intros s [[= ? ?]|Hin]; [by destruct Hne | by apply (Hnone s)].
        -- rewrite Hs. destruct (TestRun.starts_with_dollar k0) eqn:Hd;
             [|reflexivity].
           apply lookup_insert_ne. intros Heq.
           apply starts_with_dollar_spec in Hd. rewrite Heq in Hd.
           by destruct Hne.
Qed.

(** The variables of the context are the sources of the environment whose
    role starts with a dollar, named by the role without the dollar, and
    nothing else. *)
Lemma dollar_variables_lookup (m : gmap string TestRun.Source) (k : string) :
  TestRun.dollar_variables (map_to_list m) !! k
  = TestRun.xml <$> m !! String "$" k.
Proof.
  unfold TestRun.dollar_variables.
  destruct (dollar_variables_fold (map_to_list m) ∅ k)
    as [(s & Hin & ->) | (Hnone & ->)].
  - change (map fst (map_to_list m)) with ((map_to_list m).*1).
    apply NoDup_fst_map_to_list.
  - apply list_elem_of_In, elem_of_map_to_list in Hin. by rewrite Hin.
  - rewrite lookup_empty. destruct (m !! String "$" k) as [s|] eqn:Hs;
      [|reflexivity].
    destruct (Hnone s). by apply list_elem_of_In, elem_of_map_to_list.
Qed.

Lemma get_xpath_context_unknown
    (environments : gmap string TestRun.Environment)
    (inline : option TestRun.Environment) (r : string) :
  r <> "" -> environments !! r = None ->
  TestRun.get_xpath_context environments (Some r) inline
  = Err (PyError "ExecutionError").
Proof.
  intros Hr Hnone. unfold TestRun.get_xpath_context.
  apply String.eqb_neq in Hr. by rewrite Hr, Hnone.
Qed.

Lemma get_xpath_context_known
    (environments : gmap string TestRun.Environment)
    (inline : option TestRun.Environment) (r : string)
    (e : TestRun.Environment) :
  r <> "" -> environments !! r = Some e ->
  TestRun.get_xpath_context environments (Some r) inline
  = TestRun.get_xpath_context environments None (Some e).
Proof.
  intros Hr Hsome. unfold TestRun.get_xpath_context.
  apply String.eqb_neq in Hr. by rewrite Hr, Hsome.
Qed.

Lemma get_xpath_context_of_environment
    (environments : gmap string TestRun.Environment)
    (e : TestRun.Environment) :
  exists args,
    TestRun.get_xpath_context environments None (Some e) = Ok args
    /\ TestRun.root args
       = match TestRun.sources e !! "." with
         | Some source => TestRun.SourceTree (TestRun.xml source)
         | None => TestRun.EmptyElement
         end
    /\ forall k,
         default ∅ (TestRun.variable_values args) !! k
         = TestRun.xml <$> TestRun.sources e !! String "$" k.
Proof.
  unfold TestRun.get_xpath_context. cbn [mbind result_bind].
  destruct (existsb _ _) eqn:Hany.
  - eexists. split; [reflexivity|]. split; [reflexivity|].
    intros k. cbn [TestRun.variable_values default].
    apply dollar_variables_lookup.
  - eexists. split; [reflexivity|]. split; [reflexivity|].
    intros k. cbn [TestRun.variable_values default].
    rewrite lookup_empty.
    destruct (TestRun.sources e !! String "$" k) as [s|] eqn:Hs;
      [|reflexivity].
    assert (existsb (fun kv => TestRun.starts_with_dollar (fst kv))
              (map_to_list (TestRun.sources e)) = true) as Htrue;
      [|rewrite Htrue in Hany; discriminate].
    apply existsb_exists. exists (String "$" k, s).
    split; [|reflexivity].
    by apply list_elem_of_In, elem_of_map_to_list.
Qed.

(** X9. [get_xpath_context]: a reference to an environment the test set does not
    know is an [ExecutionError]; a known reference gives that environment, an
    empty reference counts as none, and without environment the context has
    the empty element as root and no variables. With an environment the root
    is the tree of the source of role ["."] if there is one, and the variable
    [k] has the tree of the source of role ["$k"]. *)
Theorem get_xpath_context_environment
    (environments : gmap string TestRun.Environment)
    (inline : option TestRun.Environment) :
  (forall r,
     r <> "" -> environments !! r = None ->
     TestRun.get_xpath_context environments (Some r) inline
     = Err (PyError "ExecutionError"))
  /\ (forall r e,
        r <> "" -> environments !! r = Some e ->
        TestRun.get_xpath_context environments (Some r) inline
        = TestRun.get_xpath_context environments None (Some e))
  /\ TestRun.get_xpath_context environments (Some "") inline
     = TestRun.get_xpath_context environments None inline
  /\ TestRun.get_xpath_context environments None None
     = Ok (TestRun.MkArguments TestRun.EmptyElement None)
  /\ (forall e,
        exists args,
          TestRun.get_xpath_context environments None (Some e) = Ok args
          /\ TestRun.root args
             = match TestRun.sources e !! "." with
               | Some source => TestRun.SourceTree (TestRun.xml source)
               | None => TestRun.EmptyElement
               end
          /\ forall k,
               default ∅ (TestRun.variable_values args) !! k
               = TestRun.xml <$> TestRun.sources e !! String "$" k).
Proof.
  split; [intros r; apply get_xpath_context_unknown|].
  split; [intros r e; apply get_xpath_context_known|].
  split; [reflexivity|]. split; [reflexivity|].
  apply get_xpath_context_of_environment.
Qed.

Lemma get_xpath_context_environment_witness :
  TestRun.get_xpath_context catalog_environments (Some "missing") None
  = Err (PyError "ExecutionError")
  /\ TestRun.get_xpath_context catalog_environments (Some "works") None
     = TestRun.get_xpath_context catalog_environments None
         (Some works_environment).
Proof.
  destruct (get_xpath_context_environment catalog_environments None)
    as (H1 & H2 & _).
  split.
  - apply H1; [discriminate | reflexivity].
  - apply H2; [discriminate | reflexivity].
Defined.

(** ** The run of a test and the validators that read it *)

Lemma lstrip_all_space (s : string) :
  all_space s = true -> Driver.lstrip s = "".
Proof.
  induction s as [|c s IH]; [reflexivity|].
  cbn [all_space Driver.lstrip]. intros H.
  apply andb_true_iff in H as [-> Hs]. by apply IH.
Qed.

Lemma strip_all_space (s : string) :
  all_space s = true -> Driver.strip s = "".
Proof.
  intros H. unfold Driver.strip. by rewrite lstrip_all_space.
Qed.

(** X10. [run_xpath_test] raises the [ExecutionError] of the driver exactly when
    the expression parses and the test case refers to an environment the
    test set does not have: a parse error comes first. *)
Theorem run_xpath_test_execution_error {Tree : Type}
    (parse : TestRun.Raised + Tree)
    (environments : gmap string TestRun.Environment)
    (environment_ref : option string) (inline : option TestRun.Environment)
    (evaluate : Tree -> TestRun.ContextArguments
                -> TestRun.Raised + TestRun.Value) :
  TestRun.run_xpath_test parse
    (TestRun.get_xpath_context environments environment_ref inline) evaluate
  = inl TestRun.ExecutionError
  <-> (exists tree, parse = inr tree)
      /\ exists r, environment_ref = Some r /\ r <> ""
                   /\ environments !! r = None.
Proof.
  unfold TestRun.run_xpath_test. split.
  - destruct parse as [err|tree];
      [by destruct (TestRun.is_elementpath_error err)|].
    intros H. split; [by eexists|].
    assert (forall env, exists args,
              TestRun.get_xpath_context environments None env = Ok args)
      as Hok.
    { intros [e|]; [|by eexists].
      destruct (get_xpath_context_of_environment environments e)
        as (args & -> & _).
      by eexists. }
    assert (forall env,
              match TestRun.get_xpath_context environments None env with
              | Ok context =>
                  match evaluate tree context with
                  | inl err =>
                      if TestRun.is_elementpath_error err
                      then inl (TestRun.ElementPathError (TestRun.text err))
                      else inl (TestRun.EvaluateError (TestRun.text err))
                  | inr v => inr v
                  end
              | Err _ => inl TestRun.ExecutionError
              end <> inl TestRun.ExecutionError) as Hrun.
    { intros env. destruct (Hok env) as (args & ->).
      destruct (evaluate tree args) as [err|v]; [|discriminate].
      by destruct (TestRun.is_elementpath_error err). }
    destruct environment_ref as [r|]; [|by destruct (Hrun inline)].
    destruct (String.eqb_spec r "") as [->|Hr];
      [by destruct (Hrun inline)|].
    destruct (environments !! r) as [e|] eqn:He; [|by exists r].
    rewrite (get_xpath_context_known environments inline r e Hr He) in H.
    by destruct (Hrun (Some e)).
  - intros [[tree ->] (r & -> & Hr & Hnone)].
    by rewrite (get_xpath_context_unknown environments inline r Hr Hnone).
Qed.

Local Ltac forall_cases :=
  repeat first [apply List.Forall_cons | apply List.Forall_nil].

(** X11. The validators that only read the run of the test raise nothing but the
    [ExecutionError] of the run, and otherwise answer [True] or [False],
    never [None]. *)
Theorem leaf_validators_outcome (attrib : list (string * string))
    (run : TestRun.RunError + TestRun.Value) :
  let validators :=
    [ TestRun.assert_true_validator; TestRun.assert_false_validator;
      TestRun.assert_empty_validator;
      TestRun.assert_serialization_error_validator;
      TestRun.error_validator attrib ] in
  (run = inl TestRun.ExecutionError ->
   Forall (fun v => v run = Err (PyError "ExecutionError")) validators)
  /\ (run <> inl TestRun.ExecutionError ->
      Forall (fun v => v run = Ok W3C.RTrue \/ v run = Ok W3C.RFalse)
        validators).
Proof.
  cbv zeta. split.
  - intros ->. forall_cases; reflexivity.
  - intros Hrun.
    destruct run as [[err|err|err|]|v]; [| | |done|].
    + forall_cases; cbn; auto.
      destruct (TestRun.attrib_get attrib "code") as [code|]; [|auto].
      match goal with |- context [if ?b then _ else _] => destruct b end;
        auto.
    + forall_cases; cbn; auto.
      match goal with |- context [W3C.of_bool ?b] => destruct b end;
        cbn; auto.
    + forall_cases; cbn; auto.
      match goal with |- context [W3C.of_bool ?b] => destruct b end;
        cbn; auto.
    + forall_cases; cbn; auto.
      * destruct v; cbn; auto.
      * destruct v; cbn; auto.
      * destruct v as [| | | |[|]|]; cbn; auto.
Qed.

Lemma leaf_validators_outcome_witness :
  Forall (fun v => v (inl TestRun.ExecutionError)
                   = Err (PyError "ExecutionError"))
    [ TestRun.assert_true_validator; TestRun.assert_false_validator;
      TestRun.assert_empty_validator;
      TestRun.assert_serialization_error_validator;
      TestRun.error_validator [] ]
  /\ Forall (fun v => v (inr TestRun.VTrue) = Ok W3C.RTrue
                      \/ v (inr TestRun.VTrue) = Ok W3C.RFalse)
       [ TestRun.assert_true_validator; TestRun.assert_false_validator;
         TestRun.assert_empty_validator;
         TestRun.assert_serialization_error_validator;
         TestRun.error_validator [] ].
Proof.
  split.
  - apply (leaf_validators_outcome [] (inl TestRun.ExecutionError)).
    reflexivity.
  - apply (leaf_validators_outcome [] (inr TestRun.VTrue)). discriminate.
Defined.

(** X12. For one run of the test at most one of [assert-true], [assert-false],
    [assert-empty] and [assert-serialization-error] is valid, and whenever
    [error] is valid [assert-serialization-error] is. *)
Theorem leaf_validators_exclusive (attrib : list (string * string))
    (run : TestRun.RunError + TestRun.Value) :
  (length
     (List.filter (fun v => is_valid (v run))
        [ TestRun.assert_true_validator; TestRun.assert_false_validator;
          TestRun.assert_empty_validator;
          TestRun.assert_serialization_error_validator ]) <= 1)%nat
  /\ (is_valid (TestRun.error_validator attrib run) = true ->
      TestRun.assert_serialization_error_validator run = Ok W3C.RTrue).
Proof.
  split.
  - destruct run as [[err|err|err|]|v]; cbn; try lia.
    destruct v as [| | | |[|]|]; cbn; lia.
  - destruct run as [[err|err|err|]|v]; cbn; done.
Qed.

Lemma leaf_validators_exclusive_witness :
  TestRun.assert_serialization_error_validator
    (inl (TestRun.ElementPathError "[err:XPTY0004] type error"))
  = Ok W3C.RTrue.
Proof.
  apply (leaf_validators_exclusive [("code", "XPTY0004")]
           (inl (TestRun.ElementPathError "[err:XPTY0004] type error"))).
  vm_compute. reflexivity.
Defined.

(** X13. [error_validator]: the code of the [error] element is stripped before it
    is compared with an [ElementPathError], so that a blank code accepts
    every such error and a padded [*] does too; for a [ParseError] or an
    [EvaluateError] the code is compared as it is written, and the padded
    [*] is rejected. *)
Theorem error_validator_code (attrib : list (string * string))
    (code err : string) :
  TestRun.attrib_get attrib "code" = Some code ->
  (all_space code = true ->
   TestRun.error_validator attrib (inl (TestRun.ElementPathError err))
   = Ok W3C.RTrue)
  /\ (Driver.strip code = "*" ->
      TestRun.error_validator attrib (inl (TestRun.ElementPathError err))
      = Ok W3C.RTrue
      /\ (code <> "*" ->
          TestRun.error_validator attrib (inl (TestRun.ParseError err))
          = Ok W3C.RFalse
          /\ TestRun.error_validator attrib (inl (TestRun.EvaluateError err))
             = Ok W3C.RFalse)).
Proof.
  intros Hcode. split; [|intros Hstar; split].
  - intros Hblank. cbn. rewrite Hcode. cbv zeta.
    rewrite (strip_all_space _ Hblank), contains_empty. reflexivity.
  - cbn. rewrite Hcode. cbv zeta. rewrite Hstar. reflexivity.
  - intros Hne. unfold TestRun.error_validator. rewrite Hcode.
    unfold default. cbn [from_option id].
    apply String.eqb_neq in Hne. rewrite Hne. done.
Qed.

Lemma error_validator_code_witness :
  TestRun.error_validator [("code", " ")]
    (inl (TestRun.ElementPathError "[err:XPST0003] syntax error"))
  = Ok W3C.RTrue
  /\ TestRun.error_validator [("code", "* ")]
       (inl (TestRun.ParseError "maximum recursion depth exceeded"))
     = Ok W3C.RFalse.
Proof.
  destruct (error_validator_code [("code", " ")] " "
              "[err:XPST0003] syntax error" eq_refl) as [Hblank _].
  destruct (error_validator_code [("code", "* ")] "* "
              "maximum recursion depth exceeded" eq_refl) as [_ Hstar].
  split.
  - apply Hblank. reflexivity.
  - apply Hstar; [reflexivity | discriminate].
Defined.

(** ** The keyword [array] and the argument of a kind test *)
Section ArrayKeyword.
Variable expression : Z -> P XPathToken.
Variable XPathArray_nud : P XPathToken.
Variable XPathMap_nud : P XPathToken.
Variable as_name : XPathToken -> P XPathToken.
Variable parse_occurrence : XPathToken -> P unit.
(** The white space and the word characters of Unicode. *)
Variable is_space : Z -> bool.
Variable is_word : Z -> bool.

#[local] Abbreviation nud_array :=
  (nud_sequence_type_or_curly_array_constructor expression XPathArray_nud
     as_name parse_occurrence).

Lemma nud_array_kind_test (self t : XPathToken) (p p' : Parser.t) :
  symbol (Parser.next_token p) = "(" ->
  nud_array self p = Ok (t, p') ->
  symbol t = symbol self /\ label t = ["kind test"] /\ value t = ONone
  /\ exists k, operands t = [k].
Proof.
  intros Hnext. unfold nud_sequence_type_or_curly_array_constructor.
  unfold mbind at 1, P_bind at 1, parser at 1. rewrite Hnext.
  cbn [String.eqb Ascii.eqb Bool.eqb negb].
  unfold mbind, P_bind, mret, P_ret.
  destruct (advance ["("] p) as [[? p1]|?]; [|discriminate].
  destruct (expect_sequence_type _ p1) as [[? p2]|?]; [|discriminate].
  destruct (expression 45 p2) as [[k p3]|?]; [|discriminate].
  destruct (negb (symbol k =? "*")).
  - destruct (parse_occurrence k p3) as [[? p4]|?]; [|discriminate].
    destruct (advance [")"] p4) as [[? p5]|?]; [|discriminate].
    destruct (parse_occurrence _ p5) as [[? p6]|?]; [|discriminate].
    intros [= <- <-]. repeat split. by exists k.
  - destruct (advance [")"] p3) as [[? p5]|?]; [|discriminate].
    destruct (parse_occurrence _ p5) as [[? p6]|?]; [|discriminate].
    intros [= <- <-]. repeat split. by exists k.
Qed.


(** X15. The argument of a kind test [map(...)] or [array(...)] has to start with
    a token of a sequence type (for [array]: of a kind test), a name, a colon
    or a star: anything else after the parenthesis is a syntax error, before
    an expression is read. *)
Theorem kind_test_argument_expected (self next : XPathToken)
    (p p1 : Parser.t) :
  symbol (Parser.next_token p) = "(" ->
  advance ["("] p = Ok (next, p1) ->
  in_symbols (symbol (Parser.next_token p1)) ["(name)"; ":"; "*"] = false ->
  (label_in (label (Parser.next_token p1)) ["kind test"] = false ->
   nud_array self p = Err WrongSyntax)
  /\ (label_in (label (Parser.next_token p1))
        ["kind test"; "sequence type"; "function test"] = false ->
      nud_map_sequence_type_or_constructor expression XPathMap_nud as_name
        parse_occurrence self p = Err WrongSyntax).
Proof.
  intros Hnext Hadv Hsym. split; intros Hlabel.
  - unfold nud_sequence_type_or_curly_array_constructor.
    unfold mbind at 1, P_bind at 1, parser at 1. rewrite Hnext.
    cbn [String.eqb Ascii.eqb Bool.eqb negb].
    unfold mbind at 1, P_bind at 1. rewrite Hadv.
    unfold mbind at 1, P_bind at 1.
    unfold expect_sequence_type, mbind at 1, P_bind at 1, parser at 1.
    rewrite Hlabel. cbn [negb]. unfold expected_next. by rewrite Hsym.
  - unfold nud_map_sequence_type_or_constructor.
    unfold mbind at 1, P_bind at 1, parser at 1. rewrite Hnext.
    cbn [String.eqb Ascii.eqb Bool.eqb negb].
    unfold mbind at 1, P_bind at 1. rewrite Hadv.
    unfold mbind at 1, P_bind at 1.
    unfold expect_sequence_type, mbind at 1, P_bind at 1, parser at 1.
    rewrite Hlabel. cbn [negb]. unfold expected_next. by rewrite Hsym.
Qed.

End ArrayKeyword.


Lemma kind_test_argument_expected_witness :
  array_nud_example (array_test_source [integer_literal 1])
  = Err WrongSyntax
  /\ map_kind_test [integer_literal 1] = Err WrongSyntax.
Proof.
  split.
  - apply (proj1 (kind_test_argument_expected literal_expression
             empty_array_nud (raise WrongSyntax) keyword_as_name
             (fun _ => mret tt) array_token (integer_literal 1)
             (parser_at "3.1" (array_test_source [integer_literal 1]))
             (state_after (advance ["("])
                (parser_at "3.1" (array_test_source [integer_literal 1])))
             eq_refl ltac:(vm_compute; reflexivity) eq_refl)).
    reflexivity.
  - apply (proj2 (kind_test_argument_expected literal_expression
             empty_array_nud (raise WrongSyntax) (fun t => mret t)
             (fun _ => mret tt) map_token (integer_literal 1)
             (parser_at "3.1" (map_test_source [integer_literal 1]))
             (state_after (advance ["("])
                (parser_at "3.1" (map_test_source [integer_literal 1])))
             eq_refl ltac:(vm_compute; reflexivity) eq_refl)).
    reflexivity.
Defined.

(** ** The lookup operator: from the parser to the selection *)
Section LookupParse.
Variable expression : Z -> P XPathToken.
Variable select_token : XPathToken -> option XPathContext -> gen.

#[local] Abbreviation key_symbols := ["(name)"; "(integer)"; "("; "*"].

(** X16. [LookupOperatorToken.led]: without a key specifier after [?] the
    binary lookup is a syntax error; an error of the key expression is
    raised; and when the key [K] is read the token has the operands [E] and
    [K], and selects the lookup of [K] in each item of [E]: it yields what
    the items of [E] give, one after the other, up to the first lookup that
    raises, and then the error of [E] itself, if it has one. *)
Theorem lookup_operator_led (self left key : XPathToken) (p p' : Parser.t)
    (context : option XPathContext) :
  (in_symbols (symbol (Parser.next_token p)) key_symbols = false ->
   LookupOperatorToken_led expression self left p = Err WrongSyntax)
  /\ (in_symbols (symbol (Parser.next_token p)) key_symbols = true ->
      forall e,
        expression 85 p = Err e ->
        LookupOperatorToken_led expression self left p = Err e)
  /\ (in_symbols (symbol (Parser.next_token p)) key_symbols = true ->
      expression 85 p = Ok (key, p') ->
      LookupOperatorToken_led expression self left p
      = Ok (set_operands self [left; key], p')
      /\ LookupOperatorToken.select select_token
           (set_operands self [left; key]) context
         = gen_for_gen (select_token left context)
             (LookupOperatorToken.lookup_item select_token key context)
      /\ (forall its err,
            select_token left context = (its, err) ->
            Forall (fun it =>
                      snd (LookupOperatorToken.lookup_item select_token key
                             context it) = None) its ->
            LookupOperatorToken.select select_token
              (set_operands self [left; key]) context
            = (concat
                 (map (fun it =>
                         fst (LookupOperatorToken.lookup_item select_token
                                key context it)) its),
               err))
      /\ (forall before it after err raised,
            select_token left context = (before ++ it :: after, err) ->
            Forall (fun it =>
                      snd (LookupOperatorToken.lookup_item select_token key
                             context it) = None) before ->
            snd (LookupOperatorToken.lookup_item select_token key context it)
            = Some raised ->
            LookupOperatorToken.select select_token
              (set_operands self [left; key]) context
            = (concat
                 (map (fun it =>
                         fst (LookupOperatorToken.lookup_item select_token
                                key context it)) before)
               ++ fst (LookupOperatorToken.lookup_item select_token key
                         context it),
               Some raised))).
Proof.
  unfold LookupOperatorToken_led, mbind, P_bind, expected_next.
  split; [|split].
  - by intros ->.
  - intros -> e ->. reflexivity.
  - intros -> ->. split; [reflexivity|]. split; [reflexivity|].
    unfold LookupOperatorToken.select. cbn [operands set_operands List.last].
    split.
    + intros its err -> Hits. by apply gen_for_gen_all.
    + intros before it after err raised -> Hbefore Hit.
      by apply gen_for_gen_raise.
Qed.

(** X17. [LookupOperatorToken.nud]: without a key specifier after [?] the token is
    returned as it is and nothing is read; only the missing key specifier is
    forgiven, an error of the key expression is raised; and when the key [K]
    is read the token has the single operand [K], selects the lookup of [K]
    in the context item and needs a context. *)
Theorem lookup_operator_nud (self key : XPathToken) (p p' : Parser.t)
    (c : XPathContext) :
  (in_symbols (symbol (Parser.next_token p)) key_symbols = false ->
   LookupOperatorToken_nud expression self p = Ok (self, p))
  /\ (in_symbols (symbol (Parser.next_token p)) key_symbols = true ->
      forall e,
        expression 85 p = Err e ->
        LookupOperatorToken_nud expression self p = Err e)
  /\ (in_symbols (symbol (Parser.next_token p)) key_symbols = true ->
      expression 85 p = Ok (key, p') ->
      LookupOperatorToken_nud expression self p
      = Ok (set_operands self [key], p')
      /\ LookupOperatorToken.select select_token (set_operands self [key])
           (Some c)
         = LookupOperatorToken.lookup_item select_token key (Some c) (item c)
      /\ LookupOperatorToken.select select_token (set_operands self [key])
           None
         = gen_raise MissingContext
      /\ LookupOperatorToken.evaluate select_token
           (set_operands self [key]) None
         = Err MissingContext).
Proof.
  unfold LookupOperatorToken_nud, mbind, P_bind, expected_next.
  split; [|split].
  - by intros ->.
  - intros -> e ->. reflexivity.
  - intros -> ->. split; [reflexivity|].
    split; [apply gen_for_singleton|]. split; reflexivity.
Qed.

End LookupParse.

Lemma lookup_operator_led_witness :
  LookupOperatorToken_led literal_expression question_mark
    (constant (OMap MAP_WEEKDAYS_DE)) (parser_at "3.1" lookup_no_key_source)
  = Err WrongSyntax
  /\ fst <$> LookupOperatorToken_led literal_expression question_mark
               (constant (OMap MAP_WEEKDAYS_DE))
               (parser_at "3.1" lookup_source)
     = Ok (lookup_token [constant (OMap MAP_WEEKDAYS_DE); integer_literal 2])
  /\ (let week := OMap MAP_WEEKDAYS_DE in
      let days := OArray [OAtom (AString "Mo"); OAtom (AString "Tu")] in
      LookupOperatorToken.select literal_select
        (set_operands question_mark
           [constant (OList [week; days]); integer_literal 2]) None
      = ([OAtom (AString "Dienstag"); OAtom (AString "Tu")], None)).
Proof.
  split; [|split].
  - apply (proj1 (lookup_operator_led literal_expression literal_select
             question_mark (constant (OMap MAP_WEEKDAYS_DE)) question_mark
             (parser_at "3.1" lookup_no_key_source)
             (parser_at "3.1" lookup_no_key_source) None)).
    reflexivity.
  - destruct (lookup_operator_led literal_expression literal_select
                question_mark (constant (OMap MAP_WEEKDAYS_DE))
                (integer_literal 2) (parser_at "3.1" lookup_source)
                (state_after (literal_expression 85)
                   (parser_at "3.1" lookup_source)) None)
      as (_ & _ & H).
    destruct H as [-> _]; [reflexivity | vm_compute; reflexivity |].
    reflexivity.
  - intros week days.
    destruct (lookup_operator_led literal_expression literal_select
                question_mark (constant (OList [week; days]))
                (integer_literal 2) (parser_at "3.1" lookup_source)
                (state_after (literal_expression 85)
                   (parser_at "3.1" lookup_source)) None)
      as (_ & _ & H).
    destruct H as (_ & _ & Hall & _);
      [reflexivity | vm_compute; reflexivity |].
    apply (Hall [week; days] None); [reflexivity | repeat constructor].
Defined.

Lemma lookup_operator_nud_witness :
  LookupOperatorToken_nud literal_expression question_mark
    (parser_at "3.1" lookup_no_key_source)
  = Ok (question_mark, parser_at "3.1" lookup_no_key_source)
  /\ fst <$> LookupOperatorToken_nud literal_expression question_mark
               (parser_at "3.1" lookup_source)
     = Ok (lookup_token [integer_literal 2]).
Proof.
  split.
  - apply (proj1 (lookup_operator_nud literal_expression literal_select
             question_mark question_mark
             (parser_at "3.1" lookup_no_key_source)
             (parser_at "3.1" lookup_no_key_source)
             (Context ONone no_variables))).
    reflexivity.
  - destruct (lookup_operator_nud literal_expression literal_select
                question_mark (integer_literal 2)
                (parser_at "3.1" lookup_source)
                (state_after (literal_expression 85)
                   (parser_at "3.1" lookup_source))
                (Context ONone no_variables))
      as (_ & _ & H).
    destruct H as [-> _]; [reflexivity | vm_compute; reflexivity |].
    reflexivity.
Defined.

(** ** The lookup operator: items and key specifiers *)

Section LookupItems.
Variable select_token : XPathToken -> option XPathContext -> gen.

#[local] Abbreviation select := (LookupOperatorToken.select select_token).
#[local] Abbreviation evaluate := (LookupOperatorToken.evaluate select_token).
#[local] Abbreviation lookup_item := (LookupOperatorToken.lookup_item select_token).

(** X18. The binary lookup [E?K] stops at the first item of [E] that is neither a
    map nor an array: the selection yields what the items before it give and
    then raises XPTY0004, the items after it are not looked up, and the
    evaluation raises the error. *)
Theorem lookup_stops_at_first_other_item (self e key : XPathToken)
    (context : option XPathContext) (before after : list pyobj)
    (bad : pyobj) (err : option error) :
  operands self = [e; key] ->
  select_token e context = (before ++ bad :: after, err) ->
  is_map bad = false -> is_array bad = false ->
  Forall (fun it => snd (lookup_item key context it) = None) before ->
  select self context
  = (concat (map (fun it => fst (lookup_item key context it)) before),
     Some (Error "XPTY0004"))
  /\ evaluate self context = Err (Error "XPTY0004").
Proof.
  intros Hops He Hmap Harray Hbefore.
  assert (select self context
          = (concat (map (fun it => fst (lookup_item key context it)) before),
             Some (Error "XPTY0004"))) as Hselect.
  { unfold LookupOperatorToken.select. rewrite Hops. cbn [List.last].
    unfold gen_for_gen. rewrite He. cbn [fst snd].
    rewrite (gen_for_prefix _ before (bad :: after) Hbefore).
    cbn [gen_for]. rewrite (lookup_item_other _ _ _ bad Hmap Harray).
    cbn. by rewrite app_nil_r. }
  split; [exact Hselect|].
  unfold LookupOperatorToken.evaluate, truthy. rewrite Hops, Hselect.
  reflexivity.
Qed.

Lemma gen_for_results (f : pyobj -> result pyobj) (g : pyobj -> pyobj)
    (ks : list pyobj) :
  Forall (fun k => f k = Ok (g k)) ks ->
  gen_for ks (fun k => gen_yield_result (f k)) = (map g ks, None)
  /\ gen_for ks (fun k => gen_yield_seq (f k))
     = (concat (map (fun k => iter_sequence (g k)) ks), None).
Proof.
  induction 1 as [|k ks Hk _ [IH1 IH2]]; [by split|].
  cbn [gen_for map concat]. rewrite IH1, IH2, Hk. by split.
Qed.

(** X19. The key specifiers: an array looked up by a name raises XPTY0004; a
    parenthesized key expression is looked up once for each of its items, an
    array giving one member for each, unflattened, and a map the values
    flattened; a key of any other symbol yields nothing. *)
Theorem lookup_key_specifiers (key : XPathToken)
    (context : option XPathContext) :
  (forall l,
     symbol key = "(name)" ->
     lookup_item key context (OArray l) = gen_raise (Error "XPTY0004"))
  /\ (forall l ks member,
        symbol key = "(" ->
        select_token key context = (ks, None) ->
        Forall (fun k => array_call l (data_value k) = Ok (member k)) ks ->
        lookup_item key context (OArray l) = (map member ks, None))
  /\ (forall d ks bound,
        symbol key = "(" ->
        select_token key context = (ks, None) ->
        Forall (fun k => map_call d (data_value k) = Ok (bound k)) ks ->
        lookup_item key context (OMap d)
        = (concat (map (fun k => iter_sequence (bound k)) ks), None))
  /\ (forall it,
        in_symbols (symbol key) ["*"; "(name)"; "(integer)"; "("] = false ->
        is_map it = true \/ is_array it = true ->
        lookup_item key context it = gen_done).
Proof.
  split; [|split; [|split]].
  - intros l Hsym. unfold LookupOperatorToken.lookup_item. by rewrite Hsym.
  - intros l ks member Hsym Hks Hcall.
    unfold LookupOperatorToken.lookup_item. rewrite Hsym, Hks.
    cbn [String.eqb Ascii.eqb Bool.eqb in_symbols existsb orb].
    unfold gen_for_gen. cbn [fst snd].
    rewrite (proj1 (gen_for_results
               (fun k => array_call l (data_value k)) member ks Hcall)).
    cbn. by rewrite app_nil_r.
  - intros d ks bound Hsym Hks Hcall.
    unfold LookupOperatorToken.lookup_item. rewrite Hsym, Hks.
    cbn [String.eqb Ascii.eqb Bool.eqb in_symbols existsb orb].
    unfold gen_for_gen. cbn [fst snd].
    rewrite (proj2 (gen_for_results
               (fun k => map_call d (data_value k)) bound ks Hcall)).
    cbn. by rewrite app_nil_r.
  - intros it Hsym Hit. cbn in Hsym. rewrite orb_false_r in Hsym.
    apply orb_false_iff in Hsym as [Hstar Hsym].
    apply orb_false_iff in Hsym as [Hname Hsym].
    apply orb_false_iff in Hsym as [Hint Hparen].
    unfold LookupOperatorToken.lookup_item.
    destruct it; cbn in Hit; try (destruct Hit; discriminate);
      cbn [in_symbols existsb]; by rewrite Hstar, Hname, Hint, Hparen.
Qed.

End LookupItems.

Lemma lookup_stops_at_first_other_item_witness :
  let week := OMap MAP_WEEKDAYS_DE in
  let e := constant (OList [week; OAtom (AInteger 3); week]) in
  LookupOperatorToken.select literal_select
    (lookup_token [e; integer_literal 1]) None
  = ([OAtom (AString "Montag")], Some (Error "XPTY0004"))
  /\ LookupOperatorToken.evaluate literal_select
       (lookup_token [e; integer_literal 1]) None
     = Err (Error "XPTY0004").
Proof.
  intros week e.
  apply (lookup_stops_at_first_other_item literal_select
           (lookup_token [e; integer_literal 1]) e (integer_literal 1) None
           [week] [week] (OAtom (AInteger 3)) None);
    [reflexivity | reflexivity | reflexivity | reflexivity |].
  constructor; [reflexivity | constructor].
Defined.

Lemma lookup_key_specifiers_witness :
  let days := [OAtom (AString "Mo"); OAtom (AString "Tu")] in
  let keys := parenthesized_keys [OAtom (AInteger 2); OAtom (AInteger 1)] in
  LookupOperatorToken.lookup_item literal_select (name_token "first") None
    (OArray days)
  = gen_raise (Error "XPTY0004")
  /\ LookupOperatorToken.lookup_item literal_select keys None (OArray days)
     = ([OAtom (AString "Tu"); OAtom (AString "Mo")], None)
  /\ LookupOperatorToken.lookup_item literal_select (string_literal "Mo")
       None (OArray days)
     = gen_done.
Proof.
  intros days keys.
  split; [|split].
  - apply (proj1 (lookup_key_specifiers literal_select
             (name_token "first") None)).
    reflexivity.
  - apply (proj1 (proj2 (lookup_key_specifiers literal_select keys None))
             days [OAtom (AInteger 2); OAtom (AInteger 1)]
             (fun k => match k with
                       | OAtom (AInteger 2) => OAtom (AString "Tu")
                       | _ => OAtom (AString "Mo")
                       end));
      [reflexivity | reflexivity |].
    constructor; [reflexivity|]. constructor; [reflexivity | constructor].
  - apply (proj2 (proj2 (proj2 (lookup_key_specifiers literal_select
             (string_literal "Mo") None))));
      [reflexivity | right; reflexivity].
Defined.

(** ** The arrow operator: from the parser to the evaluation *)
Section ArrowParse.
Variable expression : Z -> P XPathToken.
Variable proxy_nud : XPathToken -> P XPathToken.
Variable is_proxy : XPathToken -> bool.
Variable is_function : XPathToken -> bool.
Variable evaluate_token : XPathToken -> option XPathContext -> result pyobj.
Variable get_function :
  XPathToken -> option XPathContext -> nat -> result callable.

#[local] Abbreviation led_arrow :=
  (led_arrow_operator expression proxy_nud is_proxy is_function).

(** X20. [led_arrow_operator]: the token it returns has three operands, the left
    operand, the function and the argument list, which is a parenthesized
    expression, so that [evaluate_arrow_operator] finds the operands it
    indexes. After [=>] a token of a function class is taken as it is,
    without static evaluation of its arguments, and what follows has to be a
    parenthesized expression; a token that is neither a variable reference,
    a function, a name, a colon, a braced URI nor a parenthesis is a syntax
    error. *)
Theorem arrow_operator_parse (self left t next right : XPathToken)
    (p p' p1 p2 : Parser.t) (context : option XPathContext) :
  (led_arrow self left p = Ok (t, p') ->
   symbol t = symbol self
   /\ exists f args,
        operands t = [left; f; args] /\ symbol args = "("
        /\ Arrow.evaluate_arrow_operator evaluate_token get_function t context
           = (v ← evaluate_token left context;
              arguments ←
                (if truthy args
                 then other_args ← evaluate_token args context;
                      mret (Arrow.add_arguments [v] other_args)
                 else mret [v]);
              func ← get_function f context (length arguments);
              func context arguments))
  /\ (symbol (Parser.next_token p) <> "$" ->
      is_proxy (Parser.next_token p) = false ->
      is_function (Parser.next_token p) = true ->
      advance [] p = Ok (next, p1) ->
      expression 67 p1 = Ok (right, p2) ->
      (symbol right = "(" ->
       led_arrow self left p
       = Ok (set_operands self [left; Parser.next_token p; right], p2))
      /\ (symbol right <> "(" -> led_arrow self left p = Err WrongSyntax))
  /\ (symbol (Parser.next_token p) <> "$" ->
      is_proxy (Parser.next_token p) = false ->
      is_function (Parser.next_token p) = false ->
      in_symbols (symbol (Parser.next_token p)) ["(name)"; ":"; "Q{"; "("]
      = false ->
      led_arrow self left p = Err WrongSyntax).
Proof.
  split; [|split].
  - unfold led_arrow_operator.
    unfold mbind at 1, P_bind at 1, parser at 1.
    unfold mbind at 1, P_bind at 1.
    match goal with |- context [match ?m p with _ => _ end] =>
      destruct (m p) as [[ops q]|?] eqn:Hops; [|discriminate]
    end.
    assert (exists f, ops = [left; f]) as [f ->].
    { revert Hops. unfold mbind, P_bind, mret, P_ret.
      destruct (symbol (Parser.next_token p) =? "$").
      - destruct (expression 80 p) as [[e ?]|?]; [|discriminate].
        intros [= <- _]. by eexists.
      - destruct (is_proxy (Parser.next_token p)).
        + destruct (set_parse_arguments false p) as [[? q1]|?];
            [|discriminate].
          destruct (proxy_nud _ q1) as [[f q2]|?]; [|discriminate].
          destruct (set_parse_arguments true q2) as [[? q3]|?];
            [|discriminate].
          destruct (advance [] q3) as [[? q4]|?]; [|discriminate].
          intros [= <- _]. by eexists.
        + destruct (is_function (Parser.next_token p)).
          * destruct (advance [] p) as [[? q1]|?]; [|discriminate].
            intros [= <- _]. by eexists.
          * destruct (expected _ _ p) as [[? q1]|?]; [|discriminate].
            destruct (set_parse_arguments false q1) as [[? q2]|?];
              [|discriminate].
            destruct (expression 80 q2) as [[e q3]|?]; [|discriminate].
            destruct (set_parse_arguments true q3) as [[? q4]|?];
              [|discriminate].
            intros [= <- _]. by eexists. }
    unfold mbind, P_bind, mret, P_ret.
    destruct (expression 67 q) as [[args q']|?]; [|discriminate].
    unfold expected.
    destruct (in_symbols (symbol args) ["("]) eqn:Hparen;
      [|discriminate].
    intros [= <- <-]. split; [reflexivity|].
    exists f, args. split; [reflexivity|]. split; [|reflexivity].
    cbn in Hparen. rewrite orb_false_r in Hparen.
    by apply String.eqb_eq in Hparen.
  - intros Hvar Hproxy Hfunction Hadv Hright.
    apply String.eqb_neq in Hvar.
    split; intros Hparen;
      unfold led_arrow_operator;
      unfold mbind at 1, P_bind at 1, parser at 1;
      rewrite Hvar, Hproxy, Hfunction;
      unfold mbind, P_bind, mret, P_ret; rewrite Hadv; cbv beta iota;
      rewrite Hright; cbv beta iota;
      unfold expected; cbn [in_symbols existsb]; rewrite orb_false_r.
    + by rewrite Hparen.
    + apply String.eqb_neq in Hparen. by rewrite Hparen.
  - intros Hvar Hproxy Hfunction Hsym.
    apply String.eqb_neq in Hvar.
    unfold led_arrow_operator.
    unfold mbind at 1, P_bind at 1, parser at 1.
    rewrite Hvar, Hproxy, Hfunction.
    unfold mbind, P_bind, mret, P_ret, expected. by rewrite Hsym.
Qed.

End ArrowParse.

Lemma arrow_operator_parse_witness :
  let e := string_literal "a" in
  fst <$> led_arrow_operator literal_expression (fun _ => raise WrongSyntax)
            (fun _ => false) has_function_label fat_arrow e
            (parser_at "3.1" arrow_source)
  = Ok (set_operands fat_arrow
          [e; function_token "concat"; symbol_token "(" 80])
  /\ led_arrow_operator literal_expression (fun _ => raise WrongSyntax)
       (fun _ => false) has_function_label fat_arrow e
       (parser_at "3.1" [fat_arrow; integer_literal 1])
     = Err WrongSyntax.
Proof.
  intros e.
  pose proof (fun t next right p p' p1 p2 =>
    arrow_operator_parse literal_expression (fun _ => raise WrongSyntax)
      (fun _ => false) has_function_label literal_evaluate concat_function
      fat_arrow e t next right p p' p1 p2 None) as H.
  split.
  - destruct (H fat_arrow (symbol_token "(" 80) (symbol_token "(" 80)
                (parser_at "3.1" arrow_source) (parser_at "3.1" arrow_source)
                (state_after (advance []) (parser_at "3.1" arrow_source))
                (state_after (literal_expression 67)
                   (state_after (advance [])
                      (parser_at "3.1" arrow_source))))
      as (_ & Hfunction & _).
    destruct Hfunction as [-> _];
      [vm_compute; discriminate | reflexivity | reflexivity
      | vm_compute; reflexivity | vm_compute; reflexivity | reflexivity |].
    reflexivity.
  - destruct (H fat_arrow fat_arrow fat_arrow
                (parser_at "3.1" [fat_arrow; integer_literal 1])
                (parser_at "3.1" [fat_arrow; integer_literal 1])
                (parser_at "3.1" [fat_arrow; integer_literal 1])
                (parser_at "3.1" [fat_arrow; integer_literal 1]))
      as (_ & _ & Hother).
    apply Hother; [vm_compute; discriminate | reflexivity ..].
Defined.

(** ** The calendar tables *)

Lemma getitem_keys {V : Type} (table : list (Z * V)) (n : Z) :
  is_Some (Calendar.getitem Z.eqb table n) <-> In n (Calendar.keys table).
Proof.
  induction table as [|[k v] table IH]; cbn.
  - split; [by intros [? ?] | done].
  - destruct (Z.eqb_spec k n) as [->|Hne].
    + split; [by left | by eexists].
    + rewrite IH. split; [by right | by intros [?|?]].
Qed.

(** X21. The tables of month and weekday names have the languages of the table
    of number words, in the same order, and in each language a name for
    every month from 1 to 12 and every weekday from 1 to 7, and for no other
    number; the tables of number words of the languages have the same
    numbers in the same order. *)
Theorem calendar_tables_complete :
  Calendar.keys Calendar.NUM_TO_MONTH_MAPS
  = Calendar.keys TranslationMaps.NUM_TO_WORD_MAPS
  /\ Calendar.keys Calendar.NUM_TO_WEEKDAY_MAPS
     = Calendar.keys TranslationMaps.NUM_TO_WORD_MAPS
  /\ (forall lang table n,
        In (lang, table) Calendar.NUM_TO_MONTH_MAPS ->
        is_Some (Calendar.getitem Z.eqb table n) <-> 1 <= n <= 12)
  /\ (forall lang table n,
        In (lang, table) Calendar.NUM_TO_WEEKDAY_MAPS ->
        is_Some (Calendar.getitem Z.eqb table n) <-> 1 <= n <= 7)
  /\ (forall lang table,
        In (lang, table) TranslationMaps.NUM_TO_WORD_MAPS ->
        Calendar.keys table
        = Calendar.keys TranslationMaps.NUM_TO_WORD_MAP_en).
Proof.
  split; [reflexivity|]. split; [reflexivity|].
  split; [|split].
  - intros lang table n [[= <- <-]|[[= <- <-]|[]]];
      rewrite getitem_keys; cbn; lia.
  - intros lang table n [[= <- <-]|[[= <- <-]|[]]];
      rewrite getitem_keys; cbn; lia.
  - intros lang table [[= <- <-]|[[= <- <-]|[]]]; reflexivity.
Qed.

Lemma calendar_tables_complete_witness :
  is_Some (Calendar.getitem Z.eqb
             (default [] (Calendar.getitem String.eqb
                            Calendar.NUM_TO_MONTH_MAPS "it")) 3)
  <-> 1 <= 3 <= 12.
Proof.
  apply (proj1 (proj2 (proj2 calendar_tables_complete)) "it").
  right. left. reflexivity.
Defined.

Lemma run_xpath_test_execution_error_witness :
  TestRun.run_xpath_test (inr tt)
    (TestRun.get_xpath_context catalog_environments (Some "missing") None)
    (fun _ _ => inr TestRun.VTrue)
  = inl TestRun.ExecutionError.
Proof.
  apply run_xpath_test_execution_error.
  split; [by exists tt|]. exists "missing".
  split; [reflexivity|]. split; [discriminate | reflexivity].
Defined.

(** X22. A test case whose result element is an [assert-true], an
    [assert-false], an [assert-empty], an [assert-serialization-error] or an
    [error] is counted among the other failures exactly when the run of the
    test raises the [ExecutionError] of the driver, and is a success or a
    failure otherwise, never an unknown. *)
Theorem leaf_test_case_verdict (run : TestRun.RunError + TestRun.Value)
    (other : W3C.Result -> Z -> result W3C.pyret) (self : W3C.Result)
    (verbose : Z) :
  In (W3C.replace_dash (W3C.type self))
    ["assert_true"; "assert_false"; "assert_empty";
     "assert_serialization_error"; "error"] ->
  (run = inl TestRun.ExecutionError ->
   W3C.run (TestRun.run_validator run other) self verbose = W3C.OtherFailure)
  /\ (run <> inl TestRun.ExecutionError ->
      W3C.run (TestRun.run_validator run other) self verbose = W3C.Success
      \/ W3C.run (TestRun.run_validator run other) self verbose
         = W3C.Failed).
Proof.
  intros Hname.
  assert (W3C.validate (TestRun.run_validator run other) self verbose
          = TestRun.run_validator run other self verbose) as Hleaf.
  { destruct self as [type value attrib children]. cbn [W3C.type] in Hname.
    cbn [W3C.validate].
    destruct Hname as [H|[H|[H|[H|[H|[]]]]]]; rewrite <- H; reflexivity. }
  unfold W3C.run. rewrite Hleaf. unfold TestRun.run_validator.
  split.
  - intros ->.
    destruct Hname as [H|[H|[H|[H|[H|[]]]]]]; rewrite <- H; reflexivity.
  - intros Hrun.
    destruct Hname as [H|[H|[H|[H|[H|[]]]]]]; rewrite <- H;
      cbn [String.eqb Ascii.eqb Bool.eqb];
      destruct run as [[err|err|err|]|v]; try done; cbn; auto.
    + destruct v; cbn; auto.
    + destruct v; cbn; auto.
    + destruct v as [| | | |[|]|]; cbn; auto.
    + destruct (TestRun.attrib_get (W3C.attrib self) "code") as [code|];
        [|auto].
      match goal with |- context [if ?b then _ else _] => destruct b end;
        auto.
    + match goal with |- context [W3C.of_bool ?b] => destruct b end;
        cbn; auto.
    + match goal with |- context [W3C.of_bool ?b] => destruct b end;
        cbn; auto.
Qed.

Lemma leaf_test_case_verdict_witness :
  W3C.run (TestRun.run_validator (inl TestRun.ExecutionError) test_is_true)
    assert_true 1
  = W3C.OtherFailure.
Proof.
  apply (leaf_test_case_verdict (inl TestRun.ExecutionError) test_is_true
           assert_true 1);
    [left; reflexivity | reflexivity].
Defined.
